(** * Mortgage multi-agent router: a shallow embedding of the routing pipeline

    The development follows the Python sources of the project:

    - [utilities/a2a/agent_connect.py]      (module [AgentConnect])
    - [src/agents/routing_agent/agent.py]   (module [Routing])
    - [src/agents/credit_risk_agent/agent.py]  (modules [CreditRisk], [CreditFlow])
    - [src/agents/compliance_agent/agent.py]   (modules [Compliance], [ComplianceFlow])
    - [utilities/a2a/agent_discovery.py]    (module [Discovery])
    - [utilities/mcp/tools/mcp_credit_tools.py]  (module [CreditTools])

    Python values are modelled by a JSON-like inductive type, Python
    exceptions by an explicit error monad, the mutable [RoutingState] by a
    record that is threaded through the node handlers, and the compiled
    LangGraph workflow by its transition table together with a bounded
    interpreter.  External collaborators (the language model, the HTTP
    transport, the in-process fallback agents, [json.loads]/[json.dumps],
    [str.strip]/[str.lower]) are section variables. *)

From Stdlib Require Import String Ascii List Bool Arith ZArith QArith Qround Qminmax Lia Lqa.
From Stdlib Require Import DecimalString.
Import ListNotations.
Open Scope string_scope.

(** ** Python values and exceptions *)

Module Py.

(** The exception classes the modelled code raises or catches.  All of
    them derive from [Exception]; [Other] stands for any further subclass
    (httpx timeouts and connection errors, ValueError, ...). *)
Inductive exn_class :=
| KeyError | IndexError | TypeError | AttributeError
| JSONDecodeError | Other.

Record exn := mkExn { exn_kind : exn_class; exn_str : string }.

(** A computation either returns or raises. *)
Inductive result (A : Type) :=
| Ok (a : A)
| Raise (e : exn).
Arguments Ok {A} a.
Arguments Raise {A} e.

Definition bind {A B} (m : result A) (k : A -> result B) : result B :=
  match m with
  | Ok a => k a
  | Raise e => Raise e
  end.

(** [try m except Exception as e: h e] *)
Definition try_except {A} (m : result A) (h : exn -> A) : A :=
  match m with
  | Ok a => a
  | Raise e => h e
  end.

Definition returns {A} (m : result A) : bool :=
  match m with Ok _ => true | Raise _ => false end.

#[local] Set Warnings "-register-all".

(** JSON-like values: what [json.loads] produces and what the state slots
    hold.  Dictionaries keep insertion order. *)
Inductive json :=
| JNull
| JBool (b : bool)
| JNum (q : Q)
| JStr (s : string)
| JArr (l : list json)
| JObj (kv : list (string * json)).

Definition JInt (z : Z) : json := JNum (inject_Z z).

(** *** Strings *)

Fixpoint prefix_of (p s : string) : bool :=
  match p, s with
  | EmptyString, _ => true
  | String a p', String b s' => Ascii.eqb a b && prefix_of p' s'
  | String _ _, EmptyString => false
  end.

(** [p in s] for two strings. *)
Fixpoint substring_of (p s : string) : bool :=
  prefix_of p s ||
  match s with
  | EmptyString => false
  | String _ s' => substring_of p s'
  end.

Fixpoint rev_string_acc (s acc : string) : string :=
  match s with
  | EmptyString => acc
  | String a s' => rev_string_acc s' (String a acc)
  end.

Definition rev_string (s : string) : string := rev_string_acc s EmptyString.

(** [s.endswith(suf)] *)
Definition endswith (s suf : string) : bool :=
  prefix_of (rev_string suf) (rev_string s).

(** [s.endswith((suf1, suf2, ...))] *)
Definition endswith_any (s : string) (sufs : list string) : bool :=
  existsb (endswith s) sufs.

(** [s in l] for a list of strings. *)
Definition str_in (s : string) (l : list string) : bool :=
  existsb (String.eqb s) l.

(** *** Dictionaries *)

Fixpoint assoc (k : string) (kv : list (string * json)) : option json :=
  match kv with
  | [] => None
  | (k', v) :: rest => if String.eqb k k' then Some v else assoc k rest
  end.

Definition has_key (k : string) (v : json) : bool :=
  match v with
  | JObj kv => match assoc k kv with Some _ => true | None => false end
  | _ => false
  end.

(** [d[k] = v] on a dict: replaces in place or appends. *)
Fixpoint dict_set (k : string) (v : json) (kv : list (string * json))
  : list (string * json) :=
  match kv with
  | [] => [(k, v)]
  | (k', v') :: rest =>
      if String.eqb k k' then (k, v) :: rest else (k', v') :: dict_set k v rest
  end.

(** *** Operators on arbitrary values *)

Definition is_str_eq (k : string) (v : json) : bool :=
  match v with JStr s => String.eqb k s | _ => false end.

(** [k in v] for a string [k]: key membership on a dict, element
    membership on a list, substring test on a string, [TypeError] on
    anything else. *)
Definition contains (k : string) (v : json) : result bool :=
  match v with
  | JObj kv => Ok (match assoc k kv with Some _ => true | None => false end)
  | JArr l => Ok (existsb (is_str_eq k) l)
  | JStr s => Ok (substring_of k s)
  | _ => Raise (mkExn TypeError "argument is not iterable")
  end.

(** [v[k]] for a string [k]. *)
Definition getitem (v : json) (k : string) : result json :=
  match v with
  | JObj kv =>
      match assoc k kv with
      | Some x => Ok x
      | None => Raise (mkExn KeyError k)
      end
  | JArr _ => Raise (mkExn TypeError "list indices must be integers or slices, not str")
  | JStr _ => Raise (mkExn TypeError "string indices must be integers")
  | _ => Raise (mkExn TypeError "object is not subscriptable")
  end.

(** [v[0]].  Dictionaries produced by [json.loads] have string keys only,
    so the integer key is never present. *)
Definition getitem0 (v : json) : result json :=
  match v with
  | JArr (x :: _) => Ok x
  | JArr [] => Raise (mkExn IndexError "list index out of range")
  | JStr (String a _) => Ok (JStr (String a EmptyString))
  | JStr EmptyString => Raise (mkExn IndexError "string index out of range")
  | JObj _ => Raise (mkExn KeyError "0")
  | _ => Raise (mkExn TypeError "object is not subscriptable")
  end.

(** [v.get(k, default)]: a method of dictionaries only. *)
Definition get_method (v : json) (k : string) (default : json) : result json :=
  match v with
  | JObj kv => Ok (match assoc k kv with Some x => x | None => default end)
  | _ => Raise (mkExn AttributeError "object has no attribute 'get'")
  end.

(** [d.get(k, default)] on a value already known to be a dict. *)
Definition dict_get (kv : list (string * json)) (k : string) (default : json) : json :=
  match assoc k kv with Some x => x | None => default end.

(** Truth value of an object in a boolean context. *)
Definition truthy (v : json) : bool :=
  match v with
  | JNull => false
  | JBool b => b
  | JNum q => negb (Qeq_bool q 0)
  | JStr s => negb (String.eqb s "")
  | JArr l => match l with [] => false | _ => true end
  | JObj kv => match kv with [] => false | _ => true end
  end.

Definition is_dict (v : json) : bool :=
  match v with JObj _ => true | _ => false end.

(** *** Numbers

    Python floats and ints are both modelled by exact rationals. *)

(** The operand of an arithmetic operator or of an ordering comparison:
    numbers (and booleans, which are ints); anything else is a
    [TypeError]. *)
Definition as_number (v : json) : result Q :=
  match v with
  | JNum q => Ok q
  | JBool b => Ok (if b then 1 else 0)
  | _ => Raise (mkExn TypeError "unsupported operand type")
  end.

Definition Qlt_bool (x y : Q) : bool := negb (Qle_bool y x).

(** Rounding to the nearest integer, ties to even. *)
Definition round_half_even (q : Q) : Z :=
  let f := Qfloor q in
  match Qcompare (q - inject_Z f) (1 # 2) with
  | Lt => f
  | Gt => (f + 1)%Z
  | Eq => if Z.even f then f else (f + 1)%Z
  end.

(** [round(q, 2)] *)
Definition round2 (q : Q) : Q :=
  Qred (inject_Z (round_half_even (q * 100)) / 100).

End Py.

Import Py.

Notation "x <- m ;; k" := (bind m (fun x => k))
  (at level 61, m at next level, right associativity).

(** ** The collaborators outside the repository

    [AgentCard] keeps the fields of [a2a.types.AgentCard] that the code
    reads.  A [World] fixes, for one request, what every external
    collaborator answers: string and JSON primitives of the Python
    runtime, the HTTP transport behind [A2AClient.send_message], the
    language model, the snapshot of discovered agents, the in-process
    fallback agents and the PDF renderer. *)

Record AgentCard := mkCard {
  card_name : string;
  card_description : string;
  card_url : string;
  card_skills : list string   (* the [name] of every skill, in order *)
}.

Record World := mkWorld {
  (* str.strip() and str.lower() *)
  py_strip : string -> string;
  py_lower : string -> string;
  (* json.loads on a str: [None] is JSONDecodeError *)
  json_loads : string -> option json;
  (* json.dumps(v) and json.dumps(v, indent=2) *)
  json_dumps : json -> string;
  json_dumps_indent : json -> string;
  (* the text an f-string inserts for a value *)
  py_format : json -> string;
  (* str(uuid.uuid4()) *)
  uuid4 : unit -> string;
  (* A2AClient.send_message followed by model_dump(mode='json',
     exclude_none=True): the dumped reply, or the exception of the
     transport (timeout, refused connection, ...) *)
  a2a_send_message : AgentCard -> string -> result json;
  (* ChatOpenAI.ainvoke on one user message: the [content] of the reply *)
  llm_ainvoke : string -> result string;
  (* AgentDiscovery.discover_agents(): name -> card, in insertion order *)
  available_agents : list (string * AgentCard);
  (* DocumentAgent().create() and .process_document(pdf_filename) *)
  document_agent_create : result unit;
  document_agent_process : string -> result json;
  (* re.search(r'([^\s]+\.pdf)', query) followed by os.path.basename *)
  pdf_path_match : string -> option string;
  (* CreditRiskAgent().create() then .process_document_data(input) *)
  credit_risk_agent_process : json -> result json;
  (* ComplianceAgent().create() then .process(input_content) *)
  compliance_agent_process : string -> result json;
  (* the reportlab rendering inside _generate_pdf_report: the path written,
     or the exception raised while building the document *)
  render_pdf : json -> result string
}.

(** ** utilities/a2a/agent_connect.py *)

Module AgentConnect.
Section Connector.

Context (W : World).

(** [response_data['result']['status']['message']['parts'][0]['text']] *)
Definition extract_text (response_data : json) : result json :=
  r <- getitem response_data "result" ;;
  s <- getitem r "status" ;;
  m <- getitem s "message" ;;
  p <- getitem m "parts" ;;
  p0 <- getitem0 p ;;
  getitem p0 "text".

(** [AgentConnector(agent_card).send_task(message, session_id)].  Only
    [KeyError] and [IndexError] of the path lookup are caught; whatever
    [send_message] raises leaves the method. *)
Definition send_task (agent_card : AgentCard) (message session_id : string)
  : result json :=
  response_data <- a2a_send_message W agent_card message ;;
  match extract_text response_data with
  | Ok agent_response => Ok agent_response
  | Raise e =>
      match exn_kind e with
      | KeyError | IndexError =>
          Ok (JStr ("Response received but couldn't extract text. Full response: "
                    ++ py_format W response_data))
      | _ => Raise e
      end
  end.

End Connector.
End AgentConnect.

(** ** src/agents/routing_agent/agent.py *)

Module Routing.

(** One entry of the message log. *)
Record message := mkMsg { role : string; content : string }.

(** [RoutingState]: every key of the TypedDict is present from
    [process_query] on, so the dictionary is a record. *)
Record RoutingState := mkState {
  messages : list message;
  query : string;
  route_decision : string;
  document_data : json;
  risk_assessment : json;
  compliance_result : json;
  final_result : json
}.

Definition set_route_decision (st : RoutingState) (v : string) :=
  mkState (messages st) (query st) v (document_data st)
          (risk_assessment st) (compliance_result st) (final_result st).

Definition set_document_data (st : RoutingState) (v : json) :=
  mkState (messages st) (query st) (route_decision st) v
          (risk_assessment st) (compliance_result st) (final_result st).

Definition set_risk_assessment (st : RoutingState) (v : json) :=
  mkState (messages st) (query st) (route_decision st) (document_data st)
          v (compliance_result st) (final_result st).

Definition set_compliance_result (st : RoutingState) (v : json) :=
  mkState (messages st) (query st) (route_decision st) (document_data st)
          (risk_assessment st) v (final_result st).

Definition set_final_result (st : RoutingState) (v : json) :=
  mkState (messages st) (query st) (route_decision st) (document_data st)
          (risk_assessment st) (compliance_result st) v.

(** [state["messages"].append({"role": "assistant", "content": c})] *)
Definition append_message (st : RoutingState) (c : string) :=
  mkState (messages st ++ [mkMsg "assistant" c]) (query st) (route_decision st)
          (document_data st) (risk_assessment st) (compliance_result st)
          (final_result st).

Definition message_json (m : message) : json :=
  JObj [("role", JStr (role m)); ("content", JStr (content m))].

(** [state.items()], in the key order of the TypedDict. *)
Definition state_items (st : RoutingState) : list (string * json) :=
  [ ("messages", JArr (map message_json (messages st)));
    ("query", JStr (query st));
    ("route_decision", JStr (route_decision st));
    ("document_data", document_data st);
    ("risk_assessment", risk_assessment st);
    ("compliance_result", compliance_result st);
    ("final_result", final_result st) ].

(** [state.keys()] *)
Definition state_keys (st : RoutingState) : list string :=
  map fst (state_items st).

Section Agent.

Context (W : World).

(** *** _get_agent_by_skill *)

Definition agent_mapping : list (string * string) :=
  [ ("document", "document_agent");
    ("pdf", "document_agent");
    ("extraction", "document_agent");
    ("credit", "credit_risk_agent");
    ("risk", "credit_risk_agent");
    ("financial", "credit_risk_agent");
    ("compliance", "compliance_agent");
    ("regulatory", "compliance_agent");
    ("legal", "compliance_agent") ].

Fixpoint lookup {A} (k : string) (l : list (string * A)) : option A :=
  match l with
  | [] => None
  | (k', v) :: rest => if String.eqb k k' then Some v else lookup k rest
  end.

(** The first loop: the first keyword whose canonical agent is registered. *)
Fixpoint direct_mapping (skill_keywords : list string) : option AgentCard :=
  match skill_keywords with
  | [] => None
  | keyword :: rest =>
      match lookup (py_lower W keyword) agent_mapping with
      | Some agent_name =>
          if negb (String.eqb agent_name "") then
            match lookup agent_name (available_agents W) with
            | Some card => Some card
            | None => direct_mapping rest
            end
          else direct_mapping rest
      | None => direct_mapping rest
      end
  end.

(** [" ".join(names)] *)
Fixpoint join_space (names : list string) : string :=
  match names with
  | [] => ""
  | [n] => n
  | n :: rest => n ++ " " ++ join_space rest
  end.

Definition combined_text (name : string) (card : AgentCard) : string :=
  let agent_text := py_lower W (name ++ " " ++ card_description card) in
  let skill_text :=
    match card_skills card with
    | [] => ""
    | skills => py_lower W (join_space skills)
    end in
  agent_text ++ " " ++ skill_text.

(** The second loop: the first registered agent whose text mentions one of
    the keywords. *)
Fixpoint text_matching (skill_keywords : list string)
         (agents : list (string * AgentCard)) : option AgentCard :=
  match agents with
  | [] => None
  | (name, agent_card) :: rest =>
      if existsb
           (fun keyword => substring_of (py_lower W keyword)
                                        (combined_text name agent_card))
           skill_keywords
      then Some agent_card
      else text_matching skill_keywords rest
  end.

Definition _get_agent_by_skill (skill_keywords : list string) : option AgentCard :=
  match direct_mapping skill_keywords with
  | Some card => Some card
  | None => text_matching skill_keywords (available_agents W)
  end.

(** *** _make_routing_decision *)

Definition valid_routes : list string :=
  ["document_only"; "risk_only"; "compliance_only"; "full_pipeline"].

Definition dq : string := String (Ascii.ascii_of_nat 34) EmptyString.
Definition nl : string := String (Ascii.ascii_of_nat 10) EmptyString.

(** The prompt of the routing call (its arrows written in ASCII). *)
Definition routing_prompt (q : string) : string :=
  nl ++ "        Analyze this query and determine which mortgage processing agents should be involved:"
  ++ nl ++ "        "
  ++ nl ++ "        Query: " ++ q
  ++ nl ++ "        "
  ++ nl ++ "        Available agents:"
  ++ nl ++ "        1. document_agent - Extracts data from mortgage documents (PDFs)"
  ++ nl ++ "        2. risk_agent - Performs credit risk assessment"
  ++ nl ++ "        3. compliance_agent - Checks regulatory compliance"
  ++ nl ++ "        "
  ++ nl ++ "        Routing options:"
  ++ nl ++ "        - " ++ dq ++ "document_only" ++ dq ++ " - Only document extraction needed"
  ++ nl ++ "        - " ++ dq ++ "risk_only" ++ dq ++ " - Only risk assessment needed  "
  ++ nl ++ "        - " ++ dq ++ "compliance_only" ++ dq ++ " - Only compliance check needed"
  ++ nl ++ "        - " ++ dq ++ "full_pipeline" ++ dq
        ++ " - Full end-to-end processing (document -> risk -> compliance)"
  ++ nl ++ "        "
  ++ nl ++ "        Return only one of these routing options."
  ++ nl ++ "        ".

(** The validation step on the text the model returned. *)
Definition validate_route (response_content : string) : string :=
  let route_decision := py_lower W (py_strip W response_content) in
  if negb (str_in route_decision valid_routes)
  then "full_pipeline"
  else route_decision.

(** No handler around the model call: its exception leaves the node. *)
Definition _make_routing_decision (st : RoutingState) : result RoutingState :=
  response_content <- llm_ainvoke W (routing_prompt (query st)) ;;
  let route_decision := validate_route response_content in
  Ok (append_message (set_route_decision st route_decision)
                     ("Routing decision: " ++ route_decision)).

Definition _route_condition (st : RoutingState) : string := route_decision st.

(** *** Helpers shared by the three stage handlers *)

(** [state.get(key, default)] *)
Definition state_get (st : RoutingState) (key : string) (default : json) : json :=
  match lookup key (state_items st) with
  | Some v => v
  | None => default
  end.

(** [json.loads(response)]: a [JSONDecodeError] on text that is not JSON,
    a [TypeError] on an argument that is not text. *)
Definition py_json_loads (response : json) : result json :=
  match response with
  | JStr s =>
      match json_loads W s with
      | Some v => Ok v
      | None => Raise (mkExn JSONDecodeError "Expecting value")
      end
  | _ => Raise (mkExn TypeError "the JSON object must be str, bytes or bytearray")
  end.

(** [try: m  except json.JSONDecodeError: h] *)
Definition except_json_decode {A} (m : result A) (h : A) : result A :=
  match m with
  | Ok a => Ok a
  | Raise e =>
      match exn_kind e with
      | JSONDecodeError => Ok h
      | _ => Raise e
      end
  end.

(** ["results" in response_data and response_data["results"]] *)
Definition has_results (response_data : json) : result bool :=
  c <- contains "results" response_data ;;
  if c then
    r <- getitem response_data "results" ;; Ok (truthy r)
  else Ok false.

(** *** _process_document *)

Definition sample_document : json :=
  JObj [ ("applicant_name", JStr "Sample Applicant (No PDF specified)");
         ("annual_income", JInt 75000);
         ("monthly_debt", JInt 2000);
         ("credit_score", JInt 720);
         ("loan_amount", JInt 300000);
         ("employment_history", JStr "Stable employment for 5 years") ].

Definition document_local (st : RoutingState) : result json :=
  _ <- document_agent_create W ;;
  match pdf_path_match W (query st) with
  | Some pdf_filename => document_agent_process W pdf_filename
  | None => Ok sample_document
  end.

Definition document_select (response_data : json) : result json :=
  b <- has_results response_data ;;
  if b then
    r <- getitem response_data "results" ;;
    document_data <- getitem0 r ;;
    _ <- get_method document_data "applicant_name" (JStr "Unknown") ;;
    Ok document_data
  else
    _ <- contains "applicant_name" response_data ;;
    Ok response_data.

Definition document_unparsed (response : json) : json :=
  JObj [ ("applicant_name", JStr "Document Agent Response");
         ("annual_income", JInt 75000);
         ("raw_response", response);
         ("processing_note", JStr "Response parsed from text format") ].

Definition document_remote (card : AgentCard) (st : RoutingState) : json :=
  let document_request :=
    "Extract and analyze data from the mortgage application PDF. Query: "
    ++ query st in
  let session_id := uuid4 W tt in
  try_except
    (response <- AgentConnect.send_task W card document_request session_id ;;
     except_json_decode
       (response_data <- py_json_loads response ;;
        document_select response_data)
       (document_unparsed response))
    (fun e => JObj [("error", JStr ("Document agent communication failed: "
                                    ++ exn_str e))]).

Definition _process_document (st : RoutingState) : RoutingState :=
  try_except
    (document_data <-
       match _get_agent_by_skill ["document"; "pdf"; "extraction"] with
       | None => document_local st
       | Some doc_agent_card => Ok (document_remote doc_agent_card st)
       end ;;
     Ok (append_message (set_document_data st document_data)
                        "Document processing completed"))
    (fun e =>
       append_message
         (set_document_data st
            (JObj [("error", JStr ("Document processing failed: " ++ exn_str e))]))
         ("Document processing error: " ++ exn_str e)).

(** *** _assess_risk and _check_compliance *)

(** The reply of the risk and of the compliance worker: the payload under
    the worker's own key, else the first entry of ["results"], else the
    reply itself; the logging line then calls [.get] on the choice. *)
Definition named_select (key logged : string) (response_data : json) : result json :=
  c <- contains key response_data ;;
  chosen <-
    (if c then getitem response_data key
     else
       b <- has_results response_data ;;
       if b then
         r <- getitem response_data "results" ;; getitem0 r
       else Ok response_data) ;;
  _ <- get_method chosen logged (JStr "unknown") ;;
  Ok chosen.

Definition risk_local (st : RoutingState) : result json :=
  let input_data := state_get st "document_data" (JStr (query st)) in
  credit_risk_agent_process W input_data.

Definition risk_request (st : RoutingState) : string :=
  let input_data := state_get st "document_data" (JObj []) in
  if is_dict input_data
  then "Perform credit risk assessment on this applicant data: "
       ++ json_dumps W input_data
  else "Perform credit risk assessment. Query: " ++ query st.

Definition risk_unparsed (response : json) : json :=
  JObj [ ("risk_level", JStr "medium");
         ("risk_score", JInt 65);
         ("confidence", JNum (7 # 10));
         ("raw_response", response);
         ("processing_note", JStr "Response parsed from text format") ].

Definition risk_remote (card : AgentCard) (st : RoutingState) : json :=
  let session_id := uuid4 W tt in
  try_except
    (response <- AgentConnect.send_task W card (risk_request st) session_id ;;
     except_json_decode
       (response_data <- py_json_loads response ;;
        named_select "risk_analysis" "risk_level" response_data)
       (risk_unparsed response))
    (fun e => JObj [("error", JStr ("Credit risk agent communication failed: "
                                    ++ exn_str e))]).

Definition _assess_risk (st : RoutingState) : RoutingState :=
  try_except
    (risk_result <-
       match _get_agent_by_skill ["credit"; "risk"; "financial"] with
       | None => risk_local st
       | Some risk_agent_card => Ok (risk_remote risk_agent_card st)
       end ;;
     Ok (append_message (set_risk_assessment st risk_result)
                        "Risk assessment completed"))
    (fun e =>
       append_message
         (set_risk_assessment st
            (JObj [("error", JStr ("Risk assessment failed: " ++ exn_str e))]))
         ("Risk assessment error: " ++ exn_str e)).

Definition compliance_local (st : RoutingState) : result json :=
  let input_data :=
    state_get st "risk_assessment"
      (state_get st "document_data" (JStr (query st))) in
  let input_content :=
    if is_dict input_data then json_dumps W input_data
    else py_format W input_data in
  compliance_agent_process W input_content.

Definition compliance_request (st : RoutingState) : string :=
  let input_data :=
    JObj [ ("document_data", state_get st "document_data" (JObj []));
           ("risk_assessment", state_get st "risk_assessment" (JObj []));
           ("query", JStr (query st)) ] in
  "Perform regulatory compliance check on this mortgage application data: "
  ++ json_dumps W input_data.

Definition compliance_unparsed (response : json) : json :=
  JObj [ ("approved", JBool true);
         ("confidence", JNum (8 # 10));
         ("compliance_issues", JArr []);
         ("recommendations", JArr [JStr "Manual review recommended"]);
         ("raw_response", response);
         ("processing_note", JStr "Response parsed from text format") ].

Definition compliance_remote (card : AgentCard) (st : RoutingState) : json :=
  let session_id := uuid4 W tt in
  try_except
    (response <- AgentConnect.send_task W card (compliance_request st) session_id ;;
     except_json_decode
       (response_data <- py_json_loads response ;;
        named_select "compliance_analysis" "approved" response_data)
       (compliance_unparsed response))
    (fun e => JObj [("error", JStr ("Compliance agent communication failed: "
                                    ++ exn_str e))]).

Definition _check_compliance (st : RoutingState) : RoutingState :=
  try_except
    (compliance_result <-
       match _get_agent_by_skill ["compliance"; "regulatory"; "legal"] with
       | None => compliance_local st
       | Some compliance_agent_card =>
           Ok (compliance_remote compliance_agent_card st)
       end ;;
     Ok (append_message (set_compliance_result st compliance_result)
                        "Compliance check completed"))
    (fun e =>
       append_message
         (set_compliance_result st
            (JObj [("error", JStr ("Compliance check failed: " ++ exn_str e))]))
         ("Compliance check error: " ++ exn_str e)).

(** *** _aggregate_results and _generate_pdf_report *)

Definition slot_suffixes : list string := ["_data"; "_assessment"; "_result"].

(** [[k for k in state.keys() if k.endswith(...)]] *)
Definition slot_keys (st : RoutingState) : list string :=
  filter (fun k => endswith_any k slot_suffixes) (state_keys st).

(** [[v for k, v in state.items() if k.endswith(...) and 'error' not in v]]:
    the membership test is evaluated only for the keys that pass the suffix
    test, and raises on a value that is not a container. *)
Fixpoint error_free_values (items : list (string * json)) : result (list json) :=
  match items with
  | [] => Ok []
  | (k, v) :: rest =>
      if endswith_any k slot_suffixes then
        c <- contains "error" v ;;
        vs <- error_free_values rest ;;
        Ok (if negb c then v :: vs else vs)
      else error_free_values rest
  end.

Definition total_steps (st : RoutingState) : nat := length (slot_keys st).

Definition successful_steps (st : RoutingState) : result nat :=
  vs <- error_free_values (state_items st) ;; Ok (length vs).

Definition collect_results (st : RoutingState) : result (list (string * json)) :=
  n <- successful_steps st ;;
  Ok [ ("routing_decision", state_get st "route_decision" (JStr "unknown"));
       ("document_data", state_get st "document_data" (JObj []));
       ("risk_assessment", state_get st "risk_assessment" (JObj []));
       ("compliance_result", state_get st "compliance_result" (JObj []));
       ("processing_summary",
        JObj [ ("total_steps", JInt (Z.of_nat (total_steps st)));
               ("successful_steps", JInt (Z.of_nat n));
               ("agent", JStr "RoutingAgent") ]) ].

Definition summary_prompt (final : list (string * json)) : string :=
  nl ++ "            Summarize this mortgage processing workflow result:"
  ++ nl ++ "            "
  ++ nl ++ "            " ++ json_dumps_indent W (JObj final)
  ++ nl ++ "            "
  ++ nl ++ "            Provide a concise summary of:"
  ++ nl ++ "            1. What was processed"
  ++ nl ++ "            2. Key findings"
  ++ nl ++ "            3. Final recommendation"
  ++ nl ++ "            4. Any issues encountered"
  ++ nl ++ "            ".

(** The whole body of the renderer sits in one [try]; any exception gives
    [None]. *)
Definition _generate_pdf_report (final : list (string * json)) : option string :=
  try_except
    (output_path <- render_pdf W (JObj final) ;; Ok (Some output_path))
    (fun _ => None).

Definition _aggregate_results (st : RoutingState) : RoutingState :=
  try_except
    (final0 <- collect_results st ;;
     summary <- llm_ainvoke W (summary_prompt final0) ;;
     let final1 := dict_set "summary" (JStr summary) final0 in
     let final2 :=
       match _generate_pdf_report final1 with
       | Some pdf_path =>
           if negb (String.eqb pdf_path "")
           then dict_set "output_pdf_path" (JStr pdf_path) final1
           else final1
       | None => final1
       end in
     Ok (append_message (set_final_result st (JObj final2))
                        "Final aggregation completed"))
    (fun e =>
       append_message
         (set_final_result st
            (JObj [("error", JStr ("Aggregation failed: " ++ exn_str e))]))
         ("Aggregation error: " ++ exn_str e)).

(** *** _build_routing_graph: the compiled workflow *)

Inductive node :=
| N_route_decision
| N_document_processing
| N_risk_assessment
| N_compliance_check
| N_final_aggregation.

Definition node_name (n : node) : string :=
  match n with
  | N_route_decision => "route_decision"
  | N_document_processing => "document_processing"
  | N_risk_assessment => "risk_assessment"
  | N_compliance_check => "compliance_check"
  | N_final_aggregation => "final_aggregation"
  end.

Definition entry_point : node := N_route_decision.

(** The mapping of [add_conditional_edges]. *)
Definition conditional_edges : list (string * node) :=
  [ ("document_only", N_document_processing);
    ("risk_only", N_risk_assessment);
    ("compliance_only", N_compliance_check);
    ("full_pipeline", N_document_processing) ].

(** The node registered under each name. *)
Definition handler (n : node) (st : RoutingState) : result RoutingState :=
  match n with
  | N_route_decision => _make_routing_decision st
  | N_document_processing => Ok (_process_document st)
  | N_risk_assessment => Ok (_assess_risk st)
  | N_compliance_check => Ok (_check_compliance st)
  | N_final_aggregation => Ok (_aggregate_results st)
  end.

(** The edge leaving a node once its handler has returned; [None] is END. *)
Definition successor (n : node) (st : RoutingState) : result (option node) :=
  match n with
  | N_route_decision =>
      match lookup (_route_condition st) conditional_edges with
      | Some target => Ok (Some target)
      | None => Raise (mkExn KeyError (_route_condition st))
      end
  | N_document_processing => Ok (Some N_risk_assessment)
  | N_risk_assessment => Ok (Some N_compliance_check)
  | N_compliance_check => Ok (Some N_final_aggregation)
  | N_final_aggregation => Ok None
  end.

(** LangGraph's default bound on the number of steps of one invocation. *)
Definition recursion_limit : nat := 25.

(** [graph.ainvoke]: runs the handlers along the edges and records the
    nodes visited. *)
Fixpoint run_from (fuel : nat) (n : node) (visited : list node) (st : RoutingState)
  : result (list node * RoutingState) :=
  match fuel with
  | O => Raise (mkExn Other "Recursion limit reached")
  | S fuel' =>
      st' <- handler n st ;;
      next <- successor n st' ;;
      match next with
      | None => Ok ((visited ++ [n])%list, st')
      | Some n' => run_from fuel' n' (visited ++ [n])%list st'
      end
  end.

Definition ainvoke (initial_state : RoutingState)
  : result (list node * RoutingState) :=
  run_from recursion_limit entry_point [] initial_state.

(** *** process_query (on an agent whose graph has been built) *)

Definition initial_state (q : string) : RoutingState :=
  mkState [] q "" (JObj []) (JObj []) (JObj []) (JObj []).

Definition process_query (q : string) : json :=
  try_except
    (r <- ainvoke (initial_state q) ;;
     Ok (state_get (snd r) "final_result"
           (JObj [("error", JStr "No final result generated")])))
    (fun e => JObj [ ("error", JStr ("Routing workflow failed: " ++ exn_str e));
                     ("agent", JStr "RoutingAgent") ]).

End Agent.
End Routing.

(** ** src/agents/credit_risk_agent/agent.py *)

Module CreditRisk.
Section Agent.

(** [f"{x:.1f}"] *)
Variable format_1f : Q -> string.

Definition str_list (l : list string) : json := JArr (map JStr l).

(** [_assess_credit_risk(financial_data)].  The three figures are read as
    numbers on entry; [loan_amount] is only copied to the output. *)
Definition _assess_credit_risk (financial_data : list (string * json)) : result json :=
  let annual_income_v := dict_get financial_data "annual_income" (JInt 0) in
  let monthly_debt_v := dict_get financial_data "monthly_debt" (JInt 0) in
  let credit_score_v := dict_get financial_data "credit_score" (JInt 0) in
  let loan_amount := dict_get financial_data "loan_amount" (JInt 0) in
  annual_income <- as_number annual_income_v ;;
  (* Calculate debt-to-income ratio *)
  let monthly_income := if Qlt_bool 0 annual_income then annual_income / 12 else 0 in
  debt_to_income <-
    (if Qlt_bool 0 monthly_income then
       monthly_debt <- as_number monthly_debt_v ;;
       Ok (monthly_debt / monthly_income * 100)
     else Ok 100) ;;
  credit_score <- as_number credit_score_v ;;
  (* Credit score assessment *)
  let '(risk_factors1, risk_score1) :=
    if Qeq_bool credit_score 0 then (["No credit score provided"], 30%Z)
    else if Qlt_bool credit_score 580 then (["Poor credit score (below 580)"], 40%Z)
    else if Qlt_bool credit_score 620 then (["Fair credit score (580-619)"], 25%Z)
    else if Qlt_bool credit_score 670 then (["Good credit score (620-669)"], 10%Z)
    else if Qlt_bool credit_score 740 then ([], 5%Z)
    else ([], 0%Z) in
  (* Debt-to-income assessment *)
  let '(risk_factors2, risk_score2) :=
    if Qlt_bool 43 debt_to_income then
      ((risk_factors1 ++ [("High debt-to-income ratio ("
                           ++ format_1f debt_to_income ++ "%)")%string])%list,
       (risk_score1 + 25)%Z)
    else if Qlt_bool 36 debt_to_income then
      ((risk_factors1 ++ [("Elevated debt-to-income ratio ("
                           ++ format_1f debt_to_income ++ "%)")%string])%list,
       (risk_score1 + 15)%Z)
    else (risk_factors1, risk_score1) in
  (* Income assessment *)
  let '(risk_factors, risk_score) :=
    if Qlt_bool annual_income 30000 then
      ((risk_factors2 ++ ["Low annual income (below $30,000)"])%list,
       (risk_score2 + 20)%Z)
    else if Qlt_bool annual_income 50000 then
      ((risk_factors2 ++ ["Moderate annual income ($30,000-$49,999)"])%list,
       (risk_score2 + 10)%Z)
    else (risk_factors2, risk_score2) in
  (* Determine risk level *)
  let risk_level :=
    if (50 <=? risk_score)%Z then "high"
    else if (25 <=? risk_score)%Z then "medium"
    else "low" in
  (* Generate recommendations *)
  let rec1 :=
    if Qlt_bool credit_score 620
    then ["Consider credit improvement strategies before application"] else [] in
  let rec2 :=
    if Qlt_bool 43 debt_to_income
    then (rec1 ++ ["Reduce monthly debt obligations to improve DTI ratio"])%list
    else rec1 in
  let rec3 :=
    if Qlt_bool annual_income 50000
    then (rec2 ++ ["Consider co-signer or additional income sources"])%list
    else rec2 in
  let recommendations :=
    match rec3 with
    | [] => ["Applicant meets basic credit criteria"]
    | _ => rec3
    end in
  (* Calculate confidence based on available data *)
  let confidence1 := if Qlt_bool 0 credit_score then (7 # 10) + (2 # 10) else 7 # 10 in
  let confidence := if Qlt_bool 0 annual_income then confidence1 + (1 # 10) else confidence1 in
  Ok (JObj
    [ ("risk_level", JStr risk_level);
      ("risk_score", JInt (Z.min risk_score 100));
      ("confidence", JNum (Qred (Qmin confidence 1)));
      ("credit_score_estimate", credit_score_v);
      ("debt_to_income_ratio", JNum (round2 debt_to_income));
      ("annual_income", annual_income_v);
      ("monthly_debt", monthly_debt_v);
      ("risk_factors", str_list risk_factors);
      ("recommendations", str_list recommendations);
      ("metrics",
       JObj [ ("debt_to_income_ratio", JNum (round2 debt_to_income));
              ("credit_score", credit_score_v);
              ("annual_income", annual_income_v);
              ("monthly_debt", monthly_debt_v);
              ("loan_amount", loan_amount) ]);
      ("agent", JStr "CreditRiskAgent") ]).

End Agent.
End CreditRisk.

(** ** src/agents/compliance_agent/agent.py *)

Module Compliance.
Section Agent.

Variable format_1f : Q -> string.

Definition str_list (l : list string) : json := JArr (map JStr l).

(** The figures the checks work on, taken from the nested structure the
    routing agent sends or from the top level. *)
Definition extract_metrics (data : list (string * json))
  : result (json * json * json * json * json) :=
  if has_key "risk_assessment" (JObj data) && has_key "document_data" (JObj data) then
    let risk_data := dict_get data "risk_assessment" (JObj []) in
    let doc_data := dict_get data "document_data" (JObj []) in
    d1 <- get_method doc_data "credit_score" (JInt 0) ;;
    credit_score <- get_method risk_data "credit_score" d1 ;;
    d2 <- get_method doc_data "income" (JInt 0) ;;
    annual_income <- get_method risk_data "annual_income" d2 ;;
    monthly_debt <- get_method risk_data "monthly_debt" (JInt 0) ;;
    loan_amount <- get_method doc_data "loan_amount" (JInt 0) ;;
    debt_to_income <- get_method risk_data "debt_to_income_ratio" (JInt 0) ;;
    Ok (credit_score, annual_income, monthly_debt, loan_amount, debt_to_income)
  else
    let credit_score := dict_get data "credit_score" (JInt 0) in
    let annual_income :=
      dict_get data "annual_income" (dict_get data "income" (JInt 0)) in
    let monthly_debt := dict_get data "monthly_debt" (JInt 0) in
    let loan_amount := dict_get data "loan_amount" (JInt 0) in
    income <- as_number annual_income ;;
    let monthly_income := if Qlt_bool 0 income then income / 12 else 0 in
    debt_to_income <-
      (if Qlt_bool 0 monthly_income then
         debt <- as_number monthly_debt ;;
         Ok (debt / monthly_income * 100)
       else Ok 0) ;;
    Ok (credit_score, annual_income, monthly_debt, loan_amount, JNum debt_to_income).

(** [_analyze_structured_data(data)] *)
Definition _analyze_structured_data (data : list (string * json)) : result json :=
  m <- extract_metrics data ;;
  let '(credit_score_v, annual_income_v, monthly_debt, loan_amount, debt_to_income_v) := m in
  (* Credit score check *)
  credit_score <- as_number credit_score_v ;;
  let '(issues1, recs1) :=
    if Qlt_bool credit_score 620 then
      (["Credit score below conventional lending minimum (620)"],
       ["Consider FHA loan options or credit improvement strategies"])
    else if Qlt_bool credit_score 740 then
      ([], ["Credit score could be improved for better rates"])
    else ([], []) in
  (* Debt-to-income check *)
  debt_to_income <- as_number debt_to_income_v ;;
  let '(issues2, recs2) :=
    if Qlt_bool 43 debt_to_income then
      ((issues1 ++ [("Debt-to-income ratio (" ++ format_1f debt_to_income
                     ++ "%) exceeds recommended maximum (43%)")%string])%list,
       (recs1 ++ ["Consider debt reduction or lower loan amount"])%list)
    else if Qlt_bool 36 debt_to_income then
      (issues1, (recs1 ++ ["DTI ratio is acceptable but on the higher side"])%list)
    else (issues1, recs1) in
  (* Income verification *)
  annual_income <- as_number annual_income_v ;;
  let '(compliance_issues, recommendations) :=
    if Qlt_bool annual_income 30000 then
      ((issues2 ++ ["Annual income may be insufficient for mortgage qualification"])%list,
       (recs2 ++ ["Verify income documentation and consider co-signer"])%list)
    else (issues2, recs2) in
  (* Determine overall approval status *)
  let approved :=
    Nat.eqb (length compliance_issues) 0
    && Qle_bool 620 credit_score && Qle_bool debt_to_income 43 in
  Ok (JObj
    [ ("approved", JBool approved);
      ("confidence", JNum (if approved then 85 # 100 else 65 # 100));
      ("compliance_issues", str_list compliance_issues);
      ("recommendations", str_list recommendations);
      ("metrics",
       JObj [ ("credit_score", credit_score_v);
              ("debt_to_income_ratio", JNum (round2 debt_to_income));
              ("annual_income", annual_income_v);
              ("monthly_debt", monthly_debt);
              ("loan_amount", loan_amount) ]);
      ("agent", JStr "ComplianceAgent") ]).

End Agent.
End Compliance.

(** ** Vocabulary of the statements *)

Module Props.
Import Routing.

(** The nodes that own a state slot and delegate to a worker. *)
Definition is_stage (n : node) : bool :=
  match n with
  | N_document_processing | N_risk_assessment | N_compliance_check => true
  | _ => false
  end.

(** The slot a stage handler writes. *)
Definition slot_of (n : node) (st : RoutingState) : json :=
  match n with
  | N_route_decision => JStr (route_decision st)
  | N_document_processing => document_data st
  | N_risk_assessment => risk_assessment st
  | N_compliance_check => compliance_result st
  | N_final_aggregation => final_result st
  end.

Definition b2n (b : bool) : nat := if b then 1%nat else 0%nat.

(** ['error' not in v], when the test is defined and true. *)
Definition lacks_error (v : json) : bool :=
  match contains "error" v with
  | Ok false => true
  | _ => false
  end.

(** How many stage slots were written by a handler along a run. *)
Definition populated_slots (visited : list node) : nat :=
  length (filter is_stage visited).

(** Among the stage slots written along a run, those without ['error']. *)
Definition error_free_populated (visited : list node) (st : RoutingState) : nat :=
  length (filter (fun n => is_stage n && lacks_error (slot_of n st)) visited).

(** The request text of the document stage. *)
Definition document_request (st : RoutingState) : string :=
  "Extract and analyze data from the mortgage application PDF. Query: "
  ++ query st.

(** The mapping a handler stores when it has caught [e]. *)
Definition error_slot (prefix : string) (e : exn) : json :=
  JObj [("error", JStr (prefix ++ exn_str e))].

(** What the aggregation collects before it asks for the summary, given
    the count [m] of error-free slots. *)
Definition collected (st : RoutingState) (m : nat) : list (string * json) :=
  [ ("routing_decision", JStr (route_decision st));
    ("document_data", document_data st);
    ("risk_assessment", risk_assessment st);
    ("compliance_result", compliance_result st);
    ("processing_summary",
     JObj [ ("total_steps", JInt 4);
            ("successful_steps", JInt (Z.of_nat m));
            ("agent", JStr "RoutingAgent") ]) ].

(** [final["processing_summary"][k]] when both keys are there. *)
Definition summary_field (k : string) (final : json) : option json :=
  match final with
  | JObj kv =>
      match assoc "processing_summary" kv with
      | Some (JObj ps) => assoc k ps
      | _ => None
      end
  | _ => None
  end.


(** The state the routing node leaves behind for a validated label. *)
Definition routed (st : RoutingState) (label : string) : RoutingState :=
  append_message (set_route_decision st label) ("Routing decision: " ++ label).

(** The nodes on the fixed edges from a node to END. *)
Definition downstream (n : node) : list node :=
  match n with
  | N_route_decision => []
  | N_document_processing =>
      [N_document_processing; N_risk_assessment; N_compliance_check;
       N_final_aggregation]
  | N_risk_assessment =>
      [N_risk_assessment; N_compliance_check; N_final_aggregation]
  | N_compliance_check => [N_compliance_check; N_final_aggregation]
  | N_final_aggregation => [N_final_aggregation]
  end.

(** The handlers on those edges, composed. *)
Definition run_stages (W : World) (n : node) (st : RoutingState) : RoutingState :=
  match n with
  | N_route_decision => st
  | N_document_processing =>
      _aggregate_results W
        (_check_compliance W (_assess_risk W (_process_document W st)))
  | N_risk_assessment =>
      _aggregate_results W (_check_compliance W (_assess_risk W st))
  | N_compliance_check => _aggregate_results W (_check_compliance W st)
  | N_final_aggregation => _aggregate_results W st
  end.

(** Replacing the language model of a world. *)
Definition with_llm (W : World) (f : string -> result string) : World :=
  mkWorld (py_strip W) (py_lower W) (json_loads W) (json_dumps W)
          (json_dumps_indent W) (py_format W) (uuid4 W) (a2a_send_message W)
          f (available_agents W) (document_agent_create W)
          (document_agent_process W) (pdf_path_match W)
          (credit_risk_agent_process W) (compliance_agent_process W)
          (render_pdf W).

End Props.

(** ** Sample collaborators, for running the model on concrete requests *)

Module Sample.
Import Routing Props.

Definition lower_char (a : ascii) : ascii :=
  let n := nat_of_ascii a in
  if (65 <=? n)%nat && (n <=? 90)%nat then ascii_of_nat (n + 32) else a.

(** [str.lower] on ASCII text. *)
Fixpoint ascii_lower (s : string) : string :=
  match s with
  | EmptyString => EmptyString
  | String a s' => String (lower_char a) (ascii_lower s')
  end.

Definition is_space (a : ascii) : bool :=
  let n := nat_of_ascii a in
  ((9 <=? n)%nat && (n <=? 13)%nat) || ((28 <=? n)%nat && (n <=? 32)%nat).

Fixpoint lstrip (s : string) : string :=
  match s with
  | EmptyString => EmptyString
  | String a s' => if is_space a then lstrip s' else s
  end.

(** [str.strip] on ASCII text. *)
Definition ascii_strip (s : string) : string :=
  rev_string (lstrip (rev_string (lstrip s))).

(** A decoder that knows the empty object and one risk report. *)
Definition sample_loads (s : string) : option json :=
  if String.eqb s "{}" then Some (JObj [])
  else if String.eqb s "{risk}" then
    Some (JObj [("risk_analysis", JObj [("risk_level", JStr "low")])])
  else None.

Definition sample_dumps (v : json) : string :=
  match v with
  | JObj [] => "{}"
  | JStr s => s
  | _ => "{...}"
  end.

(** A model that answers the routing prompt with [label] and any other
    prompt with a summary. *)
Definition sample_llm (label : string) (prompt : string) : result string :=
  if substring_of "Routing options:" prompt then Ok label
  else Ok "1. **Processed:** one application".

(** The same, except that the summary call fails. *)
Definition failing_summary_llm (label : string) (prompt : string) : result string :=
  if substring_of "Routing options:" prompt then Ok label
  else Raise (mkExn Other "Rate limit reached").

Definition timed_out : exn := mkExn Other "timed out".

Definition risk_card : AgentCard :=
  mkCard "credit_risk_agent" "Performs credit risk assessment"
         "http://localhost:10002" ["Credit Risk Assessment"].

Definition document_card : AgentCard :=
  mkCard "document_agent" "Extracts data from mortgage documents"
         "http://localhost:10001" ["Document Extraction"].

Definition compliance_card : AgentCard :=
  mkCard "compliance_agent" "Checks regulatory compliance"
         "http://localhost:10003" ["Compliance Check"].

Definition all_cards : list (string * AgentCard) :=
  [ ("document_agent", document_card);
    ("credit_risk_agent", risk_card);
    ("compliance_agent", compliance_card) ].

(** No agent is registered; every fallback agent answers. *)
Definition local_world (label : string) : World :=
  mkWorld ascii_strip ascii_lower sample_loads sample_dumps sample_dumps
          sample_dumps (fun _ => "3f2b8c1e-0000-4000-8000-000000000001")
          (fun _ _ => Raise timed_out)
          (sample_llm label) []
          (Ok tt)
          (fun _ => Ok (JObj [("applicant_name", JStr "John Smith")]))
          (fun _ => None)
          (fun _ => Ok (JObj [("risk_level", JStr "low")]))
          (fun _ => Ok (JObj [("approved", JBool true)]))
          (fun _ => Ok "mortgage_docs/output/compliance_report.pdf").

(** The three workers are registered and reply with [reply]. *)
Definition remote_world (label : string) (reply : AgentCard -> string -> result json)
  : World :=
  mkWorld ascii_strip ascii_lower sample_loads sample_dumps sample_dumps
          sample_dumps (fun _ => "3f2b8c1e-0000-4000-8000-000000000001")
          reply
          (sample_llm label) all_cards
          (Ok tt)
          (fun _ => Ok (JObj [("applicant_name", JStr "John Smith")]))
          (fun _ => None)
          (fun _ => Ok (JObj [("risk_level", JStr "low")]))
          (fun _ => Ok (JObj [("approved", JBool true)]))
          (fun _ => Ok "mortgage_docs/output/compliance_report.pdf").

(** No agent is registered; the fallback risk and compliance agents answer
    with the very input they were given. *)
Definition echo_world (label : string) : World :=
  mkWorld ascii_strip ascii_lower sample_loads sample_dumps sample_dumps
          sample_dumps (fun _ => "3f2b8c1e-0000-4000-8000-000000000001")
          (fun _ _ => Raise timed_out)
          (sample_llm label) []
          (Ok tt)
          (fun _ => Ok (JObj [("applicant_name", JStr "John Smith")]))
          (fun _ => None)
          (fun input => Ok (JObj [("input", input)]))
          (fun input => Ok (JObj [("input", JStr input)]))
          (fun _ => Ok "mortgage_docs/output/compliance_report.pdf").

(** A well-formed reply envelope carrying [text]. *)
Definition envelope (text : string) : json :=
  JObj [("id", JStr "1"); ("jsonrpc", JStr "2.0");
        ("result",
         JObj [("kind", JStr "task");
               ("status",
                JObj [("state", JStr "completed");
                      ("message",
                       JObj [("role", JStr "agent");
                             ("parts",
                              JArr [JObj [("kind", JStr "text");
                                          ("text", JStr text)]])])])])].

Definition example_query : string :=
  "Assess credit risk for applicant with 80000 income, 720 credit score".

End Sample.

(** ** Further vocabulary *)

Module Extra.
Import Routing Props.

(** Replacing the HTTP transport of a world. *)
Definition with_transport (W : World)
           (f : AgentCard -> string -> result json) : World :=
  mkWorld (py_strip W) (py_lower W) (json_loads W) (json_dumps W)
          (json_dumps_indent W) (py_format W) (uuid4 W) f
          (llm_ainvoke W) (available_agents W) (document_agent_create W)
          (document_agent_process W) (pdf_path_match W)
          (credit_risk_agent_process W) (compliance_agent_process W)
          (render_pdf W).

(** The stage handlers on the fixed edges from a node, without the
    aggregation at the end. *)
Definition before_aggregation (W : World) (n : node) (st : RoutingState)
  : RoutingState :=
  match n with
  | N_document_processing =>
      _check_compliance W (_assess_risk W (_process_document W st))
  | N_risk_assessment => _check_compliance W (_assess_risk W st)
  | N_compliance_check => _check_compliance W st
  | _ => st
  end.

(** A keyword list names a registered canonical agent. *)
Definition canonical_hit (W : World) (kw : string) (card : AgentCard) : Prop :=
  exists name,
    lookup (py_lower W kw) agent_mapping = Some name /\
    lookup name (available_agents W) = Some card.

(** An agent of the registry mentions a keyword in its name, description
    or skill names. *)
Definition text_hit (W : World) (kw : string) (card : AgentCard) : Prop :=
  exists name,
    In (name, card) (available_agents W) /\
    substring_of (py_lower W kw) (combined_text W name card) = true.

End Extra.

(** ** Vocabulary for the credit risk assessment *)

Module CreditFacts.

(** The points each check of [_assess_credit_risk] adds to the score. *)
Definition credit_points (cs : Q) : Z :=
  if Qeq_bool cs 0 then 30
  else if Qlt_bool cs 580 then 40
  else if Qlt_bool cs 620 then 25
  else if Qlt_bool cs 670 then 10
  else if Qlt_bool cs 740 then 5
  else 0.

Definition dti_points (dti : Q) : Z :=
  if Qlt_bool 43 dti then 25 else if Qlt_bool 36 dti then 15 else 0.

Definition income_points (ai : Q) : Z :=
  if Qlt_bool ai 30000 then 20 else if Qlt_bool ai 50000 then 10 else 0.

(** The ratio the assessment works with: 100 when there is no positive
    monthly income. *)
Definition debt_to_income (ai md : Q) : Q :=
  let monthly_income := if Qlt_bool 0 ai then ai / 12 else 0 in
  if Qlt_bool 0 monthly_income then md / monthly_income * 100 else 100.

Definition risk_points (ai md cs : Q) : Z :=
  (credit_points cs + dti_points (debt_to_income ai md) + income_points ai)%Z.

Definition level_of (score : Z) : string :=
  if (50 <=? score)%Z then "high"
  else if (25 <=? score)%Z then "medium"
  else "low".

(** The three figures of the financial data, read as numbers. *)
Definition figures (financial_data : list (string * json)) (ai md cs : Q) : Prop :=
  as_number (dict_get financial_data "annual_income" (JInt 0)) = Ok ai /\
  as_number (dict_get financial_data "monthly_debt" (JInt 0)) = Ok md /\
  as_number (dict_get financial_data "credit_score" (JInt 0)) = Ok cs.

End CreditFacts.

(** ** utilities/a2a/agent_discovery.py *)

Module Discovery.

(** What opening and parsing the registry file gives. *)
Inductive registry_file :=
| Missing                    (* FileNotFoundError *)
| Invalid                    (* json.JSONDecodeError *)
| Unreadable (e : exn)       (* any other exception of open or json.load *)
| Parsed (data : json).

(** [_load_registry]: only the two named exceptions are turned into an
    empty list; data that is not a list raises a ValueError. *)
Definition _load_registry (f : registry_file) : result (list json) :=
  match f with
  | Missing => Ok []
  | Invalid => Ok []
  | Unreadable e => Raise e
  | Parsed (JArr urls) => Ok urls
  | Parsed _ => Raise (mkExn Other "Registry file must contain a list of URLs")
  end.




Section Discover.

(** [A2ACardResolver(base_url, client).get_agent_card()]: a card, [None],
    or the exception of the probe. *)
Variable get_agent_card : string -> result (option AgentCard).





End Discover.


End Discovery.

(** ** utilities/mcp/tools/mcp_credit_tools.py *)

Module CreditTools.

(** [str(n)] for an int. *)
Definition str_int (z : Z) : string := NilZero.string_of_int (Z.to_int z).

(** [round(q, 4)] *)
Definition round4 (q : Q) : Q :=
  Qred (inject_Z (round_half_even (q * 10000)) / 10000).

(** [MockCreditAPITool._get_score_range] *)
Definition _get_score_range (score : Z) : string :=
  if (800 <=? score)%Z then "Excellent (800-850)"
  else if (740 <=? score)%Z then "Very Good (740-799)"
  else if (670 <=? score)%Z then "Good (670-739)"
  else if (580 <=? score)%Z then "Fair (580-669)"
  else "Poor (300-579)".

(** [MockCreditAPITool._get_payment_history] *)
Definition _get_payment_history (score : Z) : string :=
  if (750 <=? score)%Z then "Excellent - No late payments"
  else if (700 <=? score)%Z then "Good - 1-2 late payments in last 2 years"
  else if (650 <=? score)%Z then "Fair - Some late payments"
  else "Poor - Multiple late payments or defaults".

(** [VertexAIRiskTool._get_risk_category] *)
Definition _get_risk_category (risk_score : Q) : string :=
  if Qlt_bool risk_score (1 # 10) then "Very Low Risk"
  else if Qlt_bool risk_score (25 # 100) then "Low Risk"
  else if Qlt_bool risk_score (50 # 100) then "Medium Risk"
  else if Qlt_bool risk_score (75 # 100) then "High Risk"
  else "Very High Risk".

Section Tools.

(** [hash] on a str (any integer: the hash is salted per process),
    [str.lower], the clock of the event loop as each of the two tools
    reads it, and the two draws of [random.uniform], in the order in which
    [predict_default_risk] makes them. *)
Variable py_hash : string -> Z.
Variable py_lower : string -> string.
Variable loop_time : Q.
Variable prediction_time : Q.
Variable noise : Q.
Variable jitter : Q.

(** [MockCreditAPITool.get_credit_score(applicant_name)].  [%] with a
    positive modulus is never negative, as [Z.modulo]. *)
Definition get_credit_score (applicant_name : json) : result json :=
  match applicant_name with
  | JStr name =>
      let name_hash := (py_hash (py_lower name) mod 1000)%Z in
      (* Base credit score (580-850 range) *)
      let base_score := (580 + name_hash mod 270)%Z in
      let base_score :=
        if substring_of "john" (py_lower name) then Z.max 720 base_score
        else if substring_of "jane" (py_lower name) then Z.max 680 base_score
        else base_score in
      Ok (JObj
        [ ("credit_score", JInt base_score);
          ("credit_score_range", JStr (_get_score_range base_score));
          ("credit_history_length",
           JStr (str_int (Z.max 1 (name_hash mod 15)) ++ " years"));
          ("payment_history", JStr (_get_payment_history base_score));
          ("credit_utilization",
           JStr (str_int (Z.max 5 (name_hash mod 45)) ++ "%"));
          ("total_accounts", JInt (Z.max 3 (name_hash mod 20)));
          ("open_accounts", JInt (Z.max 2 (name_hash mod 12)));
          ("recent_inquiries", JInt (name_hash mod 5));
          ("derogatory_marks", JInt (Z.max 0 (name_hash mod 4 - 2)));
          ("api_provider", JStr "MockCreditBureau");
          ("timestamp", JNum loop_time) ])
  | _ => Raise (mkExn AttributeError "object has no attribute 'lower'")
  end.

(** [VertexAIRiskTool._calculate_ml_risk_score].  Numbers are exact
    rationals: the divisions below are those of the source for features
    within the range of a float; on a larger int the source raises an
    OverflowError. *)
Definition _calculate_ml_risk_score (credit_score dti ltv income : json) : result Q :=
  cs <- as_number credit_score ;;
  let credit_normalized := (cs - 300) / 550 in
  d <- as_number dti ;;
  let dti_risk := Qmin (d / 60) 1 in
  l <- as_number ltv ;;
  let ltv_risk := Qmin (l / 100) 1 in
  i <- as_number income ;;
  let income_factor := Qmax 0 (Qmin 1 ((100000 - i) / 80000)) in
  let base_risk :=
    (1 - credit_normalized) * (35 # 100) +
    dti_risk * (30 # 100) +
    ltv_risk * (20 # 100) +
    income_factor * (15 # 100) in
  let risk_score := Qmax (1 # 100) (Qmin (99 # 100) (base_risk + noise)) in
  Ok (round4 risk_score).

(** [VertexAIRiskTool._generate_shap_values] *)
Definition _generate_shap_values (credit_score dti ltv income : json) : result json :=
  cs <- as_number credit_score ;;
  d <- as_number dti ;;
  l <- as_number ltv ;;
  i <- as_number income ;;
  Ok (JObj
    [ ("credit_score_impact", JNum (if Qlt_bool 700 cs then - (15 # 100) else 20 # 100));
      ("dti_impact", JNum (if Qlt_bool 40 d then 10 # 100 else - (5 # 100)));
      ("ltv_impact", JNum (if Qlt_bool 85 l then 8 # 100 else - (3 # 100)));
      ("income_impact", JNum (if Qlt_bool 75000 i then - (12 # 100) else 8 # 100)) ]).

(** [VertexAIRiskTool.predict_default_risk(financial_data)] *)
Definition predict_default_risk (financial_data : json) : result json :=
  credit_score <- get_method financial_data "credit_score" (JInt 700) ;;
  dti_ratio <- get_method financial_data "dti_ratio" (JInt 30) ;;
  ltv_ratio <- get_method financial_data "ltv_ratio" (JInt 80) ;;
  income <- get_method financial_data "annual_income" (JInt 50000) ;;
  risk_score <- _calculate_ml_risk_score credit_score dti_ratio ltv_ratio income ;;
  shap_values <- _generate_shap_values credit_score dti_ratio ltv_ratio income ;;
  Ok (JObj
    [ ("default_probability", JNum risk_score);
      ("risk_category", JStr (_get_risk_category risk_score));
      ("feature_importance",
       JObj [ ("credit_score", JNum (35 # 100));
              ("dti_ratio", JNum (30 # 100));
              ("ltv_ratio", JNum (20 # 100));
              ("income_level", JNum (15 # 100)) ]);
      ("model_confidence",
       JNum (Qmin (95 # 100) (Qmax (60 # 100) ((85 # 100) + jitter))));
      ("model_version", JStr "credit-risk-model-v1");
      ("prediction_timestamp", JNum prediction_time);
      ("shap_values", shap_values) ]).

End Tools.
End CreditTools.

(** ** src/agents/credit_risk_agent/agent.py: the document entry point *)

Module CreditFlow.

(** [s.replace(',', '')] *)
Fixpoint remove_commas (s : string) : string :=
  match s with
  | EmptyString => EmptyString
  | String a s' =>
      if Ascii.eqb a ","%char then remove_commas s' else String a (remove_commas s')
  end.

Definition income_fields : list string :=
  ["annual_income"; "income"; "yearly_income"; "gross_income"].
Definition debt_fields : list string :=
  ["monthly_debt"; "debt"; "monthly_payments"; "total_debt"].
Definition credit_fields : list string :=
  ["credit_score"; "fico_score"; "credit_rating"].

Section Agent.

Variable format_1f : Q -> string.

(** The collaborators of the two tools. *)
Variable py_hash : string -> Z.
Variable py_lower : string -> string.
Variable loop_time : Q.
Variable prediction_time : Q.
Variable noise : Q.
Variable jitter : Q.

(** [json.loads] on a str ([None]: JSONDecodeError), [float] on a str
    ([None]: ValueError), and [re.search(pattern, text, re.IGNORECASE)]
    given as the text of its first group ([None]: no match). *)
Variable json_loads : string -> option json.
Variable py_float : string -> option Q.
Variable re_search : string -> string -> option string.

(** [if not self.agent: await self.create()] *)
Variable ensure_agent : result unit.

(** [float(v)]; [None] stands for the ValueError and the TypeError that
    the loops of [_extract_financial_metrics] catch.  An int beyond the
    range of a float, on which the source raises an OverflowError that
    the loops do not catch, is outside the numeric model. *)
Definition to_float (v : json) : option Q :=
  match v with
  | JNum q => Some q
  | JBool b => Some (if b then 1 else 0)
  | JStr s => py_float s
  | _ => None
  end.

(** One of the three loops over candidate field names: the value of the
    variable after the loop, which starts at [0]. *)
Fixpoint first_float (fields : list string) (doc_data : json) : result json :=
  match fields with
  | [] => Ok (JInt 0)
  | field :: rest =>
      present <- contains field doc_data ;;
      if present then
        match getitem doc_data field with
        | Ok v =>
            match to_float v with
            | Some x => Ok (JNum x)
            | None => first_float rest doc_data
            end
        | Raise e =>
            match exn_kind e with
            | TypeError => first_float rest doc_data
            | _ => Raise e
            end
        end
      else first_float rest doc_data
  end.

(** [_extract_from_text(text)] *)
Definition _extract_from_text (text : string) : list (string * json) :=
  let income_match := re_search "income[:\s]*\$?([0-9,]+)" text in
  let debt_match := re_search "debt[:\s]*\$?([0-9,]+)" text in
  let credit_match := re_search "credit[_\s]*score[:\s]*([0-9]+)" text in
  let annual_income :=
    match income_match with
    | Some g =>
        match py_float (remove_commas g) with Some x => JNum x | None => JInt 0 end
    | None => JInt 0
    end in
  let monthly_debt :=
    match debt_match with
    | Some g =>
        match py_float (remove_commas g) with Some x => JNum x | None => JInt 0 end
    | None => JInt 0
    end in
  let credit_score :=
    match credit_match with
    | Some g => match py_float g with Some x => JNum x | None => JInt 0 end
    | None => JInt 0
    end in
  [ ("annual_income", annual_income);
    ("monthly_debt", monthly_debt);
    ("credit_score", credit_score);
    ("employment_history", JStr "");
    ("applicant_name", JStr "Unknown");
    ("loan_amount", JInt 0) ].

(** The part of [_extract_financial_metrics] after the str case. *)
Definition extract_fields (doc_data : json) : result (list (string * json)) :=
  annual_income <- first_float income_fields doc_data ;;
  monthly_debt <- first_float debt_fields doc_data ;;
  credit_score <- first_float credit_fields doc_data ;;
  employment_history <- get_method doc_data "employment_history" (JStr "") ;;
  applicant_name <- get_method doc_data "applicant_name" (JStr "Unknown") ;;
  loan_amount <- get_method doc_data "loan_amount" (JInt 0) ;;
  Ok [ ("annual_income", annual_income);
       ("monthly_debt", monthly_debt);
       ("credit_score", credit_score);
       ("employment_history", employment_history);
       ("applicant_name", applicant_name);
       ("loan_amount", loan_amount) ].

(** [_extract_financial_metrics(doc_data)] *)
Definition _extract_financial_metrics (doc_data : json)
  : result (list (string * json)) :=
  match doc_data with
  | JStr text =>
      match json_loads text with
      | Some parsed => extract_fields parsed
      | None => Ok (_extract_from_text text)
      end
  | _ => extract_fields doc_data
  end.

(** [_assess_credit_risk_manual(doc_data)] *)
Definition _assess_credit_risk_manual (doc_data : json) : json :=
  try_except
    (financial_data <- _extract_financial_metrics doc_data ;;
     CreditRisk._assess_credit_risk format_1f financial_data)
    (fun e =>
       JObj [ ("risk_level", JStr "high");
              ("risk_score", JInt 0);
              ("confidence", JNum 0);
              ("credit_score_estimate", JInt 0);
              ("debt_to_income_ratio", JInt 0);
              ("annual_income", JInt 0);
              ("monthly_debt", JInt 0);
              ("risk_factors", JArr [JStr ("Processing error: " ++ exn_str e)]);
              ("recommendations",
               JArr [JStr "Manual review required due to processing error"]);
              ("metrics", JObj []);
              ("agent", JStr "CreditRiskAgent") ]).

(** The body of the [try] of [process_document_data].  Numbers are exact
    rationals: the divisions below are those of the source for figures
    within the range of a float; on a larger int the source raises an
    OverflowError, which sends the document to the manual assessment. *)
Definition mcp_assessment (doc_data : json) : result json :=
  (* Extract applicant info for credit lookup *)
  applicant_name <- get_method doc_data "applicant_name" (JStr "Unknown") ;;
  annual_income <- get_method doc_data "income" (JInt 0) ;;
  loan_amount <- get_method doc_data "loan_amount" (JInt 0) ;;
  property_value <- get_method doc_data "property_value" (JInt 0) ;;
  (* Get credit score using MCP credit API tool *)
  credit_data <-
    CreditTools.get_credit_score py_hash py_lower loop_time applicant_name ;;
  credit_score <- get_method credit_data "credit_score" (JInt 720) ;;
  (* Calculate financial ratios *)
  income <- as_number annual_income ;;
  let monthly_income := if Qlt_bool 0 income then income / 12 else 0 in
  extracted_data <- get_method doc_data "extracted_data" (JObj []) ;;
  monthly_debt <- get_method extracted_data "monthly_debt" (JInt 0) ;;
  dti_ratio <-
    (if Qlt_bool 0 monthly_income then
       debt <- as_number monthly_debt ;;
       Ok (debt / monthly_income * 100)
     else Ok 0) ;;
  value <- as_number property_value ;;
  ltv_ratio <-
    (if Qlt_bool 0 value then
       loan <- as_number loan_amount ;;
       Ok (loan / value * 100)
     else Ok 80) ;;
  (* Prepare financial data for AI risk assessment *)
  let financial_data :=
    JObj [ ("credit_score", credit_score);
           ("dti_ratio", JNum dti_ratio);
           ("ltv_ratio", JNum ltv_ratio);
           ("annual_income", annual_income) ] in
  (* Use MCP Vertex AI tool for risk prediction *)
  risk_assessment <-
    CreditTools.predict_default_risk prediction_time noise jitter financial_data ;;
  (* Combine credit data and risk assessment *)
  credit_history <- get_method credit_data "credit_history" (JObj []) ;;
  risk_level <- get_method risk_assessment "risk_level" (JStr "medium") ;;
  risk_score <- get_method risk_assessment "risk_score" (JInt 50) ;;
  confidence <- get_method risk_assessment "confidence" (JNum (8 # 10)) ;;
  risk_factors <- get_method risk_assessment "risk_factors" (JArr []) ;;
  recommendations <- get_method risk_assessment "recommendations" (JArr []) ;;
  Ok (JObj
    [ ("applicant_name", applicant_name);
      ("credit_score", credit_score);
      ("credit_history", credit_history);
      ("risk_level", risk_level);
      ("risk_score", risk_score);
      ("confidence", confidence);
      ("debt_to_income_ratio", JNum dti_ratio);
      ("loan_to_value_ratio", JNum ltv_ratio);
      ("annual_income", annual_income);
      ("monthly_debt", monthly_debt);
      ("risk_factors", risk_factors);
      ("recommendations", recommendations);
      ("metrics",
       JObj [ ("credit_score", credit_score);
              ("dti_ratio", JNum dti_ratio);
              ("ltv_ratio", JNum ltv_ratio);
              ("monthly_income", JNum monthly_income);
              ("monthly_debt", monthly_debt) ]);
      ("agent", JStr "CreditRiskAgent");
      ("mcp_tools_used",
       JArr [JStr "MockCreditAPITool"; JStr "VertexAIRiskTool"]) ]).

(** [process_document_data(doc_data)]: any exception of the MCP path
    leads to the manual assessment. *)
Definition process_document_data (doc_data : json) : result json :=
  _ <- ensure_agent ;;
  Ok (try_except (mcp_assessment doc_data)
        (fun _ => _assess_credit_risk_manual doc_data)).

End Agent.


Definition is_risk_level (s : string) : Prop :=
  s = "low" \/ s = "medium" \/ s = "high".


End CreditFlow.

(** ** src/agents/compliance_agent/agent.py: the text entry point *)

Module ComplianceFlow.

(** [re.search(r'\{.*\}', text, re.DOTALL)]: with [.] matching every
    character and a greedy star, the match runs from the first opening
    brace to the last closing brace after it. *)
Fixpoint from_first_open (s : string) : option string :=
  match s with
  | EmptyString => None
  | String a s' =>
      if Ascii.eqb a "{"%char then Some s else from_first_open s'
  end.

Fixpoint upto_last_close (s : string) : option string :=
  match s with
  | EmptyString => None
  | String a s' =>
      match upto_last_close s' with
      | Some p => Some (String a p)
      | None =>
          if Ascii.eqb a "}"%char then Some (String a EmptyString) else None
      end
  end.

Definition json_match (text : string) : option string :=
  match from_first_open text with
  | Some s => upto_last_close s
  | None => None
  end.

(** [v[k] = x] *)
Definition setitem (v : json) (k : string) (x : json) : result json :=
  match v with
  | JObj kv => Ok (JObj (dict_set k x kv))
  | JArr _ => Raise (mkExn TypeError "list indices must be integers or slices, not str")
  | _ => Raise (mkExn TypeError "object does not support item assignment")
  end.

Section Agent.

Variable format_1f : Q -> string.
Variable py_strip : string -> string.
Variable json_loads : string -> option json.

(** [if not self.agent: await self.create()] *)
Variable ensure_agent : result unit.

(** Building the [Task] and the [Crew] for a content, and
    [str(crew.kickoff())]. *)
Variable build_crew : string -> result unit.
Variable kickoff : string -> result string.

Definition loads (text : string) : result json :=
  match json_loads text with
  | Some v => Ok v
  | None => Raise (mkExn JSONDecodeError "Expecting value")
  end.

(** [_analyze_with_crewai(content)] *)
Definition _analyze_with_crewai (content : string) : result json :=
  _ <- build_crew content ;;
  Ok (try_except
        (result_text <- kickoff content ;;
         match json_match result_text with
         | Some group =>
             parsed_result <- loads group ;;
             setitem parsed_result "agent" (JStr "ComplianceAgent")
         | None =>
             (* Fallback response if JSON parsing fails *)
             Ok (JObj
               [ ("approved", JBool false);
                 ("confidence", JNum (5 # 10));
                 ("compliance_issues",
                  JArr [JStr "Unable to parse compliance analysis"]);
                 ("recommendations", JArr [JStr "Manual review recommended"]);
                 ("summary",
                  JStr "Analysis completed but response format needs review");
                 ("agent", JStr "ComplianceAgent") ])
         end)
        (fun e =>
           JObj
             [ ("approved", JBool false);
               ("confidence", JNum 0);
               ("compliance_issues",
                JArr [JStr ("CrewAI processing error: " ++ exn_str e)]);
               ("recommendations", JArr [JStr "Manual review required"]);
               ("summary", JStr "Technical error during compliance analysis");
               ("agent", JStr "ComplianceAgent") ])).

(** [_analyze_structured_data(data)] on whatever [json.loads] returned:
    on a value that is not a dict the membership tests raise or, on a
    list or a str, are followed by a [.get] that raises. *)
Definition analyze_structured (data : json) : result json :=
  match data with
  | JObj d => Compliance._analyze_structured_data format_1f d
  | _ =>
      _ <- contains "risk_assessment" data ;;
      Raise (mkExn AttributeError "object has no attribute 'get'")
  end.

(** [process(content)] *)
Definition process (content : string) : result json :=
  _ <- ensure_agent ;;
  let body :=
    if prefix_of "{" (py_strip content) then
      data <- loads content ;;
      analyze_structured data
    else
      (* Process as text content using CrewAI *)
      _analyze_with_crewai content in
  match body with
  | Ok r => Ok r
  | Raise e =>
      match exn_kind e with
      | JSONDecodeError => _analyze_with_crewai content
      | _ => Raise e
      end
  end.

End Agent.

(** An LLM reply whose braces enclose a JSON object. *)
Definition reply_object (json_loads : string -> option json)
           (reply : result string) (d : list (string * json)) : Prop :=
  exists text group,
    reply = Ok text /\ json_match text = Some group /\
    json_loads group = Some (JObj d).

Fixpoint has_char (c : ascii) (s : string) : bool :=
  match s with
  | EmptyString => false
  | String a s' => Ascii.eqb a c || has_char c s'
  end.

End ComplianceFlow.

(** ** The range of the numeric model *)

Module Numbers.

(** Numbers are exact rationals, for Python's ints and floats alike.  An
    int converts to a float without an OverflowError when its magnitude is
    within the range of a float; the bound below is well inside that
    range.  Statements that depend on a division or on a [.1f] format of a
    caller-supplied figure take the figure in this range. *)
Definition float_range (q : Q) : bool :=
  Qle_bool (- inject_Z (10 ^ 300)) q && Qle_bool q (inject_Z (10 ^ 300)).



End Numbers.

(** ** The example request, with the repository's own fallback agents *)

Module Scenario.
Import Routing.

(** The text [json.dumps] gives for the report of the risk stage; only
    the fact that [json.loads] reads it back matters. *)
Definition report_text : string := "{report}".

(** [CreditRiskAgent().create()] then [.process_document_data(input)] *)
Definition fallback_risk_agent (input : json) : result json :=
  CreditFlow.process_document_data (fun _ => "0.0") (fun _ => 220%Z)
    Sample.ascii_lower 0 0 0 0 Sample.sample_loads (fun _ => None)
    (fun _ _ => None) (Ok tt) input.

Definition dumps (v : json) : string :=
  match v with
  | JObj (_ :: _) => report_text
  | _ => Sample.sample_dumps v
  end.

Definition loads (s : string) : option json :=
  if String.eqb s report_text then
    match fallback_risk_agent (JObj []) with
    | Ok report => Some report
    | Raise _ => None
    end
  else Sample.sample_loads s.

(** [ComplianceAgent().create()] then [.process(input_content)] *)
Definition fallback_compliance_agent (input_content : string) : result json :=
  ComplianceFlow.process (fun _ => "0.0") Sample.ascii_strip loads (Ok tt)
    (fun _ => Ok tt) (fun _ => Raise (mkExn Other "no model")) input_content.

(** No agent is registered; the classifier answers [risk_only]; the
    fallback agents are the credit risk agent and the compliance agent of
    the repository. *)
Definition fallback_world : World :=
  mkWorld Sample.ascii_strip Sample.ascii_lower loads dumps dumps
          Sample.sample_dumps (fun _ => "3f2b8c1e-0000-4000-8000-000000000001")
          (fun _ _ => Raise Sample.timed_out)
          (Sample.sample_llm "risk_only") []
          (Ok tt)
          (fun _ => Ok (JObj [("applicant_name", JStr "John Smith")]))
          (fun _ => None)
          fallback_risk_agent
          fallback_compliance_agent
          (fun _ => Ok "mortgage_docs/output/compliance_report.pdf").

End Scenario.

(** * Properties *)

Import Routing Props.

(** ** The graph interpreter *)

Lemma run_from_downstream (W : World) (n : node) (k : nat)
      (visited : list node) (st : RoutingState) :
  n <> N_route_decision ->
  run_from W (4 + k) n visited st
  = Ok ((visited ++ downstream n)%list, run_stages W n st).
Proof.
  intros Hn.
  destruct n; [congruence | | | |]; simpl;
    repeat rewrite <- app_assoc; reflexivity.
Qed.

Lemma valid_routes_cases (label : string) :
  str_in label valid_routes = true ->
  label = "document_only" \/ label = "risk_only" \/
  label = "compliance_only" \/ label = "full_pipeline".
Proof.
  unfold str_in, valid_routes; simpl.
  rewrite !orb_true_iff, !String.eqb_eq.
  intros [H | [H | [H | [H | H]]]]; auto; discriminate.
Qed.

Lemma validate_route_valid (W : World) (c : string) :
  str_in (validate_route W c) valid_routes = true.
Proof.
  unfold validate_route.
  destruct (str_in (py_lower W (py_strip W c)) valid_routes) eqn:E; simpl.
  - exact E.
  - reflexivity.
Qed.

Lemma conditional_edges_total (label : string) :
  str_in label valid_routes = true ->
  exists n, lookup label conditional_edges = Some n /\ n <> N_route_decision.
Proof.
  intros H.
  destruct (valid_routes_cases label H) as [E | [E | [E | E]]]; subst;
    simpl; eexists; split; try reflexivity; discriminate.
Qed.

(** Once the classifier has answered, the invocation runs the entry stage
    of the validated label and everything downstream of it. *)
Lemma ainvoke_routed (W : World) (q c : string) :
  llm_ainvoke W (routing_prompt q) = Ok c ->
  exists n,
    lookup (validate_route W c) conditional_edges = Some n /\
    n <> N_route_decision /\
    ainvoke W (initial_state q)
    = Ok (N_route_decision :: downstream n,
          run_stages W n (routed (initial_state q) (validate_route W c))).
Proof.
  intros Hllm.
  destruct (conditional_edges_total _ (validate_route_valid W c)) as (n & Hn & Hne).
  exists n. split; [exact Hn | split; [exact Hne |]].
  unfold ainvoke, recursion_limit, entry_point.
  change 25%nat with (S (4 + 20)).
  cbn [run_from handler bind].
  unfold _make_routing_decision. simpl query. rewrite Hllm.
  cbn [bind successor _route_condition append_message set_route_decision route_decision].
  rewrite Hn. cbn [bind app].
  rewrite (run_from_downstream W n 20 _ _ Hne).
  reflexivity.
Qed.

(** ** What each handler leaves untouched *)

Ltac split_matches :=
  repeat match goal with
         | |- context [match ?x with _ => _ end] =>
             lazymatch x with
             | context [match _ with _ => _ end] => fail
             | _ => destruct x
             end
         end.

Ltac frame_of handler :=
  intros; unfold handler, try_except, bind; split_matches; simpl;
  repeat split; reflexivity.

Lemma process_document_frame (W : World) (st : RoutingState) :
  query (_process_document W st) = query st /\
  route_decision (_process_document W st) = route_decision st /\
  risk_assessment (_process_document W st) = risk_assessment st /\
  compliance_result (_process_document W st) = compliance_result st /\
  final_result (_process_document W st) = final_result st.
Proof. frame_of _process_document. Qed.

Lemma assess_risk_frame (W : World) (st : RoutingState) :
  query (_assess_risk W st) = query st /\
  route_decision (_assess_risk W st) = route_decision st /\
  document_data (_assess_risk W st) = document_data st /\
  compliance_result (_assess_risk W st) = compliance_result st /\
  final_result (_assess_risk W st) = final_result st.
Proof. frame_of _assess_risk. Qed.

Lemma check_compliance_frame (W : World) (st : RoutingState) :
  query (_check_compliance W st) = query st /\
  route_decision (_check_compliance W st) = route_decision st /\
  document_data (_check_compliance W st) = document_data st /\
  risk_assessment (_check_compliance W st) = risk_assessment st /\
  final_result (_check_compliance W st) = final_result st.
Proof. frame_of _check_compliance. Qed.

Lemma aggregate_results_frame (W : World) (st : RoutingState) :
  query (_aggregate_results W st) = query st /\
  route_decision (_aggregate_results W st) = route_decision st /\
  document_data (_aggregate_results W st) = document_data st /\
  risk_assessment (_aggregate_results W st) = risk_assessment st /\
  compliance_result (_aggregate_results W st) = compliance_result st.
Proof. frame_of _aggregate_results. Qed.

(** ** The stage handlers read the task text and the slots only *)





(** ** C5: the route label picks the entry point only *)



(** The three shortened routes on a sample request, run through the model. *)
Example risk_only_run :
  option_map fst
    (match ainvoke (Sample.local_world "risk_only")
                   (initial_state Sample.example_query) with
     | Ok r => Some r
     | Raise _ => None
     end)
  = Some [N_route_decision; N_risk_assessment; N_compliance_check;
          N_final_aggregation].
Proof. vm_compute. reflexivity. Qed.

Example compliance_only_run :
  process_query (Sample.local_world "compliance_only") Sample.example_query
  = JObj
      [("routing_decision", JStr "compliance_only");
       ("document_data", JObj []);
       ("risk_assessment", JObj []);
       ("compliance_result", JObj [("approved", JBool true)]);
       ("processing_summary",
        JObj [("total_steps", JInt 4); ("successful_steps", JInt 4);
              ("agent", JStr "RoutingAgent")]);
       ("summary", JStr "1. **Processed:** one application");
       ("output_pdf_path", JStr "mortgage_docs/output/compliance_report.pdf")].
Proof. vm_compute. reflexivity. Qed.

(** ** C7: the routing decision is validated against the closed set *)

(** C7.  Whatever text the classifier returns, the label stored by the
    routing node is one of [document_only], [risk_only], [compliance_only],
    [full_pipeline].  The text is stripped and lowercased first; when the
    outcome is not one of the four labels (in particular when it is empty)
    the label is [full_pipeline], and otherwise it is the outcome itself.
    The routing node then returns normally and the conditional edge out of
    it is defined, so the run goes on. *)
Theorem C7_routing_decision_closed_set (W : World) (c : string) :
  str_in (validate_route W c) valid_routes = true /\
  (str_in (py_lower W (py_strip W c)) valid_routes = false ->
     validate_route W c = "full_pipeline") /\
  (py_lower W (py_strip W c) = "" -> validate_route W c = "full_pipeline") /\
  (str_in (py_lower W (py_strip W c)) valid_routes = true ->
     validate_route W c = py_lower W (py_strip W c)) /\
  (forall st : RoutingState,
     llm_ainvoke W (routing_prompt (query st)) = Ok c ->
     exists st' n,
       _make_routing_decision W st = Ok st' /\
       route_decision st' = validate_route W c /\
       successor N_route_decision st' = Ok (Some n)).
Proof.
  split; [apply validate_route_valid |].
  split; [| split; [| split]].
  - intros E. unfold validate_route. rewrite E. reflexivity.
  - intros E. unfold validate_route. rewrite E. reflexivity.
  - intros E. unfold validate_route. rewrite E. reflexivity.
  - intros st Hllm.
    destruct (conditional_edges_total _ (validate_route_valid W c)) as (n & Hn & _).
    exists (routed st (validate_route W c)), n.
    unfold _make_routing_decision. rewrite Hllm.
    split; [reflexivity |]. split; [reflexivity |].
    unfold successor, _route_condition.
    change (route_decision (routed st (validate_route W c)))
      with (validate_route W c).
    rewrite Hn. reflexivity.
Qed.

Lemma C7_routing_decision_closed_set_witness :
  str_in (py_lower (Sample.local_world "I am not sure.")
            (py_strip (Sample.local_world "I am not sure.") "I am not sure."))
         valid_routes = false /\
  validate_route (Sample.local_world "I am not sure.") "I am not sure."
  = "full_pipeline" /\
  exists st' n,
    _make_routing_decision (Sample.local_world "I am not sure.")
                           (initial_state Sample.example_query) = Ok st' /\
    route_decision st' = "full_pipeline" /\
    successor N_route_decision st' = Ok (Some n).
Proof.
  destruct (C7_routing_decision_closed_set
              (Sample.local_world "I am not sure.") "I am not sure.")
    as (_ & Hout & _ & _ & Hnode).
  assert (E : str_in (py_lower (Sample.local_world "I am not sure.")
                        (py_strip (Sample.local_world "I am not sure.")
                                  "I am not sure."))
                     valid_routes = false) by (vm_compute; reflexivity).
  split; [exact E |].
  split; [exact (Hout E) |].
  destruct (Hnode (initial_state Sample.example_query)
                  ltac:(vm_compute; reflexivity)) as (st' & n & H1 & H2 & H3).
  exists st', n. rewrite (Hout E) in H2. auto.
Defined.

(** Text that only differs from a label by case and surrounding blanks is
    accepted; empty text falls back. *)
Example validate_route_samples :
  validate_route (Sample.local_world "") "  Risk_Only " = "risk_only" /\
  validate_route (Sample.local_world "") "" = "full_pipeline" /\
  validate_route (Sample.local_world "") "risk only" = "full_pipeline".
Proof. vm_compute. repeat split; reflexivity. Qed.

(** ** The worker client and the handlers around it *)

Lemma send_task_propagates (W : World) (card : AgentCard) (message sid : string)
      (e : exn) :
  a2a_send_message W card message = Raise e ->
  AgentConnect.send_task W card message sid = Raise e.
Proof.
  intros H. unfold AgentConnect.send_task. rewrite H. reflexivity.
Qed.

Lemma document_remote_caught (W : World) (card : AgentCard) (st : RoutingState)
      (e : exn) :
  AgentConnect.send_task W card (document_request st) (uuid4 W tt) = Raise e ->
  document_remote W card st
  = error_slot "Document agent communication failed: " e.
Proof.
  intros H. unfold document_remote. fold (document_request st).
  rewrite H. reflexivity.
Qed.

Lemma risk_remote_caught (W : World) (card : AgentCard) (st : RoutingState)
      (e : exn) :
  AgentConnect.send_task W card (risk_request W st) (uuid4 W tt) = Raise e ->
  risk_remote W card st
  = error_slot "Credit risk agent communication failed: " e.
Proof.
  intros H. unfold risk_remote. rewrite H. reflexivity.
Qed.

Lemma compliance_remote_caught (W : World) (card : AgentCard) (st : RoutingState)
      (e : exn) :
  AgentConnect.send_task W card (compliance_request W st) (uuid4 W tt) = Raise e ->
  compliance_remote W card st
  = error_slot "Compliance agent communication failed: " e.
Proof.
  intros H. unfold compliance_remote. rewrite H. reflexivity.
Qed.

(** On a registered worker the slot is what the remote branch computes. *)
Lemma process_document_remote (W : World) (card : AgentCard) (st : RoutingState) :
  _get_agent_by_skill W ["document"; "pdf"; "extraction"] = Some card ->
  _process_document W st
  = append_message (set_document_data st (document_remote W card st))
                   "Document processing completed".
Proof. intros H. unfold _process_document. rewrite H. reflexivity. Qed.

Lemma assess_risk_remote (W : World) (card : AgentCard) (st : RoutingState) :
  _get_agent_by_skill W ["credit"; "risk"; "financial"] = Some card ->
  _assess_risk W st
  = append_message (set_risk_assessment st (risk_remote W card st))
                   "Risk assessment completed".
Proof. intros H. unfold _assess_risk. rewrite H. reflexivity. Qed.

Lemma check_compliance_remote (W : World) (card : AgentCard) (st : RoutingState) :
  _get_agent_by_skill W ["compliance"; "regulatory"; "legal"] = Some card ->
  _check_compliance W st
  = append_message (set_compliance_result st (compliance_remote W card st))
                   "Compliance check completed".
Proof. intros H. unfold _check_compliance. rewrite H. reflexivity. Qed.

(** ** C2: where a transport failure is turned into a value *)

(** C2, as stated, fails: with a transport that times out, [send_task]
    itself raises. *)
Lemma C2_send_task_raises_on_timeout :
  AgentConnect.send_task
    (Sample.remote_world "risk_only" (fun _ _ => Raise Sample.timed_out))
    Sample.risk_card "Perform credit risk assessment. Query: q"
    "3f2b8c1e-0000-4000-8000-000000000001"
  = Raise Sample.timed_out.
Proof. reflexivity. Qed.

(** C2, amended.  [send_task] does not catch what the transport raises
    (timeout, refused connection): the exception leaves the method
    unchanged.  Only a reply without the nested text path is handled
    inside: a [KeyError] or [IndexError] of the lookup gives a descriptive
    string as return value, any other exception of the lookup leaves the
    method too, and a reply with the path gives the text.  The failure
    becomes a value one level up: each stage handler catches whatever
    [send_task] raises and stores an [error] mapping in its slot. *)
Theorem C2_send_task_failures (W : World) (card : AgentCard)
        (message session_id : string) :
  (forall e, a2a_send_message W card message = Raise e ->
             AgentConnect.send_task W card message session_id = Raise e) /\
  (forall d e, a2a_send_message W card message = Ok d ->
               AgentConnect.extract_text d = Raise e ->
               exn_kind e = KeyError \/ exn_kind e = IndexError ->
               AgentConnect.send_task W card message session_id
               = Ok (JStr ("Response received but couldn't extract text. Full response: "
                           ++ py_format W d))) /\
  (forall d e, a2a_send_message W card message = Ok d ->
               AgentConnect.extract_text d = Raise e ->
               exn_kind e <> KeyError -> exn_kind e <> IndexError ->
               AgentConnect.send_task W card message session_id = Raise e) /\
  (forall d t, a2a_send_message W card message = Ok d ->
               AgentConnect.extract_text d = Ok t ->
               AgentConnect.send_task W card message session_id = Ok t) /\
  (forall st e,
     AgentConnect.send_task W card (document_request st) (uuid4 W tt) = Raise e ->
     document_remote W card st
     = error_slot "Document agent communication failed: " e) /\
  (forall st e,
     AgentConnect.send_task W card (risk_request W st) (uuid4 W tt) = Raise e ->
     risk_remote W card st
     = error_slot "Credit risk agent communication failed: " e) /\
  (forall st e,
     AgentConnect.send_task W card (compliance_request W st) (uuid4 W tt) = Raise e ->
     compliance_remote W card st
     = error_slot "Compliance agent communication failed: " e).
Proof.
  split; [intros e H; apply send_task_propagates; exact H |].
  split; [| split; [| split; [| split; [| split]]]].
  - intros d e Hd He Hk. unfold AgentConnect.send_task. rewrite Hd. simpl.
    rewrite He. destruct Hk as [-> | ->]; reflexivity.
  - intros d e Hd He Hk Hi. unfold AgentConnect.send_task. rewrite Hd. simpl.
    rewrite He. destruct (exn_kind e); try reflexivity; congruence.
  - intros d t Hd Ht. unfold AgentConnect.send_task. rewrite Hd. simpl.
    rewrite Ht. reflexivity.
  - intros st e. apply document_remote_caught.
  - intros st e. apply risk_remote_caught.
  - intros st e. apply compliance_remote_caught.
Qed.

Lemma C2_send_task_failures_witness :
  a2a_send_message
    (Sample.remote_world "risk_only" (fun _ _ => Raise Sample.timed_out))
    Sample.risk_card
    (risk_request (Sample.remote_world "risk_only" (fun _ _ => Raise Sample.timed_out))
                  (initial_state Sample.example_query))
  = Raise Sample.timed_out /\
  risk_remote (Sample.remote_world "risk_only" (fun _ _ => Raise Sample.timed_out))
              Sample.risk_card (initial_state Sample.example_query)
  = error_slot "Credit risk agent communication failed: " Sample.timed_out.
Proof.
  split; [reflexivity |].
  destruct (C2_send_task_failures
              (Sample.remote_world "risk_only" (fun _ _ => Raise Sample.timed_out))
              Sample.risk_card
              (risk_request
                 (Sample.remote_world "risk_only" (fun _ _ => Raise Sample.timed_out))
                 (initial_state Sample.example_query))
              "3f2b8c1e-0000-4000-8000-000000000001")
    as (Hraise & _ & _ & _ & _ & Hrisk & _).
  apply Hrisk. apply Hraise. reflexivity.
Defined.

(** A reply whose envelope lacks the nested path comes back as a string. *)
Example send_task_on_error_envelope :
  AgentConnect.send_task
    (Sample.remote_world "risk_only"
       (fun _ _ => Ok (JObj [("id", JStr "1");
                             ("error", JObj [("code", JInt (-32603))])])))
    Sample.risk_card "task" "sid"
  = Ok (JStr "Response received but couldn't extract text. Full response: {...}").
Proof. reflexivity. Qed.

(** ** C6: a failing stage does not halt the machine *)

Lemma last_app_singleton {A} (l : list A) (x d : A) : last (l ++ [x]) d = x.
Proof.
  induction l as [| a l IH]; [reflexivity |].
  simpl. destruct (l ++ [x])%list eqn:E; [| exact IH].
  destruct l; discriminate E.
Qed.

Lemma last_downstream (n : node) (visited : list node) :
  n <> N_route_decision ->
  last (visited ++ downstream n) N_route_decision = N_final_aggregation.
Proof.
  intros Hn.
  destruct n; [congruence | | | |]; simpl downstream.
  - change [N_document_processing; N_risk_assessment; N_compliance_check;
            N_final_aggregation]
      with ([N_document_processing; N_risk_assessment; N_compliance_check]
            ++ [N_final_aggregation])%list.
    rewrite app_assoc. apply last_app_singleton.
  - change [N_risk_assessment; N_compliance_check; N_final_aggregation]
      with ([N_risk_assessment; N_compliance_check] ++ [N_final_aggregation])%list.
    rewrite app_assoc. apply last_app_singleton.
  - change [N_compliance_check; N_final_aggregation]
      with ([N_compliance_check] ++ [N_final_aggregation])%list.
    rewrite app_assoc. apply last_app_singleton.
  - apply last_app_singleton.
Qed.

(** C6.  When the call to a registered worker raises (a timeout, a refused
    connection, anything), the stage's slot receives a mapping whose only
    key is [error]; the same holds when the in-process fallback agent
    raises.  No stage handler raises, so from whichever stage the run
    starts, and whatever the slots contain, the interpreter follows the
    fixed edges and the last node it runs is the aggregation; in
    particular every invocation whose classifier call answered ends
    there. *)
Theorem C6_stage_failure_never_halts (W : World) :
  (forall st card e,
     _get_agent_by_skill W ["document"; "pdf"; "extraction"] = Some card ->
     a2a_send_message W card (document_request st) = Raise e ->
     document_data (_process_document W st)
     = error_slot "Document agent communication failed: " e) /\
  (forall st card e,
     _get_agent_by_skill W ["credit"; "risk"; "financial"] = Some card ->
     a2a_send_message W card (risk_request W st) = Raise e ->
     risk_assessment (_assess_risk W st)
     = error_slot "Credit risk agent communication failed: " e) /\
  (forall st card e,
     _get_agent_by_skill W ["compliance"; "regulatory"; "legal"] = Some card ->
     a2a_send_message W card (compliance_request W st) = Raise e ->
     compliance_result (_check_compliance W st)
     = error_slot "Compliance agent communication failed: " e) /\
  (forall st e,
     _get_agent_by_skill W ["document"; "pdf"; "extraction"] = None ->
     document_local W st = Raise e ->
     document_data (_process_document W st)
     = error_slot "Document processing failed: " e) /\
  (forall st e,
     _get_agent_by_skill W ["credit"; "risk"; "financial"] = None ->
     risk_local W st = Raise e ->
     risk_assessment (_assess_risk W st)
     = error_slot "Risk assessment failed: " e) /\
  (forall st e,
     _get_agent_by_skill W ["compliance"; "regulatory"; "legal"] = None ->
     compliance_local W st = Raise e ->
     compliance_result (_check_compliance W st)
     = error_slot "Compliance check failed: " e) /\
  (forall n visited st,
     n <> N_route_decision ->
     exists visited' st',
       run_from W recursion_limit n visited st = Ok (visited', st') /\
       last visited' N_route_decision = N_final_aggregation) /\
  (forall q c,
     llm_ainvoke W (routing_prompt q) = Ok c ->
     exists visited st,
       ainvoke W (initial_state q) = Ok (visited, st) /\
       last visited N_route_decision = N_final_aggregation).
Proof.
  split; [| split; [| split; [| split; [| split; [| split; [| split]]]]]].
  - intros st card e Hc He.
    rewrite (process_document_remote W card st Hc). simpl.
    apply document_remote_caught, send_task_propagates, He.
  - intros st card e Hc He.
    rewrite (assess_risk_remote W card st Hc). simpl.
    apply risk_remote_caught, send_task_propagates, He.
  - intros st card e Hc He.
    rewrite (check_compliance_remote W card st Hc). simpl.
    apply compliance_remote_caught, send_task_propagates, He.
  - intros st e Hc He. unfold _process_document. rewrite Hc, He. reflexivity.
  - intros st e Hc He. unfold _assess_risk. rewrite Hc, He. reflexivity.
  - intros st e Hc He. unfold _check_compliance. rewrite Hc, He. reflexivity.
  - intros n visited st Hn.
    exists (visited ++ downstream n)%list, (run_stages W n st).
    split; [| apply last_downstream; exact Hn].
    change recursion_limit with (4 + 21)%nat.
    apply run_from_downstream; exact Hn.
  - intros q c Hllm.
    destruct (ainvoke_routed W q c Hllm) as (n & _ & Hn & Hrun).
    eexists; eexists; split; [exact Hrun |].
    change (N_route_decision :: downstream n)
      with ([N_route_decision] ++ downstream n)%list.
    apply last_downstream; exact Hn.
Qed.

Lemma C6_stage_failure_never_halts_witness :
  _get_agent_by_skill
    (Sample.remote_world "full_pipeline" (fun _ _ => Raise Sample.timed_out))
    ["credit"; "risk"; "financial"] = Some Sample.risk_card /\
  risk_assessment
    (_assess_risk
       (Sample.remote_world "full_pipeline" (fun _ _ => Raise Sample.timed_out))
       (initial_state Sample.example_query))
  = error_slot "Credit risk agent communication failed: " Sample.timed_out /\
  exists visited st,
    ainvoke (Sample.remote_world "full_pipeline" (fun _ _ => Raise Sample.timed_out))
            (initial_state Sample.example_query) = Ok (visited, st) /\
    last visited N_route_decision = N_final_aggregation.
Proof.
  destruct (C6_stage_failure_never_halts
              (Sample.remote_world "full_pipeline" (fun _ _ => Raise Sample.timed_out)))
    as (_ & Hrisk & _ & _ & _ & _ & _ & Hrun).
  split; [vm_compute; reflexivity |].
  split.
  - apply (Hrisk (initial_state Sample.example_query) Sample.risk_card Sample.timed_out).
    + vm_compute; reflexivity.
    + reflexivity.
  - apply (Hrun Sample.example_query "full_pipeline"). vm_compute; reflexivity.
Defined.

(** Every worker times out on a full pipeline: three [error] slots, and the
    aggregation still produces its summary. *)
Example all_workers_time_out :
  process_query
    (Sample.remote_world "full_pipeline" (fun _ _ => Raise Sample.timed_out))
    Sample.example_query
  = JObj
      [("routing_decision", JStr "full_pipeline");
       ("document_data",
        JObj [("error", JStr "Document agent communication failed: timed out")]);
       ("risk_assessment",
        JObj [("error", JStr "Credit risk agent communication failed: timed out")]);
       ("compliance_result",
        JObj [("error", JStr "Compliance agent communication failed: timed out")]);
       ("processing_summary",
        JObj [("total_steps", JInt 4); ("successful_steps", JInt 1);
              ("agent", JStr "RoutingAgent")]);
       ("summary", JStr "1. **Processed:** one application");
       ("output_pdf_path", JStr "mortgage_docs/output/compliance_report.pdf")].
Proof. vm_compute. reflexivity. Qed.

(** ** C8: a reply that is not JSON is wrapped, not raised *)



(** ** The aggregation stage *)

Lemma total_steps_four (st : RoutingState) : total_steps st = 4%nat.
Proof. reflexivity. Qed.

Lemma slot_keys_four (st : RoutingState) :
  slot_keys st
  = ["document_data"; "risk_assessment"; "compliance_result"; "final_result"].
Proof. reflexivity. Qed.

(** The count of error-free slots, slot by slot. *)
Lemma successful_steps_count (st : RoutingState) (m : nat) :
  successful_steps st = Ok m ->
  m = (b2n (lacks_error (document_data st))
       + b2n (lacks_error (risk_assessment st))
       + b2n (lacks_error (compliance_result st))
       + b2n (lacks_error (final_result st)))%nat.
Proof.
  unfold successful_steps, state_items, lacks_error.
  cbn [error_free_values].
  change (endswith_any "messages" slot_suffixes) with false.
  change (endswith_any "query" slot_suffixes) with false.
  change (endswith_any "route_decision" slot_suffixes) with false.
  change (endswith_any "document_data" slot_suffixes) with true.
  change (endswith_any "risk_assessment" slot_suffixes) with true.
  change (endswith_any "compliance_result" slot_suffixes) with true.
  change (endswith_any "final_result" slot_suffixes) with true.
  cbv iota.
  destruct (contains "error" (document_data st)) as [[|]|]; simpl;
    try discriminate;
    destruct (contains "error" (risk_assessment st)) as [[|]|]; simpl;
      try discriminate;
      destruct (contains "error" (compliance_result st)) as [[|]|]; simpl;
        try discriminate;
        destruct (contains "error" (final_result st)) as [[|]|]; simpl;
          try discriminate;
          intros H; injection H as <-; reflexivity.
Qed.

Lemma collect_results_ok (st : RoutingState) (m : nat) :
  successful_steps st = Ok m ->
  collect_results st = Ok (collected st m).
Proof.
  intros H. unfold collect_results. rewrite H. reflexivity.
Qed.

Lemma collect_results_raise (st : RoutingState) (e : exn) :
  successful_steps st = Raise e ->
  collect_results st = Raise e.
Proof.
  intros H. unfold collect_results. rewrite H. reflexivity.
Qed.

(** When the final result carries a processing summary, the aggregation
    went through, and the summary holds the two counts. *)
Lemma aggregate_summary (W : World) (st : RoutingState) :
  has_key "processing_summary" (final_result (_aggregate_results W st)) = true ->
  exists m,
    successful_steps st = Ok m /\
    summary_field "total_steps" (final_result (_aggregate_results W st))
    = Some (JInt 4) /\
    summary_field "successful_steps" (final_result (_aggregate_results W st))
    = Some (JInt (Z.of_nat m)).
Proof.
  unfold _aggregate_results.
  destruct (successful_steps st) as [m | e] eqn:Hm.
  - rewrite (collect_results_ok st m Hm). cbn [bind].
    destruct (llm_ainvoke W (summary_prompt W (collected st m))) as [s | e];
      [| simpl; discriminate].
    cbn [bind]. intros _. exists m. split; [reflexivity |].
    unfold _generate_pdf_report.
    destruct (render_pdf W _) as [p | e]; simpl.
    + destruct (negb (p =? "")%string); simpl; split; reflexivity.
    + split; reflexivity.
  - rewrite (collect_results_raise st e Hm). simpl. discriminate.
Qed.

Lemma ainvoke_llm_raises (W : World) (q : string) (e : exn) :
  llm_ainvoke W (routing_prompt q) = Raise e ->
  ainvoke W (initial_state q) = Raise e.
Proof.
  intros H. unfold ainvoke, recursion_limit, entry_point.
  cbn [run_from handler]. unfold _make_routing_decision.
  simpl query. rewrite H. reflexivity.
Qed.

Lemma process_query_routed (W : World) (q c : string) :
  llm_ainvoke W (routing_prompt q) = Ok c ->
  exists visited st,
    ainvoke W (initial_state q) = Ok (visited, st) /\
    process_query W q = final_result st.
Proof.
  intros H.
  destruct (ainvoke_routed W q c H) as (n & _ & _ & Hrun).
  eexists; eexists; split; [exact Hrun |].
  unfold process_query. rewrite Hrun. reflexivity.
Qed.

(** ** C3: failures inside the aggregation stage *)

(** C3, as stated, fails for the summarization collaborator: when the
    summary call raises, the caller receives a mapping with the single key
    [error], without stage slots and without [processing_summary]. *)
Lemma C3_summary_failure_drops_slots :
  process_query
    (with_llm (Sample.local_world "risk_only")
              (Sample.failing_summary_llm "risk_only"))
    Sample.example_query
  = JObj [("error", JStr "Aggregation failed: Rate limit reached")].
Proof. vm_compute. reflexivity. Qed.

(** C3, amended.  Let the slots admit the count [m] of error-free slots.
    When the report renderer raises, the aggregation still stores the full
    final result: routing decision, the three stage slots, the processing
    summary and the prose summary, only without [output_pdf_path] (which is
    added when the renderer returns a path).  When the summarization
    call raises, the aggregation stores the mapping
    [{error: "Aggregation failed: ..."}] instead, which has neither stage
    slots nor [processing_summary].  In every case the handler returns, and
    every request whose classifier call answered gives the caller the
    [final_result] of the final state. *)
Theorem C3_aggregation_failures (W : World) (st : RoutingState) (m : nat) :
  successful_steps st = Ok m ->
  (forall s e,
     llm_ainvoke W (summary_prompt W (collected st m)) = Ok s ->
     render_pdf W (JObj (collected st m ++ [("summary", JStr s)])) = Raise e ->
     final_result (_aggregate_results W st)
     = JObj (collected st m ++ [("summary", JStr s)])) /\
  (forall s pdf_path,
     llm_ainvoke W (summary_prompt W (collected st m)) = Ok s ->
     render_pdf W (JObj (collected st m ++ [("summary", JStr s)])) = Ok pdf_path ->
     pdf_path <> "" ->
     final_result (_aggregate_results W st)
     = JObj (collected st m
             ++ [("summary", JStr s); ("output_pdf_path", JStr pdf_path)])) /\
  (forall e,
     llm_ainvoke W (summary_prompt W (collected st m)) = Raise e ->
     final_result (_aggregate_results W st) = error_slot "Aggregation failed: " e /\
     has_key "processing_summary" (final_result (_aggregate_results W st)) = false /\
     has_key "risk_assessment" (final_result (_aggregate_results W st)) = false) /\
  (forall q c,
     llm_ainvoke W (routing_prompt q) = Ok c ->
     exists visited st',
       ainvoke W (initial_state q) = Ok (visited, st') /\
       process_query W q = final_result st').
Proof.
  intros Hm.
  split; [| split; [| split]].
  - intros s e Hs Hr. unfold _aggregate_results.
    rewrite (collect_results_ok st m Hm). cbn [bind]. rewrite Hs. cbn [bind].
    unfold _generate_pdf_report.
    change (dict_set "summary" (JStr s) (collected st m))
      with (collected st m ++ [("summary", JStr s)])%list.
    rewrite Hr. reflexivity.
  - intros s p Hs Hr Hp. unfold _aggregate_results.
    rewrite (collect_results_ok st m Hm). cbn [bind]. rewrite Hs. cbn [bind].
    unfold _generate_pdf_report.
    change (dict_set "summary" (JStr s) (collected st m))
      with (collected st m ++ [("summary", JStr s)])%list.
    rewrite Hr. cbn [bind try_except].
    apply String.eqb_neq in Hp. rewrite Hp. reflexivity.
  - intros e He. unfold _aggregate_results.
    rewrite (collect_results_ok st m Hm). cbn [bind]. rewrite He.
    repeat split; reflexivity.
  - intros q c. apply process_query_routed.
Qed.

Lemma C3_aggregation_failures_witness :
  successful_steps (initial_state Sample.example_query) = Ok 4%nat /\
  llm_ainvoke
    (with_llm (Sample.local_world "risk_only")
              (Sample.failing_summary_llm "risk_only"))
    (summary_prompt
       (with_llm (Sample.local_world "risk_only")
                 (Sample.failing_summary_llm "risk_only"))
       (collected (initial_state Sample.example_query) 4))
  = Raise (mkExn Other "Rate limit reached") /\
  final_result
    (_aggregate_results
       (with_llm (Sample.local_world "risk_only")
                 (Sample.failing_summary_llm "risk_only"))
       (initial_state Sample.example_query))
  = error_slot "Aggregation failed: " (mkExn Other "Rate limit reached").
Proof.
  split; [reflexivity |].
  split; [vm_compute; reflexivity |].
  destruct (C3_aggregation_failures
              (with_llm (Sample.local_world "risk_only")
                        (Sample.failing_summary_llm "risk_only"))
              (initial_state Sample.example_query) 4 eq_refl)
    as (_ & _ & Hsum & _).
  destruct (Hsum (mkExn Other "Rate limit reached") ltac:(vm_compute; reflexivity))
    as (H & _).
  exact H.
Defined.

(** A renderer that fails costs only the path of the report. *)
Example renderer_failure_is_not_fatal :
  process_query
    (mkWorld Sample.ascii_strip Sample.ascii_lower Sample.sample_loads
             Sample.sample_dumps Sample.sample_dumps Sample.sample_dumps
             (fun _ => "3f2b8c1e-0000-4000-8000-000000000001")
             (fun _ _ => Raise Sample.timed_out)
             (Sample.sample_llm "compliance_only") []
             (Ok tt) (fun _ => Ok (JObj [])) (fun _ => None)
             (fun _ => Ok (JObj [("risk_level", JStr "low")]))
             (fun _ => Ok (JObj [("approved", JBool true)]))
             (fun _ => Raise (mkExn Other "cannot open output file")))
    Sample.example_query
  = JObj
      [("routing_decision", JStr "compliance_only");
       ("document_data", JObj []);
       ("risk_assessment", JObj []);
       ("compliance_result", JObj [("approved", JBool true)]);
       ("processing_summary",
        JObj [("total_steps", JInt 4); ("successful_steps", JInt 4);
              ("agent", JStr "RoutingAgent")]);
       ("summary", JStr "1. **Processed:** one application")].
Proof. vm_compute. reflexivity. Qed.

(** ** C10: the summary counts the four slots of the state *)

(** C10.  The keys of the state that end in [_data], [_assessment] or
    [_result] are the four slots [document_data], [risk_assessment],
    [compliance_result] and [final_result], whatever the state holds, so
    [total_steps] is 4; whenever the result handed to the caller carries a
    processing summary, its [total_steps] is 4.  The count of successful
    steps is taken over the same four slots: each slot whose value does not
    contain ['error'] adds one; the empty mapping does not contain it, so
    an untouched slot is counted, and on the freshly initialised state the
    count is 4. *)
Theorem C10_total_steps_is_four :
  (forall st, slot_keys st
              = ["document_data"; "risk_assessment"; "compliance_result";
                 "final_result"]) /\
  (forall st, total_steps st = 4%nat) /\
  (forall W q,
     has_key "processing_summary" (process_query W q) = true ->
     summary_field "total_steps" (process_query W q) = Some (JInt 4)) /\
  contains "error" (JObj []) = Ok false /\
  lacks_error (JObj []) = true /\
  (forall q, successful_steps (initial_state q) = Ok 4%nat) /\
  (forall st m,
     successful_steps st = Ok m ->
     m = (b2n (lacks_error (document_data st))
          + b2n (lacks_error (risk_assessment st))
          + b2n (lacks_error (compliance_result st))
          + b2n (lacks_error (final_result st)))%nat).
Proof.
  split; [exact slot_keys_four |].
  split; [exact total_steps_four |].
  split.
  - intros W q Hkey.
    destruct (llm_ainvoke W (routing_prompt q)) as [c | e] eqn:Hllm.
    + destruct (ainvoke_routed W q c Hllm) as (n & _ & Hn & Hrun).
      unfold process_query in *. rewrite Hrun in *.
      cbn [bind try_except snd] in *.
      change (state_get ?s "final_result" ?d) with (final_result s) in *.
      destruct n; [congruence | | | |]; simpl run_stages in *;
        destruct (aggregate_summary W _ Hkey) as (m & _ & Ht & _); exact Ht.
    + unfold process_query in Hkey.
      rewrite (ainvoke_llm_raises W q e Hllm) in Hkey.
      simpl in Hkey. discriminate Hkey.
  - repeat split; try reflexivity.
    exact successful_steps_count.
Qed.

Lemma C10_total_steps_is_four_witness :
  has_key "processing_summary"
          (process_query (Sample.local_world "compliance_only") Sample.example_query)
  = true /\
  summary_field "total_steps"
    (process_query (Sample.local_world "compliance_only") Sample.example_query)
  = Some (JInt 4).
Proof.
  split; [vm_compute; reflexivity |].
  destruct C10_total_steps_is_four as (_ & _ & Hq & _).
  apply Hq. vm_compute; reflexivity.
Defined.

(** ** C1: what the count of successful steps is *)

Ltac same_count :=
  match goal with
  | |- Some (JInt (Z.of_nat ?a)) = Some (JInt (Z.of_nat ?b)) =>
      replace b with a by lia; reflexivity
  end.

Lemma error_free_populated_document (st : RoutingState) :
  error_free_populated (N_route_decision :: downstream N_document_processing) st
  = (b2n (lacks_error (document_data st))
     + b2n (lacks_error (risk_assessment st))
     + b2n (lacks_error (compliance_result st)))%nat.
Proof.
  unfold error_free_populated. simpl.
  destruct (lacks_error (document_data st)),
           (lacks_error (risk_assessment st)),
           (lacks_error (compliance_result st)); reflexivity.
Qed.

Lemma error_free_populated_risk (st : RoutingState) :
  error_free_populated (N_route_decision :: downstream N_risk_assessment) st
  = (b2n (lacks_error (risk_assessment st))
     + b2n (lacks_error (compliance_result st)))%nat.
Proof.
  unfold error_free_populated. simpl.
  destruct (lacks_error (risk_assessment st)),
           (lacks_error (compliance_result st)); reflexivity.
Qed.

Lemma error_free_populated_compliance (st : RoutingState) :
  error_free_populated (N_route_decision :: downstream N_compliance_check) st
  = b2n (lacks_error (compliance_result st)).
Proof.
  unfold error_free_populated. simpl.
  destruct (lacks_error (compliance_result st)); reflexivity.
Qed.

(** C1, as stated, fails: on a [compliance_only] request one stage slot is
    written by a handler, and the summary reports four successful steps. *)
Lemma C1_successful_steps_exceeds_populated :
  exists visited st,
    ainvoke (Sample.local_world "compliance_only")
            (initial_state Sample.example_query) = Ok (visited, st) /\
    populated_slots visited = 1%nat /\
    summary_field "successful_steps" (final_result st) = Some (JInt 4).
Proof.
  eexists; eexists. split; [vm_compute; reflexivity |].
  split; vm_compute; reflexivity.
Qed.

(** C1, amended.  For a request whose classifier call answered and whose
    final result carries a processing summary: [total_steps] is 4, and
    [successful_steps] counts, among the four slots of the state
    ([document_data], [risk_assessment], [compliance_result] and
    [final_result]), those whose value does not contain ['error'].  In
    terms of the run: it is the number of stage slots written during the
    run whose value lacks ['error'], plus the number of stage slots not
    written (3 minus the number written, each still [{}]), plus one for
    [final_result], which is still [{}] when the count is taken. *)
Theorem C1_successful_steps_counts_all_slots (W : World) (q c : string) :
  llm_ainvoke W (routing_prompt q) = Ok c ->
  exists visited st,
    ainvoke W (initial_state q) = Ok (visited, st) /\
    process_query W q = final_result st /\
    (has_key "processing_summary" (final_result st) = true ->
     summary_field "total_steps" (final_result st) = Some (JInt 4) /\
     summary_field "successful_steps" (final_result st)
     = Some (JInt (Z.of_nat (error_free_populated visited st
                             + (3 - populated_slots visited) + 1)))).
Proof.
  intros Hllm.
  destruct (ainvoke_routed W q c Hllm) as (n & Hn & Hne & Hrun).
  set (st0 := routed (initial_state q) (validate_route W c)) in *.
  eexists; eexists. split; [exact Hrun |].
  split; [unfold process_query; rewrite Hrun; reflexivity |].
  intros Hkey.
  assert (Hentry : n = N_document_processing \/ n = N_risk_assessment
                   \/ n = N_compliance_check).
  { destruct (valid_routes_cases _ (validate_route_valid W c)) as [E | [E | [E | E]]];
      rewrite E in Hn; simpl in Hn; injection Hn as <-; auto. }
  destruct Hentry as [-> | [-> | ->]]; simpl run_stages in *.
  - set (st3 := _check_compliance W (_assess_risk W (_process_document W st0))) in *.
    destruct (aggregate_summary W st3 Hkey) as (m & Hm & Ht & Hs).
    split; [exact Ht |]. rewrite Hs.
    rewrite error_free_populated_document.
    destruct (aggregate_results_frame W st3) as (_ & _ & -> & -> & ->).
    rewrite (successful_steps_count st3 m Hm).
    assert (Hf : final_result st3 = JObj []).
    { subst st3.
      destruct (check_compliance_frame W (_assess_risk W (_process_document W st0)))
        as (_ & _ & _ & _ & ->).
      destruct (assess_risk_frame W (_process_document W st0)) as (_ & _ & _ & _ & ->).
      destruct (process_document_frame W st0) as (_ & _ & _ & _ & ->).
      reflexivity. }
    rewrite Hf.
    change (lacks_error (JObj [])) with true.
    cbv [b2n populated_slots downstream filter is_stage length].
    same_count.
  - set (st3 := _check_compliance W (_assess_risk W st0)) in *.
    destruct (aggregate_summary W st3 Hkey) as (m & Hm & Ht & Hs).
    split; [exact Ht |]. rewrite Hs.
    rewrite error_free_populated_risk.
    destruct (aggregate_results_frame W st3) as (_ & _ & _ & -> & ->).
    rewrite (successful_steps_count st3 m Hm).
    assert (Hf : final_result st3 = JObj [] /\ document_data st3 = JObj []).
    { subst st3.
      destruct (check_compliance_frame W (_assess_risk W st0))
        as (_ & _ & -> & _ & ->).
      destruct (assess_risk_frame W st0) as (_ & _ & -> & _ & ->).
      split; reflexivity. }
    destruct Hf as (-> & ->).
    change (lacks_error (JObj [])) with true.
    cbv [b2n populated_slots downstream filter is_stage length].
    same_count.
  - set (st3 := _check_compliance W st0) in *.
    destruct (aggregate_summary W st3 Hkey) as (m & Hm & Ht & Hs).
    split; [exact Ht |]. rewrite Hs.
    rewrite error_free_populated_compliance.
    destruct (aggregate_results_frame W st3) as (_ & _ & _ & _ & ->).
    rewrite (successful_steps_count st3 m Hm).
    assert (Hf : final_result st3 = JObj [] /\ document_data st3 = JObj []
                 /\ risk_assessment st3 = JObj []).
    { subst st3.
      destruct (check_compliance_frame W st0) as (_ & _ & -> & -> & ->).
      repeat split; reflexivity. }
    destruct Hf as (-> & -> & ->).
    change (lacks_error (JObj [])) with true.
    cbv [b2n populated_slots downstream filter is_stage length].
    same_count.
Qed.

Lemma C1_successful_steps_counts_all_slots_witness :
  llm_ainvoke (Sample.local_world "compliance_only")
              (routing_prompt Sample.example_query) = Ok "compliance_only" /\
  exists visited st,
    ainvoke (Sample.local_world "compliance_only")
            (initial_state Sample.example_query) = Ok (visited, st) /\
    has_key "processing_summary" (final_result st) = true /\
    summary_field "successful_steps" (final_result st)
    = Some (JInt (Z.of_nat (error_free_populated visited st
                            + (3 - populated_slots visited) + 1))).
Proof.
  split; [vm_compute; reflexivity |].
  destruct (C1_successful_steps_counts_all_slots
              (Sample.local_world "compliance_only") Sample.example_query
              "compliance_only" ltac:(vm_compute; reflexivity))
    as (visited & st & Hrun & _ & Hsum).
  exists visited, st.
  split; [exact Hrun |].
  assert (Hkey : has_key "processing_summary" (final_result st) = true).
  { assert (E : ainvoke (Sample.local_world "compliance_only")
                        (initial_state Sample.example_query)
                = Ok (visited, st)) by exact Hrun.
    vm_compute in E. injection E as <- <-. vm_compute. reflexivity. }
  split; [exact Hkey |].
  apply Hsum. exact Hkey.
Defined.

(** ** C4: the inputs of the risk and compliance stages *)

(** C4 does not hold of the code.  Every slot is initialised to [{}] by
    [process_query], so [state.get(slot, default)] always finds the key and
    the defaults that name the task text are never used.  On the state a
    stage sees when no earlier stage has run, for any task text [q] and any
    label: the lookup that was to fall back to the task text returns [{}];
    the fallback risk agent is called on [{}]; the request sent to a
    registered risk worker carries the serialisation of [{}] and not the
    task text; the fallback compliance agent is called on the serialisation
    of [{}]; and the risk slot computed is the same for every task text. *)
Theorem C4_task_text_fallback_never_taken (W : World) (q label : string) :
  state_get (routed (initial_state q) label) "document_data" (JStr q) = JObj [] /\
  risk_local W (routed (initial_state q) label)
  = credit_risk_agent_process W (JObj []) /\
  risk_request W (routed (initial_state q) label)
  = "Perform credit risk assessment on this applicant data: "
    ++ json_dumps W (JObj []) /\
  compliance_local W (routed (initial_state q) label)
  = compliance_agent_process W (json_dumps W (JObj [])) /\
  (forall q',
     risk_assessment (_assess_risk W (routed (initial_state q') label))
     = risk_assessment (_assess_risk W (routed (initial_state q) label))).
Proof.
  repeat split; try reflexivity.
  intros q'. unfold _assess_risk.
  destruct (_get_agent_by_skill W ["credit"; "risk"; "financial"]) as [card |].
  - reflexivity.
  - change (risk_local W (routed (initial_state q') label))
      with (credit_risk_agent_process W (JObj [])).
    change (risk_local W (routed (initial_state q) label))
      with (credit_risk_agent_process W (JObj [])).
    destruct (credit_risk_agent_process W (JObj [])); reflexivity.
Qed.

(** With fallback agents that echo their input, the slots show what each
    stage was given: the empty mapping, not the task text. *)
Example risk_only_input_is_empty_mapping :
  process_query (Sample.echo_world "risk_only") Sample.example_query
  = JObj
      [("routing_decision", JStr "risk_only");
       ("document_data", JObj []);
       ("risk_assessment", JObj [("input", JObj [])]);
       ("compliance_result", JObj [("input", JStr "{...}")]);
       ("processing_summary",
        JObj [("total_steps", JInt 4); ("successful_steps", JInt 4);
              ("agent", JStr "RoutingAgent")]);
       ("summary", JStr "1. **Processed:** one application");
       ("output_pdf_path", JStr "mortgage_docs/output/compliance_report.pdf")].
Proof. vm_compute. reflexivity. Qed.

Example compliance_only_input_is_empty_mapping :
  compliance_result
    (_check_compliance (Sample.echo_world "compliance_only")
       (routed (initial_state Sample.example_query) "compliance_only"))
  = JObj [("input", JStr "{}")].
Proof. vm_compute. reflexivity. Qed.

(** ** C9: the example scenario *)

(** C9, as stated, fails on the example run.  The task text of the
    example is classified [risk_only] and no agent is registered, so the
    risk stage and the compliance stage run the repository's own agents.
    The risk stage hands the empty mapping, not the task text, to the
    credit risk agent, whose report has a debt-to-income ratio of 0 but
    the risk level [medium]; the compliance agent reads an annual income
    of 0 from that report and does not approve, although the mock bureau
    scores the applicant at 800. *)
Lemma C9_example_run_medium_and_denied :
  exists final risk verdict,
    process_query Scenario.fallback_world Sample.example_query = JObj final /\
    assoc "routing_decision" final = Some (JStr "risk_only") /\
    assoc "risk_assessment" final = Some (JObj risk) /\
    assoc "credit_score" risk = Some (JInt 800) /\
    assoc "debt_to_income_ratio" risk = Some (JNum 0) /\
    assoc "risk_level" risk = Some (JStr "medium") /\
    assoc "risk_level" risk <> Some (JStr "low") /\
    assoc "compliance_result" final = Some (JObj verdict) /\
    assoc "approved" verdict = Some (JBool false) /\
    assoc "approved" verdict <> Some (JBool true).
Proof.
  do 3 eexists. split; [vm_compute; reflexivity |].
  repeat split; try reflexivity; discriminate.
Qed.

(** C9, amended.  The figures of the example give the expected verdicts
    when they are the input of the two functions: on financial data with
    an annual income of 80000, a credit score of 720 and a monthly debt
    that is absent or 0, [_assess_credit_risk] returns a report whose
    [debt_to_income_ratio] is 0 and whose [risk_level] is [low]; on
    application data with the same figures at its top level,
    [_analyze_structured_data] computes a ratio of 0 and approves. *)
Theorem C9_example_figures (format_1f : Q -> string) :
  (forall financial_data,
     assoc "annual_income" financial_data = Some (JInt 80000) ->
     assoc "credit_score" financial_data = Some (JInt 720) ->
     assoc "monthly_debt" financial_data = None \/
     assoc "monthly_debt" financial_data = Some (JInt 0) ->
     exists report,
       CreditRisk._assess_credit_risk format_1f financial_data = Ok (JObj report) /\
       assoc "debt_to_income_ratio" report = Some (JNum 0) /\
       assoc "risk_level" report = Some (JStr "low")) /\
  (forall data,
     assoc "risk_assessment" data = None ->
     assoc "annual_income" data = Some (JInt 80000) ->
     assoc "credit_score" data = Some (JInt 720) ->
     assoc "monthly_debt" data = None \/ assoc "monthly_debt" data = Some (JInt 0) ->
     exists report metrics,
       Compliance._analyze_structured_data format_1f data = Ok (JObj report) /\
       assoc "approved" report = Some (JBool true) /\
       assoc "metrics" report = Some (JObj metrics) /\
       assoc "debt_to_income_ratio" metrics = Some (JNum 0)).
Proof.
  split.
  - intros fd Hi Hc Hd.
    unfold CreditRisk._assess_credit_risk, dict_get.
    rewrite Hi, Hc.
    destruct Hd as [-> | ->]; vm_compute; eexists; repeat split; reflexivity.
  - intros data Hr Hi Hc Hd.
    unfold Compliance._analyze_structured_data, Compliance.extract_metrics,
      has_key, dict_get.
    rewrite Hr, Hi, Hc.
    destruct Hd as [-> | ->]; vm_compute; do 2 eexists; repeat split; reflexivity.
Qed.

Lemma C9_example_figures_witness :
  (exists report,
     CreditRisk._assess_credit_risk (fun _ => "0.0")
       [("annual_income", JInt 80000); ("monthly_debt", JInt 0);
        ("credit_score", JInt 720); ("employment_history", JStr "");
        ("applicant_name", JStr "Unknown"); ("loan_amount", JInt 0)]
     = Ok (JObj report) /\
     assoc "debt_to_income_ratio" report = Some (JNum 0) /\
     assoc "risk_level" report = Some (JStr "low")) /\
  (exists report metrics,
     Compliance._analyze_structured_data (fun _ => "0.0")
       [("credit_score", JInt 720); ("annual_income", JInt 80000)]
     = Ok (JObj report) /\
     assoc "approved" report = Some (JBool true) /\
     assoc "metrics" report = Some (JObj metrics) /\
     assoc "debt_to_income_ratio" metrics = Some (JNum 0)).
Proof.
  destruct (C9_example_figures (fun _ => "0.0")) as (Hrisk & Hflat).
  split.
  - apply Hrisk; [reflexivity | reflexivity | right; reflexivity].
  - apply Hflat; [reflexivity | reflexivity | reflexivity | left; reflexivity].
Defined.

(** The report of [_assess_credit_risk] stores the score under
    [credit_score_estimate]; read as a flat structure by the compliance
    check, it has no [credit_score] and is not approved. *)
Example manual_risk_report_read_flat :
  match CreditRisk._assess_credit_risk (fun _ => "0.0")
          [("annual_income", JInt 80000); ("monthly_debt", JInt 0);
           ("credit_score", JInt 720)] with
  | Ok (JObj report) =>
      match Compliance._analyze_structured_data (fun _ => "0.0") report with
      | Ok (JObj verdict) => assoc "approved" verdict
      | _ => None
      end
  | _ => None
  end = Some (JBool false).
Proof. vm_compute. reflexivity. Qed.

(** * Further properties of the routing agent *)

Import Extra.

(** ** _get_agent_by_skill *)

Lemma lookup_In {A} (k : string) (l : list (string * A)) (v : A) :
  lookup k l = Some v -> In (k, v) l.
Proof.
  induction l as [| [k' v'] l IH]; simpl; [discriminate |].
  destruct (String.eqb k k') eqn:E.
  - apply String.eqb_eq in E. intros H; injection H as ->. subst. auto.
  - auto.
Qed.

Lemma direct_mapping_hit (W : World) (kws : list string) (card : AgentCard) :
  direct_mapping W kws = Some card ->
  exists kw, In kw kws /\ canonical_hit W kw card.
Proof.
  induction kws as [| kw rest IH]; cbn [direct_mapping]; [discriminate |].
  destruct (lookup (py_lower W kw) agent_mapping) as [name |] eqn:Hm.
  - destruct (negb (name =? "")%string).
    + destruct (lookup name (available_agents W)) as [c |] eqn:Hc.
      * intros H; injection H as ->.
        exists kw. split; [left; reflexivity | exists name; auto].
      * intros H. destruct (IH H) as (k & Hk & Hh).
        exists k; split; [right; exact Hk | exact Hh].
    + intros H. destruct (IH H) as (k & Hk & Hh).
      exists k; split; [right; exact Hk | exact Hh].
  - intros H. destruct (IH H) as (k & Hk & Hh).
    exists k; split; [right; exact Hk | exact Hh].
Qed.

Lemma text_matching_hit (W : World) (kws : list string)
      (agents : list (string * AgentCard)) (card : AgentCard) :
  text_matching W kws agents = Some card ->
  exists kw name,
    In kw kws /\ In (name, card) agents /\
    substring_of (py_lower W kw) (combined_text W name card) = true.
Proof.
  induction agents as [| [name c] rest IH]; simpl; [discriminate |].
  destruct (existsb _ kws) eqn:E.
  - intros H; injection H as ->.
    apply existsb_exists in E. destruct E as (kw & Hkw & Hs).
    exists kw, name. auto.
  - intros H. destruct (IH H) as (kw & nm & Hk & Hi & Hs).
    exists kw, nm. auto.
Qed.

(** X1.  The agent found for a list of keywords is always an agent of the
    registry, and it is related to one of the keywords: either it is
    registered under the canonical name of a keyword, or its name,
    description or skill names mention a keyword. *)
Theorem get_agent_by_skill_sound (W : World) (kws : list string)
        (card : AgentCard) :
  _get_agent_by_skill W kws = Some card ->
  In card (map snd (available_agents W)) /\
  exists kw, In kw kws /\ (canonical_hit W kw card \/ text_hit W kw card).
Proof.
  unfold _get_agent_by_skill.
  destruct (direct_mapping W kws) as [c |] eqn:Hd.
  - intros H; injection H as ->.
    destruct (direct_mapping_hit W kws card Hd) as (kw & Hk & name & Hm & Hl).
    split.
    + apply lookup_In in Hl. apply (in_map snd) in Hl. exact Hl.
    + exists kw. split; [exact Hk | left; exists name; auto].
  - intros H.
    destruct (text_matching_hit W kws _ card H) as (kw & name & Hk & Hi & Hs).
    split.
    + apply (in_map snd) in Hi. exact Hi.
    + exists kw. split; [exact Hk | right; exists name; auto].
Qed.

Lemma get_agent_by_skill_sound_witness :
  _get_agent_by_skill
    (Sample.remote_world "full_pipeline" (fun _ _ => Raise Sample.timed_out))
    ["credit"; "risk"; "financial"] = Some Sample.risk_card /\
  In Sample.risk_card
     (map snd (available_agents
                 (Sample.remote_world "full_pipeline"
                    (fun _ _ => Raise Sample.timed_out)))).
Proof.
  assert (H : _get_agent_by_skill
                (Sample.remote_world "full_pipeline"
                   (fun _ _ => Raise Sample.timed_out))
                ["credit"; "risk"; "financial"] = Some Sample.risk_card)
    by (vm_compute; reflexivity).
  split; [exact H |].
  exact (proj1 (get_agent_by_skill_sound _ _ _ H)).
Defined.

(** X2.  Canonical names win over text matching: when some keyword of the
    list has a canonical agent that is registered, the agent returned is
    registered under the canonical name of a keyword of the list, whatever
    the other agents of the registry say about themselves. *)
Theorem get_agent_by_skill_canonical_first (W : World) (kws : list string) :
  (exists kw card, In kw kws /\ canonical_hit W kw card) ->
  exists kw card,
    In kw kws /\ canonical_hit W kw card /\
    _get_agent_by_skill W kws = Some card.
Proof.
  intros (kw0 & card0 & Hin & name0 & Hm0 & Hl0).
  assert (Hd : exists card, direct_mapping W kws = Some card).
  { induction kws as [| kw rest IH]; [contradiction |].
    cbn [direct_mapping]. destruct Hin as [-> | Hin].
    - rewrite Hm0.
      assert (Hne : negb (name0 =? "")%string = true).
      { unfold agent_mapping in Hm0. simpl in Hm0.
        repeat match type of Hm0 with
               | (if ?b then _ else _) = _ =>
                   destruct b; [injection Hm0 as <-; reflexivity |]
               end.
        discriminate Hm0. }
      rewrite Hne, Hl0. eauto.
    - destruct (lookup (py_lower W kw) agent_mapping) as [name |]; [| auto].
      destruct (negb (name =? "")%string); [| auto].
      destruct (lookup name (available_agents W)); eauto. }
  destruct Hd as (card & Hd).
  destruct (direct_mapping_hit W kws card Hd) as (kw & Hk & Hh).
  exists kw, card. split; [exact Hk | split; [exact Hh |]].
  unfold _get_agent_by_skill. rewrite Hd. reflexivity.
Qed.

Lemma get_agent_by_skill_canonical_first_witness :
  exists kw card,
    In kw ["compliance"; "regulatory"; "legal"] /\
    canonical_hit
      (Sample.remote_world "full_pipeline" (fun _ _ => Raise Sample.timed_out))
      kw card /\
    _get_agent_by_skill
      (Sample.remote_world "full_pipeline" (fun _ _ => Raise Sample.timed_out))
      ["compliance"; "regulatory"; "legal"] = Some card.
Proof.
  apply get_agent_by_skill_canonical_first.
  exists "regulatory", Sample.compliance_card.
  split; [simpl; auto |].
  exists "compliance_agent". split; vm_compute; reflexivity.
Defined.

(** ** An empty registry *)

Lemma get_agent_by_skill_empty (W : World) (kws : list string) :
  available_agents W = [] -> _get_agent_by_skill W kws = None.
Proof.
  intros He. unfold _get_agent_by_skill.
  assert (Hd : direct_mapping W kws = None).
  { induction kws as [| kw rest IH]; cbn [direct_mapping]; [reflexivity |].
    destruct (lookup (py_lower W kw) agent_mapping) as [name |]; [| exact IH].
    destruct (negb (name =? "")%string); [| exact IH].
    rewrite He. exact IH. }
  rewrite Hd, He. reflexivity.
Qed.

Lemma handler_without_agents (W : World)
      (f : AgentCard -> string -> result json) (n : node) (st : RoutingState) :
  available_agents W = [] ->
  handler (with_transport W f) n st = handler W n st.
Proof.
  intros He.
  assert (He' : available_agents (with_transport W f) = []) by exact He.
  destruct n; cbn [handler]; try reflexivity.
  - unfold _process_document.
    rewrite (get_agent_by_skill_empty _ _ He), (get_agent_by_skill_empty _ _ He').
    reflexivity.
  - unfold _assess_risk.
    rewrite (get_agent_by_skill_empty _ _ He), (get_agent_by_skill_empty _ _ He').
    reflexivity.
  - unfold _check_compliance.
    rewrite (get_agent_by_skill_empty _ _ He), (get_agent_by_skill_empty _ _ He').
    reflexivity.
Qed.

Lemma run_from_without_agents (W : World)
      (f : AgentCard -> string -> result json) (fuel : nat) :
  available_agents W = [] ->
  forall n visited st,
    run_from (with_transport W f) fuel n visited st = run_from W fuel n visited st.
Proof.
  intros He. induction fuel as [| fuel IH]; intros n visited st; [reflexivity |].
  cbn [run_from]. rewrite (handler_without_agents W f n st He).
  destruct (handler W n st) as [st' | e]; cbn [bind]; [| reflexivity].
  destruct (successor n st') as [[n' |] | e]; cbn [bind]; try reflexivity.
  apply IH.
Qed.

(** X3.  With an empty registry no stage finds a worker, every stage runs
    its in-process fallback, and the HTTP transport plays no part: the
    result of a request is the same whatever the transport would answer. *)
Theorem empty_registry_never_uses_transport (W : World)
        (f : AgentCard -> string -> result json) (q : string) :
  available_agents W = [] ->
  (forall kws, _get_agent_by_skill W kws = None) /\
  process_query (with_transport W f) q = process_query W q.
Proof.
  intros He. split; [intros kws; apply get_agent_by_skill_empty, He |].
  unfold process_query, ainvoke.
  rewrite (run_from_without_agents W f recursion_limit He).
  reflexivity.
Qed.

Lemma empty_registry_never_uses_transport_witness :
  available_agents (Sample.local_world "full_pipeline") = [] /\
  process_query
    (with_transport (Sample.local_world "full_pipeline")
                    (fun _ _ => Ok (Sample.envelope "{}")))
    Sample.example_query
  = process_query (Sample.local_world "full_pipeline") Sample.example_query.
Proof.
  split; [reflexivity |].
  exact (proj2 (empty_registry_never_uses_transport
                  (Sample.local_world "full_pipeline")
                  (fun _ _ => Ok (Sample.envelope "{}"))
                  Sample.example_query eq_refl)).
Defined.

(** ** The result handed to the caller *)

(** X4.  When the classifier call itself raises, no stage runs: the caller
    receives the mapping with [error] set to the message of the exception
    behind "Routing workflow failed: " and [agent] set to [RoutingAgent]. *)
Theorem classifier_failure_result (W : World) (q : string) (e : exn) :
  llm_ainvoke W (routing_prompt q) = Raise e ->
  ainvoke W (initial_state q) = Raise e /\
  process_query W q
  = JObj [("error", JStr ("Routing workflow failed: " ++ exn_str e));
          ("agent", JStr "RoutingAgent")].
Proof.
  intros H. pose proof (ainvoke_llm_raises W q e H) as Hr.
  split; [exact Hr |].
  unfold process_query. rewrite Hr. reflexivity.
Qed.

Lemma classifier_failure_result_witness :
  process_query
    (with_llm (Sample.local_world "")
              (fun _ => Raise (mkExn Other "Connection error.")))
    Sample.example_query
  = JObj [("error", JStr "Routing workflow failed: Connection error.");
          ("agent", JStr "RoutingAgent")].
Proof.
  exact (proj2 (classifier_failure_result
                  (with_llm (Sample.local_world "")
                            (fun _ => Raise (mkExn Other "Connection error.")))
                  Sample.example_query (mkExn Other "Connection error.")
                  eq_refl)).
Defined.

Lemma aggregate_results_shape (W : World) (st : RoutingState) :
  exists kv,
    final_result (_aggregate_results W st) = JObj kv /\
    has_key "error" (JObj kv) = negb (has_key "processing_summary" (JObj kv)).
Proof.
  unfold _aggregate_results.
  destruct (successful_steps st) as [m | e] eqn:Hm.
  - rewrite (collect_results_ok st m Hm). cbn [bind].
    destruct (llm_ainvoke W (summary_prompt W (collected st m))) as [s | e].
    + cbn [bind try_except]. unfold _generate_pdf_report.
      destruct (render_pdf W _) as [p | e]; cbn [bind try_except].
      * destruct (negb (p =? "")%string); eexists; split; reflexivity.
      * eexists; split; reflexivity.
    + eexists; split; reflexivity.
  - rewrite (collect_results_raise st e Hm). eexists; split; reflexivity.
Qed.

Lemma run_stages_aggregates (W : World) (n : node) (st : RoutingState) :
  n <> N_route_decision ->
  run_stages W n st = _aggregate_results W (before_aggregation W n st).
Proof.
  intros Hn. destruct n; [congruence | | | |]; reflexivity.
Qed.

(** X5.  Every request gets a mapping back, and the mapping has exactly one
    of the keys [error] and [processing_summary]: either the full record
    with its summary, or an error record (routing failure or aggregation
    failure), never both and never neither. *)
Theorem process_query_error_xor_summary (W : World) (q : string) :
  exists kv,
    process_query W q = JObj kv /\
    has_key "error" (JObj kv) = negb (has_key "processing_summary" (JObj kv)).
Proof.
  destruct (llm_ainvoke W (routing_prompt q)) as [c | e] eqn:Hllm.
  - destruct (ainvoke_routed W q c Hllm) as (n & _ & Hn & Hrun).
    unfold process_query. rewrite Hrun. cbn [bind try_except snd].
    change (state_get ?s "final_result" ?d) with (final_result s).
    rewrite (run_stages_aggregates W n _ Hn).
    apply aggregate_results_shape.
  - unfold process_query. rewrite (ainvoke_llm_raises W q e Hllm).
    eexists; split; reflexivity.
Qed.

(** ** The message log *)

Lemma process_document_logs (W : World) (st : RoutingState) :
  exists c, messages (_process_document W st)
            = (messages st ++ [mkMsg "assistant" c])%list.
Proof.
  unfold _process_document, try_except, bind.
  destruct (_get_agent_by_skill W _); [eexists; reflexivity |].
  destruct (document_local W st); eexists; reflexivity.
Qed.

Lemma assess_risk_logs (W : World) (st : RoutingState) :
  exists c, messages (_assess_risk W st)
            = (messages st ++ [mkMsg "assistant" c])%list.
Proof.
  unfold _assess_risk, try_except, bind.
  destruct (_get_agent_by_skill W _); [eexists; reflexivity |].
  destruct (risk_local W st); eexists; reflexivity.
Qed.

Lemma check_compliance_logs (W : World) (st : RoutingState) :
  exists c, messages (_check_compliance W st)
            = (messages st ++ [mkMsg "assistant" c])%list.
Proof.
  unfold _check_compliance, try_except, bind.
  destruct (_get_agent_by_skill W _); [eexists; reflexivity |].
  destruct (compliance_local W st); eexists; reflexivity.
Qed.

Lemma aggregate_results_logs (W : World) (st : RoutingState) :
  exists c, messages (_aggregate_results W st)
            = (messages st ++ [mkMsg "assistant" c])%list.
Proof.
  unfold _aggregate_results, try_except, bind.
  destruct (collect_results st) as [final0 |]; [| eexists; reflexivity].
  destruct (llm_ainvoke W _); eexists; reflexivity.
Qed.

(** X6.  Every node function that returns has appended exactly one
    assistant message to the message list of the state it was given, on
    its failure path as on its success path, and has left the earlier
    entries as they were.  The statement is about the list a node
    returns; what the graph runtime's [add_messages] reducer then stores
    is outside this development. *)
Theorem node_appends_one_message (W : World) (n : node) (st st' : RoutingState) :
  handler W n st = Ok st' ->
  exists content,
    messages st' = (messages st ++ [mkMsg "assistant" content])%list.
Proof.
  destruct n; cbn [handler]; intros H.
  - unfold _make_routing_decision in H.
    destruct (llm_ainvoke W (routing_prompt (query st))) as [c | e];
      cbn [bind] in H; [| discriminate H].
    injection H as <-. eexists. reflexivity.
  - injection H as <-. apply process_document_logs.
  - injection H as <-. apply assess_risk_logs.
  - injection H as <-. apply check_compliance_logs.
  - injection H as <-. apply aggregate_results_logs.
Qed.

Lemma node_appends_one_message_witness :
  exists content,
    messages (_assess_risk (Sample.local_world "risk_only")
                (routed (initial_state Sample.example_query) "risk_only"))
    = (messages (routed (initial_state Sample.example_query) "risk_only")
       ++ [mkMsg "assistant" content])%list.
Proof.
  exact (node_appends_one_message (Sample.local_world "risk_only")
           N_risk_assessment
           (routed (initial_state Sample.example_query) "risk_only")
           _ eq_refl).
Defined.

(** ** Bounds of the success count *)

Lemma final_result_before_aggregation (W : World) (n : node) (st : RoutingState) :
  final_result (before_aggregation W n st) = final_result st.
Proof.
  destruct n; simpl before_aggregation; try reflexivity.
  - destruct (check_compliance_frame W (_assess_risk W (_process_document W st)))
      as (_ & _ & _ & _ & ->).
    destruct (assess_risk_frame W (_process_document W st)) as (_ & _ & _ & _ & ->).
    destruct (process_document_frame W st) as (_ & _ & _ & _ & ->).
    reflexivity.
  - destruct (check_compliance_frame W (_assess_risk W st)) as (_ & _ & _ & _ & ->).
    destruct (assess_risk_frame W st) as (_ & _ & _ & _ & ->).
    reflexivity.
  - destruct (check_compliance_frame W st) as (_ & _ & _ & _ & ->).
    reflexivity.
Qed.

(** X7.  Whenever the result carries a processing summary, its
    [successful_steps] is a whole number between 1 and 4 = [total_steps]:
    it never exceeds the total, and it is at least 1 even when every stage
    failed, because [final_result] itself is counted while still empty. *)
Theorem successful_steps_between_one_and_four (W : World) (q : string) :
  has_key "processing_summary" (process_query W q) = true ->
  exists m : nat,
    summary_field "successful_steps" (process_query W q)
    = Some (JInt (Z.of_nat m)) /\
    summary_field "total_steps" (process_query W q) = Some (JInt 4) /\
    (1 <= m <= 4)%nat.
Proof.
  intros Hkey.
  destruct (llm_ainvoke W (routing_prompt q)) as [c | e] eqn:Hllm.
  - destruct (ainvoke_routed W q c Hllm) as (n & _ & Hn & Hrun).
    unfold process_query in *. rewrite Hrun in *.
    cbn [bind try_except snd] in *.
    change (state_get ?s "final_result" ?d) with (final_result s) in *.
    rewrite (run_stages_aggregates W n _ Hn) in *.
    set (st3 := before_aggregation W n _) in *.
    destruct (aggregate_summary W st3 Hkey) as (m & Hm & Ht & Hs).
    exists m. split; [exact Hs | split; [exact Ht |]].
    pose proof (successful_steps_count st3 m Hm) as Hc.
    assert (Hf : final_result st3 = JObj []).
    { subst st3. rewrite final_result_before_aggregation. reflexivity. }
    rewrite Hf in Hc. change (lacks_error (JObj [])) with true in Hc.
    destruct (lacks_error (document_data st3)),
             (lacks_error (risk_assessment st3)),
             (lacks_error (compliance_result st3));
      simpl in Hc; subst m; lia.
  - unfold process_query in Hkey.
    rewrite (ainvoke_llm_raises W q e Hllm) in Hkey.
    simpl in Hkey. discriminate Hkey.
Qed.

Lemma successful_steps_between_one_and_four_witness :
  has_key "processing_summary"
    (process_query
       (Sample.remote_world "full_pipeline" (fun _ _ => Raise Sample.timed_out))
       Sample.example_query) = true /\
  exists m : nat,
    summary_field "successful_steps"
      (process_query
         (Sample.remote_world "full_pipeline" (fun _ _ => Raise Sample.timed_out))
         Sample.example_query)
    = Some (JInt (Z.of_nat m)) /\
    (1 <= m <= 4)%nat.
Proof.
  assert (H : has_key "processing_summary"
                (process_query
                   (Sample.remote_world "full_pipeline"
                      (fun _ _ => Raise Sample.timed_out))
                   Sample.example_query) = true) by (vm_compute; reflexivity).
  split; [exact H |].
  destruct (successful_steps_between_one_and_four _ _ H) as (m & Hs & _ & Hb).
  exists m. split; [exact Hs | exact Hb].
Defined.

(** ** What a worker's reply can put into a slot *)

Lemma get_method_dict (v : json) (k : string) (d r : json) :
  get_method v k d = Ok r -> is_dict v = true.
Proof. destruct v; simpl; intros H; try discriminate H; reflexivity. Qed.

Lemma named_select_dict (key logged : string) (response_data chosen : json) :
  named_select key logged response_data = Ok chosen -> is_dict chosen = true.
Proof.
  unfold named_select, bind.
  destruct (contains key response_data) as [c |]; [| discriminate].
  destruct (if c then _ else _) as [x |]; [| discriminate].
  destruct (get_method x logged (JStr "unknown")) eqn:E; [| discriminate].
  intros H; injection H as <-. exact (get_method_dict _ _ _ _ E).
Qed.

Lemma named_select_rejects (key logged : string) (response_data : json) :
  is_dict response_data = false ->
  returns (named_select key logged response_data) = false.
Proof.
  intros Hd. destruct response_data; try discriminate Hd;
    unfold named_select, has_results, bind; simpl; try reflexivity.
  - destruct (substring_of key s); simpl; [reflexivity |].
    destruct (substring_of "results" s); reflexivity.
  - destruct (existsb (is_str_eq key) l); simpl; [reflexivity |].
    destruct (existsb (is_str_eq "results") l); reflexivity.
Qed.

Lemma contains_defined (k k' : string) (v : json) (b : bool) :
  contains k v = Ok b -> returns (contains k' v) = true.
Proof. destruct v; simpl; intros H; try discriminate H; reflexivity. Qed.

Lemma document_select_container (response_data d : json) :
  document_select response_data = Ok d -> returns (contains "error" d) = true.
Proof.
  unfold document_select, bind.
  destruct (has_results response_data) as [[|] |]; [| | discriminate].
  - destruct (getitem response_data "results") as [r |]; [| discriminate].
    destruct (getitem0 r) as [x |]; [| discriminate].
    destruct (get_method x "applicant_name" (JStr "Unknown")) eqn:E; [| discriminate].
    intros H; injection H as <-.
    apply get_method_dict in E. destruct x; try discriminate E. reflexivity.
  - destruct (contains "applicant_name" response_data) eqn:E; [| discriminate].
    intros H; injection H as <-. exact (contains_defined _ _ _ _ E).
Qed.

(** X8.  Whatever a registered worker replies (or fails to reply), the
    value the remote branch computes for the risk slot and for the
    compliance slot is a mapping, and the value it computes for the
    document slot is at least a container on which the aggregation's test
    ['error' not in v] is defined.  A reply that parses as JSON but is not
    an object ends as an [error] mapping in the risk and compliance
    slots. *)
Theorem remote_slots_are_containers (W : World) (card : AgentCard)
        (st : RoutingState) :
  is_dict (risk_remote W card st) = true /\
  is_dict (compliance_remote W card st) = true /\
  returns (contains "error" (document_remote W card st)) = true /\
  (forall s v,
     AgentConnect.send_task W card (risk_request W st) (uuid4 W tt) = Ok (JStr s) ->
     json_loads W s = Some v -> is_dict v = false ->
     has_key "error" (risk_remote W card st) = true) /\
  (forall s v,
     AgentConnect.send_task W card (compliance_request W st) (uuid4 W tt)
     = Ok (JStr s) ->
     json_loads W s = Some v -> is_dict v = false ->
     has_key "error" (compliance_remote W card st) = true).
Proof.
  split; [| split; [| split; [| split]]].
  - unfold risk_remote, try_except, bind, except_json_decode.
    destruct (AgentConnect.send_task W card _ _) as [response |]; [| reflexivity].
    destruct (py_json_loads W response) as [v | e].
    + destruct (named_select "risk_analysis" "risk_level" v) as [x | e] eqn:E.
      * exact (named_select_dict _ _ _ _ E).
      * destruct (exn_kind e); reflexivity.
    + destruct (exn_kind e); reflexivity.
  - unfold compliance_remote, try_except, bind, except_json_decode.
    destruct (AgentConnect.send_task W card _ _) as [response |]; [| reflexivity].
    destruct (py_json_loads W response) as [v | e].
    + destruct (named_select "compliance_analysis" "approved" v) as [x | e] eqn:E.
      * exact (named_select_dict _ _ _ _ E).
      * destruct (exn_kind e); reflexivity.
    + destruct (exn_kind e); reflexivity.
  - unfold document_remote, try_except, bind, except_json_decode.
    destruct (AgentConnect.send_task W card _ _) as [response |]; [| reflexivity].
    destruct (py_json_loads W response) as [v | e].
    + destruct (document_select v) as [x | e] eqn:E.
      * exact (document_select_container _ _ E).
      * destruct (exn_kind e); reflexivity.
    + destruct (exn_kind e); reflexivity.
  - intros s v Hs Hv Hd. unfold risk_remote. rewrite Hs.
    unfold py_json_loads, bind. rewrite Hv.
    pose proof (named_select_rejects "risk_analysis" "risk_level" v Hd) as Hr.
    destruct (named_select "risk_analysis" "risk_level" v) as [x | e] eqn:E;
      [discriminate Hr |].
    assert (Hk : exn_kind e <> JSONDecodeError).
    { destruct v; try discriminate Hd; revert E;
        unfold named_select, has_results, bind; simpl;
        repeat match goal with
               | |- context [if ?b then _ else _] => destruct b; simpl
               end;
        intros E; injection E as <-; discriminate. }
    unfold except_json_decode, try_except.
    destruct (exn_kind e); try reflexivity. congruence.
  - intros s v Hs Hv Hd. unfold compliance_remote. rewrite Hs.
    unfold py_json_loads, bind. rewrite Hv.
    pose proof (named_select_rejects "compliance_analysis" "approved" v Hd) as Hr.
    destruct (named_select "compliance_analysis" "approved" v) as [x | e] eqn:E;
      [discriminate Hr |].
    assert (Hk : exn_kind e <> JSONDecodeError).
    { destruct v; try discriminate Hd; revert E;
        unfold named_select, has_results, bind; simpl;
        repeat match goal with
               | |- context [if ?b then _ else _] => destruct b; simpl
               end;
        intros E; injection E as <-; discriminate. }
    unfold except_json_decode, try_except.
    destruct (exn_kind e); try reflexivity. congruence.
Qed.

Lemma remote_slots_are_containers_witness :
  let W :=
    mkWorld Sample.ascii_strip Sample.ascii_lower
            (fun s => if (s =? "[1, 2]")%string
                      then Some (JArr [JInt 1; JInt 2]) else None)
            Sample.sample_dumps Sample.sample_dumps Sample.sample_dumps
            (fun _ => "3f2b8c1e-0000-4000-8000-000000000001")
            (fun _ _ => Ok (Sample.envelope "[1, 2]"))
            (Sample.sample_llm "risk_only") Sample.all_cards
            (Ok tt) (fun _ => Ok (JObj [])) (fun _ => None)
            (fun _ => Ok (JObj [])) (fun _ => Ok (JObj []))
            (fun _ => Ok "report.pdf") in
  AgentConnect.send_task W Sample.risk_card
    (risk_request W (initial_state Sample.example_query)) (uuid4 W tt)
  = Ok (JStr "[1, 2]") /\
  json_loads W "[1, 2]" = Some (JArr [JInt 1; JInt 2]) /\
  has_key "error"
    (risk_remote W Sample.risk_card (initial_state Sample.example_query)) = true.
Proof.
  intros W.
  split; [reflexivity |]. split; [reflexivity |].
  destruct (remote_slots_are_containers W Sample.risk_card
              (initial_state Sample.example_query)) as (_ & _ & _ & H & _).
  exact (H "[1, 2]" (JArr [JInt 1; JInt 2]) eq_refl eq_refl eq_refl).
Defined.




(** * The compliance check *)

(** X10.  The decision rule of [_analyze_structured_data] on the nested
    structure the routing agent sends, where the debt-to-income ratio is
    the one reported by the risk stage.  When the credit score, the ratio
    and the annual income are numbers, the ratio being within the range
    of a float (it is formatted with [.1f]), the application is approved
    exactly when [credit_score >= 620], [ratio <= 43] and not
    [annual_income < 30000]; the list of compliance issues is empty
    exactly when none of the tests [credit_score < 620], [ratio > 43] and
    [annual_income < 30000] holds; the confidence is 0.85 on approval and
    0.65 otherwise.  The statement is in terms of the comparisons the
    code evaluates. *)
Theorem analyze_structured_data_decision (format_1f : Q -> string)
        (data : list (string * json))
        (csv aiv mdv lav dtiv : json) (cs ai dti : Q) :
  has_key "risk_assessment" (JObj data) && has_key "document_data" (JObj data)
  = true ->
  Compliance.extract_metrics data = Ok (csv, aiv, mdv, lav, dtiv) ->
  as_number csv = Ok cs -> as_number dtiv = Ok dti -> as_number aiv = Ok ai ->
  Numbers.float_range dti = true ->
  exists report issues,
    Compliance._analyze_structured_data format_1f data = Ok (JObj report) /\
    assoc "approved" report
    = Some (JBool (Qle_bool 620 cs && Qle_bool dti 43
                   && negb (Qlt_bool ai 30000))) /\
    assoc "compliance_issues" report = Some (JArr issues) /\
    (issues = [] <->
     Qlt_bool cs 620 = false /\ Qlt_bool 43 dti = false /\
     Qlt_bool ai 30000 = false) /\
    assoc "confidence" report
    = Some (JNum (if Qle_bool 620 cs && Qle_bool dti 43
                     && negb (Qlt_bool ai 30000)
                  then 85 # 100 else 65 # 100)).
Proof.
  intros _ Hm Hc Hd Hi _.
  unfold Compliance._analyze_structured_data.
  rewrite Hm. cbn [bind]. rewrite Hc. cbn [bind]. rewrite Hd. cbn [bind].
  rewrite Hi. cbn [bind].
  unfold Qlt_bool.
  destruct (Qle_bool 620 cs), (Qle_bool 740 cs), (Qle_bool dti 43),
           (Qle_bool dti 36), (Qle_bool 30000 ai);
    cbn [negb andb app length Nat.eqb];
    eexists; eexists;
    (split; [reflexivity |]);
    (split; [reflexivity |]);
    (split; [reflexivity |]);
    (split; [| reflexivity]);
    (split;
     [ intros H; first [discriminate H | repeat split; reflexivity]
     | intros (H1 & H2 & H3);
       first [reflexivity | discriminate H1 | discriminate H2 | discriminate H3] ]).
Qed.

Lemma analyze_structured_data_decision_witness :
  exists report issues,
    Compliance._analyze_structured_data (fun _ => "47.5")
      [("document_data", JObj [("loan_amount", JInt 300000)]);
       ("risk_assessment",
        JObj [("credit_score", JInt 700); ("annual_income", JInt 60000);
              ("monthly_debt", JInt 2375);
              ("debt_to_income_ratio", JNum (95 # 2))]);
       ("query", JStr "check")]
    = Ok (JObj report) /\
    assoc "approved" report = Some (JBool false) /\
    assoc "compliance_issues" report = Some (JArr issues) /\
    issues <> [].
Proof.
  destruct (analyze_structured_data_decision (fun _ => "47.5")
              [("document_data", JObj [("loan_amount", JInt 300000)]);
               ("risk_assessment",
                JObj [("credit_score", JInt 700); ("annual_income", JInt 60000);
                      ("monthly_debt", JInt 2375);
                      ("debt_to_income_ratio", JNum (95 # 2))]);
               ("query", JStr "check")]
              (JInt 700) (JInt 60000) (JInt 2375) (JInt 300000) (JNum (95 # 2))
              (inject_Z 700) (inject_Z 60000) (95 # 2)
              eq_refl eq_refl eq_refl eq_refl eq_refl eq_refl)
    as (report & issues & Hr & Ha & Hi & Hiff & _).
  exists report, issues.
  split; [exact Hr |]. split; [exact Ha |]. split; [exact Hi |].
  intros E. apply Hiff in E. destruct E as (_ & E & _). discriminate E.
Defined.

(** * The credit risk assessment *)

Import CreditFacts.

Lemma Qlt_bool_true (x y : Q) : Qlt_bool x y = true <-> x < y.
Proof.
  unfold Qlt_bool. rewrite negb_true_iff. split.
  - intros H. apply Qnot_le_lt. intros Hle. apply Qle_bool_iff in Hle. congruence.
  - intros H. destruct (Qle_bool y x) eqn:E; [| reflexivity].
    apply Qle_bool_iff in E. lra.
Qed.

Lemma Qlt_bool_false (x y : Q) : Qlt_bool x y = false <-> y <= x.
Proof. unfold Qlt_bool. rewrite negb_false_iff. apply Qle_bool_iff. Qed.

Lemma round_half_even_le (q : Q) (b : Z) :
  q <= inject_Z b -> (round_half_even q <= b)%Z.
Proof.
  intros H. unfold round_half_even.
  pose proof (Qfloor_le q) as Hf.
  assert (Hfb : (Qfloor q <= b)%Z).
  { rewrite <- (Qfloor_Z b). apply Qfloor_resp_le, H. }
  assert (Hstrict : inject_Z (Qfloor q) < q -> (Qfloor q + 1 <= b)%Z).
  { intros Hlt. assert (Hq : inject_Z (Qfloor q) < inject_Z b) by lra.
    rewrite <- Zlt_Qlt in Hq. lia. }
  destruct (Qcompare (q - inject_Z (Qfloor q)) (1 # 2)) eqn:E.
  - apply Qeq_alt in E. destruct (Z.even (Qfloor q)); [exact Hfb |].
    apply Hstrict. lra.
  - exact Hfb.
  - apply Qgt_alt in E. apply Hstrict. lra.
Qed.

Lemma round_half_even_ge (q : Q) (a : Z) :
  inject_Z a <= q -> (a <= round_half_even q)%Z.
Proof.
  intros H. unfold round_half_even.
  assert (Hfa : (a <= Qfloor q)%Z).
  { rewrite <- (Qfloor_Z a). apply Qfloor_resp_le, H. }
  destruct (Qcompare (q - inject_Z (Qfloor q)) (1 # 2));
    [destruct (Z.even (Qfloor q)) | |]; lia.
Qed.

Lemma round2_le (q : Q) (b : Z) : q <= inject_Z b -> round2 q <= inject_Z b.
Proof.
  intros H. unfold round2. rewrite Qred_correct.
  assert (Hr : (round_half_even (q * 100) <= b * 100)%Z).
  { apply round_half_even_le. rewrite inject_Z_mult.
    change (inject_Z 100) with 100. lra. }
  rewrite Zle_Qle in Hr. rewrite inject_Z_mult in Hr.
  change (inject_Z 100) with 100 in Hr.
  apply Qle_shift_div_r; [reflexivity | exact Hr].
Qed.

Lemma recommendations_nonempty (l : list string) (x : string) :
  map JStr (match l with [] => [x] | _ :: _ => l end) <> [].
Proof. destruct l; discriminate. Qed.

(** The report of the assessment in terms of the points of each check. *)
Lemma assess_credit_risk_report (format_1f : Q -> string)
      (financial_data : list (string * json)) (ai md cs : Q) :
  figures financial_data ai md cs ->
  exists report recs confidence,
    CreditRisk._assess_credit_risk format_1f financial_data = Ok (JObj report) /\
    assoc "risk_score" report = Some (JInt (Z.min (risk_points ai md cs) 100)) /\
    assoc "risk_level" report = Some (JStr (level_of (risk_points ai md cs))) /\
    assoc "debt_to_income_ratio" report
    = Some (JNum (round2 (debt_to_income ai md))) /\
    assoc "recommendations" report = Some (JArr recs) /\ recs <> [] /\
    assoc "confidence" report = Some (JNum confidence) /\
    Qle_bool (7 # 10) confidence = true /\ Qle_bool confidence 1 = true.
Proof.
  intros (Hi & Hd & Hc).
  unfold CreditRisk._assess_credit_risk, risk_points, debt_to_income.
  rewrite Hi, Hd, Hc. cbn [bind].
  set (mi := if Qlt_bool 0 ai then ai / 12 else 0).
  set (c0 := Qlt_bool 0 ai). set (c1 := Qlt_bool 0 cs).
  destruct (Qlt_bool 0 mi); cbn [bind];
    [set (dti := md / mi * 100) | set (dti := 100)];
    unfold credit_points, dti_points, income_points.
  all: destruct (Qeq_bool cs 0);
    [| destruct (Qlt_bool cs 580);
       [| destruct (Qlt_bool cs 620);
          [| destruct (Qlt_bool cs 670); [| destruct (Qlt_bool cs 740)]]]].
  all: destruct (Qlt_bool 43 dti); [| destruct (Qlt_bool 36 dti)].
  all: destruct (Qlt_bool ai 30000); [| destruct (Qlt_bool ai 50000)].
  all: do 3 eexists.
  all: repeat (split; [reflexivity |]).
  all: split; [first [apply recommendations_nonempty | simpl; discriminate] |].
  all: split; [reflexivity |].
  all: destruct c0, c1; split; reflexivity.
Qed.

Lemma points_bounds (ai md cs : Q) :
  (0 <= credit_points cs <= 40)%Z /\
  (0 <= dti_points (debt_to_income ai md) <= 25)%Z /\
  (0 <= income_points ai <= 20)%Z.
Proof.
  unfold credit_points, dti_points, income_points.
  repeat match goal with
         | |- context [if ?b then _ else _] => destruct b
         end; lia.
Qed.

(** X11.  On financial data whose three figures are numbers,
    [_assess_credit_risk] returns a report; its risk score lies between 0
    and 85, so the cap at 100 never applies; its risk level is [high] for
    a score of 50 or more, [medium] from 25 to 49 and [low] below 25; its
    recommendations are never empty; its confidence lies between 0.7 and
    1. *)
Theorem assess_credit_risk_well_formed (format_1f : Q -> string)
        (financial_data : list (string * json)) (ai md cs : Q) :
  figures financial_data ai md cs ->
  exists report score level recs confidence,
    CreditRisk._assess_credit_risk format_1f financial_data = Ok (JObj report) /\
    assoc "risk_score" report = Some (JInt score) /\
    (0 <= score <= 85)%Z /\
    assoc "risk_level" report = Some (JStr level) /\
    (level = "high" /\ (50 <= score)%Z \/
     level = "medium" /\ (25 <= score < 50)%Z \/
     level = "low" /\ (score < 25)%Z) /\
    assoc "recommendations" report = Some (JArr recs) /\ recs <> [] /\
    assoc "confidence" report = Some (JNum confidence) /\
    Qle_bool (7 # 10) confidence = true /\ Qle_bool confidence 1 = true.
Proof.
  intros Hf.
  destruct (assess_credit_risk_report format_1f financial_data ai md cs Hf)
    as (report & recs & conf & Hr & Hs & Hl & _ & Hrec & Hne & Hc & Hc1 & Hc2).
  destruct (points_bounds ai md cs) as (Hb1 & Hb2 & Hb3).
  assert (Hsum : (0 <= risk_points ai md cs <= 85)%Z)
    by (unfold risk_points; lia).
  exists report, (risk_points ai md cs), (level_of (risk_points ai md cs)),
    recs, conf.
  split; [exact Hr |].
  split; [rewrite Hs; rewrite Z.min_l by lia; reflexivity |].
  split; [exact Hsum |].
  split; [exact Hl |].
  split.
  - unfold level_of.
    destruct (50 <=? risk_points ai md cs)%Z eqn:E1.
    + left. split; [reflexivity | apply Z.leb_le, E1].
    + apply Z.leb_gt in E1.
      destruct (25 <=? risk_points ai md cs)%Z eqn:E2.
      * right; left. split; [reflexivity |]. apply Z.leb_le in E2. lia.
      * right; right. split; [reflexivity |]. apply Z.leb_gt in E2. exact E2.
  - repeat split; assumption.
Qed.

Lemma assess_credit_risk_well_formed_witness :
  exists report score level,
    CreditRisk._assess_credit_risk (fun _ => "50.0")
      [("annual_income", JInt 48000); ("monthly_debt", JInt 2000);
       ("credit_score", JInt 600)]
    = Ok (JObj report) /\
    assoc "risk_score" report = Some (JInt score) /\
    (0 <= score <= 85)%Z /\
    assoc "risk_level" report = Some (JStr level).
Proof.
  destruct (assess_credit_risk_well_formed (fun _ => "50.0")
              [("annual_income", JInt 48000); ("monthly_debt", JInt 2000);
               ("credit_score", JInt 600)]
              (inject_Z 48000) (inject_Z 2000) (inject_Z 600)
              (conj eq_refl (conj eq_refl eq_refl)))
    as (report & score & level & _ & _ & Hr & Hs & Hb & Hl & _).
  exists report, score, level. auto.
Defined.

(** X12.  An applicant without positive annual income is never rated
    [low]: the ratio is then taken to be 100, which adds the 25 points of a
    high ratio, and the income adds 20 more, so the level is [medium] or
    [high] whatever the credit score, and the reported ratio is 100. *)
Theorem no_income_never_low_risk (format_1f : Q -> string)
        (financial_data : list (string * json)) (ai md cs : Q) :
  figures financial_data ai md cs ->
  ai <= 0 ->
  exists report level,
    CreditRisk._assess_credit_risk format_1f financial_data = Ok (JObj report) /\
    assoc "risk_level" report = Some (JStr level) /\
    (level = "medium" \/ level = "high") /\
    assoc "debt_to_income_ratio" report = Some (JNum 100).
Proof.
  intros Hf Hai.
  destruct (assess_credit_risk_report format_1f financial_data ai md cs Hf)
    as (report & recs & conf & Hr & _ & Hl & Hd & _).
  assert (H0 : Qlt_bool 0 ai = false) by (apply Qlt_bool_false; exact Hai).
  assert (Hdti : debt_to_income ai md = 100).
  { unfold debt_to_income. rewrite H0. reflexivity. }
  assert (Hinc : income_points ai = 20%Z).
  { unfold income_points.
    assert (H : Qlt_bool ai 30000 = true) by (apply Qlt_bool_true; lra).
    rewrite H. reflexivity. }
  destruct (points_bounds ai md cs) as (Hb1 & _ & _).
  assert (Hsum : (45 <= risk_points ai md cs)%Z).
  { unfold risk_points. rewrite Hdti, Hinc.
    change (dti_points 100) with 25%Z. lia. }
  exists report, (level_of (risk_points ai md cs)).
  split; [exact Hr |]. split; [exact Hl |].
  split.
  - unfold level_of.
    destruct (50 <=? risk_points ai md cs)%Z; [right; reflexivity |].
    destruct (25 <=? risk_points ai md cs)%Z eqn:E; [left; reflexivity |].
    apply Z.leb_gt in E. lia.
  - rewrite Hd, Hdti. reflexivity.
Qed.

Lemma no_income_never_low_risk_witness :
  exists report level,
    CreditRisk._assess_credit_risk (fun _ => "100.0")
      [("credit_score", JInt 800)]
    = Ok (JObj report) /\
    assoc "risk_level" report = Some (JStr level) /\
    (level = "medium" \/ level = "high").
Proof.
  destruct (no_income_never_low_risk (fun _ => "100.0")
              [("credit_score", JInt 800)] 0 0 (inject_Z 800)
              (conj eq_refl (conj eq_refl eq_refl))
              ltac:(apply Qle_refl))
    as (report & level & Hr & Hl & Hm & _).
  exists report, level. auto.
Defined.

(** X13.  A [low] rating means that none of the penalised conditions on
    the credit score and on the ratio held: the tests [credit_score == 0]
    and [credit_score < 620] were both false, and so is [ratio > 43] for
    the reported debt-to-income ratio.  The statement is in terms of the
    comparisons the code evaluates, each of which is also false on a
    NaN. *)
Theorem low_risk_passed_checks (format_1f : Q -> string)
        (financial_data : list (string * json)) (ai md cs : Q)
        (report : list (string * json)) :
  figures financial_data ai md cs ->
  CreditRisk._assess_credit_risk format_1f financial_data = Ok (JObj report) ->
  assoc "risk_level" report = Some (JStr "low") ->
  Qeq_bool cs 0 = false /\ Qlt_bool cs 620 = false /\
  exists ratio,
    assoc "debt_to_income_ratio" report = Some (JNum ratio) /\
    Qlt_bool 43 ratio = false.
Proof.
  intros Hf Hr Hlow.
  destruct (assess_credit_risk_report format_1f financial_data ai md cs Hf)
    as (report' & recs & conf & Hr' & _ & Hl & Hd & _).
  rewrite Hr in Hr'. injection Hr' as <-.
  rewrite Hl in Hlow. injection Hlow as Hlow.
  destruct (points_bounds ai md cs) as (Hb1 & Hb2 & Hb3).
  assert (Hsum : (risk_points ai md cs < 25)%Z).
  { unfold level_of in Hlow.
    destruct (50 <=? risk_points ai md cs)%Z; [discriminate Hlow |].
    destruct (25 <=? risk_points ai md cs)%Z eqn:E; [discriminate Hlow |].
    apply Z.leb_gt, E. }
  unfold risk_points in Hsum.
  assert (Hcp : (credit_points cs < 25)%Z) by lia.
  assert (Hdp : (dti_points (debt_to_income ai md) < 25)%Z) by lia.
  split; [| split].
  - unfold credit_points in Hcp.
    destruct (Qeq_bool cs 0); [lia | reflexivity].
  - unfold credit_points in Hcp.
    destruct (Qeq_bool cs 0); [lia |].
    destruct (Qlt_bool cs 580); [lia |].
    destruct (Qlt_bool cs 620); [lia | reflexivity].
  - exists (round2 (debt_to_income ai md)). split; [exact Hd |].
    unfold dti_points in Hdp.
    destruct (Qlt_bool 43 (debt_to_income ai md)) eqn:E; [lia |].
    apply Qlt_bool_false in E. apply Qlt_bool_false.
    change 43 with (inject_Z 43). apply round2_le. exact E.
Qed.

Lemma low_risk_passed_checks_witness :
  exists report,
    CreditRisk._assess_credit_risk (fun _ => "30.0")
      [("annual_income", JInt 80000); ("monthly_debt", JInt 2000);
       ("credit_score", JInt 720)]
    = Ok (JObj report) /\
    assoc "risk_level" report = Some (JStr "low") /\
    exists ratio,
      assoc "debt_to_income_ratio" report = Some (JNum ratio) /\
      Qlt_bool 43 ratio = false.
Proof.
  eexists. split; [vm_compute; reflexivity |].
  split; [reflexivity |].
  exact (proj2 (proj2 (low_risk_passed_checks (fun _ => "30.0")
           [("annual_income", JInt 80000); ("monthly_debt", JInt 2000);
            ("credit_score", JInt 720)]
           (inject_Z 80000) (inject_Z 2000) (inject_Z 720) _
           (conj eq_refl (conj eq_refl eq_refl))
           ltac:(vm_compute; reflexivity) eq_refl))).
Defined.

(** ** Agent discovery *)

Import Discovery.







Section DiscoverFacts.

Variable get_agent_card : string -> result (option AgentCard).





End DiscoverFacts.






(** ** Credit tools *)

Import CreditTools.

Lemma score_range_never_poor (score : Z) :
  (580 <= score)%Z -> _get_score_range score <> "Poor (300-579)".
Proof.
  intros H. unfold _get_score_range.
  destruct (800 <=? score)%Z; [discriminate |].
  destruct (740 <=? score)%Z; [discriminate |].
  destruct (670 <=? score)%Z; [discriminate |].
  destruct (580 <=? score)%Z eqn:E; [discriminate |].
  apply Z.leb_gt in E. lia.
Qed.

(** X17.  For every applicant name and every value of the hash,
    [get_credit_score] returns a record whose credit score lies between
    580 and 849 (850 is never reached), so its range label is never
    [Poor]; a name containing [john] scores at least 720 and one
    containing [jane] at least 680; there are at most one derogatory mark
    and at most four recent inquiries. *)
Theorem get_credit_score_profile
  (py_hash : string -> Z) (py_lower : string -> string) (loop_time : Q)
  (name : string) :
  exists data score marks inquiries,
    get_credit_score py_hash py_lower loop_time (JStr name) = Ok (JObj data) /\
    assoc "credit_score" data = Some (JInt score) /\
    (580 <= score <= 849)%Z /\
    assoc "credit_score_range" data = Some (JStr (_get_score_range score)) /\
    _get_score_range score <> "Poor (300-579)" /\
    (substring_of "john" (py_lower name) = true -> (720 <= score)%Z) /\
    (substring_of "jane" (py_lower name) = true -> (680 <= score)%Z) /\
    assoc "derogatory_marks" data = Some (JInt marks) /\ (0 <= marks <= 1)%Z /\
    assoc "recent_inquiries" data = Some (JInt inquiries) /\
    (0 <= inquiries <= 4)%Z.
Proof.
  unfold get_credit_score.
  set (h := (py_hash (py_lower name) mod 1000)%Z).
  pose proof (Z.mod_pos_bound h 270 eq_refl) as H270.
  pose proof (Z.mod_pos_bound h 4 eq_refl) as H4.
  pose proof (Z.mod_pos_bound h 5 eq_refl) as H5.
  set (score :=
         if substring_of "john" (py_lower name) then Z.max 720 (580 + h mod 270)
         else if substring_of "jane" (py_lower name) then Z.max 680 (580 + h mod 270)
         else (580 + h mod 270)%Z).
  assert (Hs : (580 <= score <= 849)%Z).
  { unfold score. destruct (substring_of "john" _); [lia |].
    destruct (substring_of "jane" _); lia. }
  exists
    [ ("credit_score", JInt score);
      ("credit_score_range", JStr (_get_score_range score));
      ("credit_history_length", JStr (str_int (Z.max 1 (h mod 15)) ++ " years"));
      ("payment_history", JStr (_get_payment_history score));
      ("credit_utilization", JStr (str_int (Z.max 5 (h mod 45)) ++ "%"));
      ("total_accounts", JInt (Z.max 3 (h mod 20)));
      ("open_accounts", JInt (Z.max 2 (h mod 12)));
      ("recent_inquiries", JInt (h mod 5));
      ("derogatory_marks", JInt (Z.max 0 (h mod 4 - 2)));
      ("api_provider", JStr "MockCreditBureau");
      ("timestamp", JNum loop_time) ].
  exists score, (Z.max 0 (h mod 4 - 2)), (h mod 5)%Z.
  split; [reflexivity |]. split; [reflexivity |]. split; [exact Hs |].
  split; [reflexivity |].
  split; [apply score_range_never_poor; lia |].
  split; [unfold score; intros ->; lia |].
  split.
  { unfold score. intros ->. destruct (substring_of "john" _); lia. }
  split; [reflexivity |]. split; [lia |]. split; [reflexivity | lia].
Qed.

Lemma round_half_even_floor (q : Q) :
  (Qfloor q <= round_half_even q <= Qfloor q + 1)%Z.
Proof.
  unfold round_half_even.
  destruct (Qcompare (q - inject_Z (Qfloor q)) (1 # 2));
    [destruct (Z.even (Qfloor q)) | |]; lia.
Qed.

Lemma round_half_even_mono (q1 q2 : Q) :
  q1 <= q2 -> (round_half_even q1 <= round_half_even q2)%Z.
Proof.
  intros H.
  pose proof (Qfloor_resp_le _ _ H) as Hf.
  pose proof (round_half_even_floor q1) as H1.
  pose proof (round_half_even_floor q2) as H2.
  destruct (Z.eq_dec (Qfloor q1) (Qfloor q2)) as [Heq | Hne]; [| lia].
  clear H1 H2 Hf. unfold round_half_even. rewrite <- Heq.
  destruct (Qcompare (q1 - inject_Z (Qfloor q1)) (1 # 2)) eqn:E1;
    destruct (Qcompare (q2 - inject_Z (Qfloor q1)) (1 # 2)) eqn:E2;
    try (destruct (Z.even (Qfloor q1))); try lia.
  all: first [apply Qeq_alt in E1 | apply Qlt_alt in E1 | apply Qgt_alt in E1].
  all: first [apply Qeq_alt in E2 | apply Qlt_alt in E2 | apply Qgt_alt in E2].
  all: exfalso; lra.
Qed.

Lemma round4_mono (q1 q2 : Q) : q1 <= q2 -> round4 q1 <= round4 q2.
Proof.
  intros H. unfold round4. rewrite !Qred_correct.
  assert (Hr : (round_half_even (q1 * 10000) <= round_half_even (q2 * 10000))%Z)
    by (apply round_half_even_mono; lra).
  rewrite Zle_Qle in Hr.
  apply Qmult_le_compat_r; [exact Hr | discriminate].
Qed.

Lemma round4_bounds (q : Q) :
  1 # 100 <= q -> q <= 99 # 100 -> 1 # 100 <= round4 q /\ round4 q <= 99 # 100.
Proof.
  intros Hlo Hhi. split.
  - assert (E : round4 (1 # 100) == 1 # 100) by (vm_compute; reflexivity).
    rewrite <- E. apply round4_mono. exact Hlo.
  - assert (E : round4 (99 # 100) == 99 # 100) by (vm_compute; reflexivity).
    rewrite <- E. apply round4_mono. exact Hhi.
Qed.

Lemma clamp_bounds (lo hi x : Q) :
  lo <= hi -> lo <= Qmax lo (Qmin hi x) /\ Qmax lo (Qmin hi x) <= hi.
Proof.
  intros H. split.
  - apply Q.le_max_l.
  - apply Q.max_lub; [exact H | apply Q.le_min_l].
Qed.

Lemma clamp_mono (lo hi x y : Q) :
  x <= y -> Qmax lo (Qmin hi x) <= Qmax lo (Qmin hi y).
Proof.
  intros H. apply Q.max_le_compat_l. apply Q.min_le_compat_l. exact H.
Qed.

(** The figures [predict_default_risk] reads, with its defaults. *)
Lemma calculate_ml_risk_score_value (noise : Q) (cs d l i : Q)
      (credit_score dti ltv income : json) :
  as_number credit_score = Ok cs -> as_number dti = Ok d ->
  as_number ltv = Ok l -> as_number income = Ok i ->
  exists base_risk,
    _calculate_ml_risk_score noise credit_score dti ltv income
    = Ok (round4 (Qmax (1 # 100) (Qmin (99 # 100) (base_risk + noise)))).
Proof.
  intros Hc Hd Hl Hi. unfold _calculate_ml_risk_score.
  rewrite Hc, Hd, Hl, Hi. cbn [bind]. eexists. reflexivity.
Qed.

(** X18.  On financial data whose four features are numbers (or absent)
    within the range of a float, so that none of the divisions overflows,
    [predict_default_risk] returns a prediction whose default probability
    lies between 0.01 and 0.99 and whose model confidence lies between
    0.60 and 0.95, whatever the two random draws are; the risk category
    is the one of that probability.  The prediction has no [risk_level],
    [risk_score], [confidence], [risk_factors] or [recommendations]
    entry. *)
Theorem predict_default_risk_bounds (prediction_time noise jitter : Q)
        (financial_data : list (string * json)) (cs d l i : Q) :
  as_number (dict_get financial_data "credit_score" (JInt 700)) = Ok cs ->
  as_number (dict_get financial_data "dti_ratio" (JInt 30)) = Ok d ->
  as_number (dict_get financial_data "ltv_ratio" (JInt 80)) = Ok l ->
  as_number (dict_get financial_data "annual_income" (JInt 50000)) = Ok i ->
  Numbers.float_range cs && Numbers.float_range d
  && Numbers.float_range l && Numbers.float_range i = true ->
  exists prediction p c,
    predict_default_risk prediction_time noise jitter (JObj financial_data)
    = Ok (JObj prediction) /\
    assoc "default_probability" prediction = Some (JNum p) /\
    1 # 100 <= p /\ p <= 99 # 100 /\
    assoc "risk_category" prediction = Some (JStr (_get_risk_category p)) /\
    assoc "model_confidence" prediction = Some (JNum c) /\
    60 # 100 <= c /\ c <= 95 # 100 /\
    assoc "risk_level" prediction = None /\
    assoc "risk_score" prediction = None /\
    assoc "confidence" prediction = None /\
    assoc "risk_factors" prediction = None /\
    assoc "recommendations" prediction = None.
Proof.
  intros Hc Hd Hl Hi _.
  destruct (calculate_ml_risk_score_value noise cs d l i _ _ _ _ Hc Hd Hl Hi)
    as [base_risk Hcalc].
  unfold predict_default_risk, get_method. cbn [bind].
  unfold dict_get in Hcalc, Hc, Hd, Hl, Hi. rewrite Hcalc. cbn [bind].
  unfold _generate_shap_values. rewrite Hc, Hd, Hl, Hi. cbn [bind].
  do 3 eexists. split; [reflexivity |]. split; [reflexivity |].
  destruct (clamp_bounds (1 # 100) (99 # 100) (base_risk + noise)) as [Hlo Hhi];
    [discriminate |].
  destruct (round4_bounds _ Hlo Hhi) as [Hlo' Hhi'].
  split; [exact Hlo' |]. split; [exact Hhi' |].
  split; [reflexivity |]. split; [reflexivity |].
  split; [apply Q.min_glb; [discriminate | apply Q.le_max_l] |].
  split; [apply Q.le_min_l |].
  repeat split.
Qed.

Lemma predict_default_risk_bounds_witness :
  exists prediction p c,
    predict_default_risk 0 (1 # 50) (- (1 # 10))
      (JObj [("credit_score", JInt 720); ("dti_ratio", JInt 30);
             ("ltv_ratio", JInt 80); ("annual_income", JInt 85000)])
    = Ok (JObj prediction) /\
    assoc "default_probability" prediction = Some (JNum p) /\
    1 # 100 <= p /\ p <= 99 # 100 /\
    assoc "risk_category" prediction = Some (JStr (_get_risk_category p)) /\
    assoc "model_confidence" prediction = Some (JNum c) /\
    60 # 100 <= c /\ c <= 95 # 100 /\
    assoc "risk_level" prediction = None /\
    assoc "risk_score" prediction = None /\
    assoc "confidence" prediction = None /\
    assoc "risk_factors" prediction = None /\
    assoc "recommendations" prediction = None.
Proof.
  apply (predict_default_risk_bounds 0 (1 # 50) (- (1 # 10))
           [("credit_score", JInt 720); ("dti_ratio", JInt 30);
            ("ltv_ratio", JInt 80); ("annual_income", JInt 85000)]
           720 30 80 85000); reflexivity.
Defined.

(** X19.  All else equal, and for the same random draw, the simulated
    model is monotone in each feature: a credit score and an income that
    are no lower, with a debt-to-income and a loan-to-value ratio that
    are no higher, never give a higher default probability. *)
Theorem calculate_ml_risk_score_monotone (noise : Q)
        (cs1 d1 l1 i1 cs2 d2 l2 i2 : Q) :
  cs1 <= cs2 -> d2 <= d1 -> l2 <= l1 -> i1 <= i2 ->
  exists p1 p2,
    _calculate_ml_risk_score noise (JNum cs1) (JNum d1) (JNum l1) (JNum i1) = Ok p1 /\
    _calculate_ml_risk_score noise (JNum cs2) (JNum d2) (JNum l2) (JNum i2) = Ok p2 /\
    p2 <= p1.
Proof.
  intros Hc Hd Hl Hi. unfold _calculate_ml_risk_score. cbn [as_number bind].
  do 2 eexists. split; [reflexivity |]. split; [reflexivity |].
  apply round4_mono, clamp_mono.
  assert (Hdr : Qmin (d2 / 60) 1 <= Qmin (d1 / 60) 1).
  { apply Q.min_le_compat_r. apply Qmult_le_compat_r; [exact Hd | discriminate]. }
  assert (Hlr : Qmin (l2 / 100) 1 <= Qmin (l1 / 100) 1).
  { apply Q.min_le_compat_r. apply Qmult_le_compat_r; [exact Hl | discriminate]. }
  assert (Hir : Qmax 0 (Qmin 1 ((100000 - i2) / 80000))
                <= Qmax 0 (Qmin 1 ((100000 - i1) / 80000))).
  { apply clamp_mono. apply Qmult_le_compat_r; [lra | discriminate]. }
  assert (Hcr : (cs1 - 300) / 550 <= (cs2 - 300) / 550).
  { apply Qmult_le_compat_r; [lra | discriminate]. }
  set (a2 := Qmin (d2 / 60) 1) in *. set (a1 := Qmin (d1 / 60) 1) in *.
  set (b2 := Qmin (l2 / 100) 1) in *. set (b1 := Qmin (l1 / 100) 1) in *.
  set (c2 := Qmax 0 (Qmin 1 ((100000 - i2) / 80000))) in *.
  set (c1 := Qmax 0 (Qmin 1 ((100000 - i1) / 80000))) in *.
  set (n2 := (cs2 - 300) / 550) in *. set (n1 := (cs1 - 300) / 550) in *.
  lra.
Qed.

Lemma calculate_ml_risk_score_monotone_witness :
  exists p1 p2,
    _calculate_ml_risk_score (1 # 100)
      (JNum 640) (JNum 45) (JNum 90) (JNum 40000) = Ok p1 /\
    _calculate_ml_risk_score (1 # 100)
      (JNum 760) (JNum 30) (JNum 80) (JNum 90000) = Ok p2 /\
    p2 <= p1.
Proof.
  apply (calculate_ml_risk_score_monotone (1 # 100) 640 45 90 40000 760 30 80 90000);
    vm_compute; discriminate.
Defined.

(** ** The credit risk agent's document entry point *)

Import CreditFlow.







Ltac bind_inv H :=
  repeat lazymatch type of H with
         | bind ?m _ = Ok _ =>
             let E := fresh "E" in
             destruct m eqn:E; cbn [bind] in H; [| discriminate H]
         end.

(** Whatever the financial data are, a prediction that is returned has no
    [risk_level] entry. *)
Lemma predict_default_risk_level (prediction_time noise jitter : Q)
      (financial_data risk_assessment default : json) :
  predict_default_risk prediction_time noise jitter financial_data
  = Ok risk_assessment ->
  get_method risk_assessment "risk_level" default = Ok default.
Proof.
  unfold predict_default_risk. intros H. bind_inv H.
  injection H as <-. reflexivity.
Qed.

Lemma mcp_assessment_shape
      (py_hash : string -> Z) (py_lower : string -> string)
      (loop_time prediction_time noise jitter : Q) (doc_data r : json) :
  mcp_assessment py_hash py_lower loop_time prediction_time noise jitter doc_data
  = Ok r ->
  exists report,
    r = JObj report /\
    assoc "agent" report = Some (JStr "CreditRiskAgent") /\
    assoc "risk_level" report = Some (JStr "medium").
Proof.
  unfold mcp_assessment. intros H. bind_inv H.
  injection H as <-.
  match goal with
  | Hp : predict_default_risk _ _ _ _ = Ok ?ra,
    Hl : get_method ?ra "risk_level" _ = Ok _ |- _ =>
      rewrite (predict_default_risk_level _ _ _ _ _ _ Hp) in Hl;
      injection Hl as <-
  end.
  eexists. split; [reflexivity |]. split; reflexivity.
Qed.

Lemma first_float_number (py_float : string -> option Q)
      (fields : list string) (doc_data v : json) :
  first_float py_float fields doc_data = Ok v -> exists q, v = JNum q.
Proof.
  induction fields as [| field rest IH]; cbn [first_float]; intros H.
  - injection H as <-. eexists. reflexivity.
  - destruct (contains field doc_data) as [[|] | e]; cbn [bind] in H;
      [| exact (IH H) | discriminate H].
    destruct (getitem doc_data field) as [x | e].
    + destruct (to_float py_float x); [| exact (IH H)].
      injection H as <-. eexists. reflexivity.
    + destruct (exn_kind e); first [exact (IH H) | discriminate H].
Qed.

(** Whatever the extraction returns has its three figures as numbers. *)
Lemma extract_financial_metrics_figures
      (json_loads : string -> option json) (py_float : string -> option Q)
      (re_search : string -> string -> option string)
      (doc_data : json) (financial_data : list (string * json)) :
  _extract_financial_metrics json_loads py_float re_search doc_data
  = Ok financial_data ->
  exists ai md cs, CreditFacts.figures financial_data ai md cs.
Proof.
  assert (Hfields : forall d, extract_fields py_float d = Ok financial_data ->
            exists ai md cs, CreditFacts.figures financial_data ai md cs).
  { intros d H. unfold extract_fields in H. bind_inv H. injection H as <-.
    repeat match goal with
           | Hf : first_float _ _ _ = Ok _ |- _ =>
               apply first_float_number in Hf; destruct Hf as [? ->]
           end.
    do 3 eexists. repeat split. }
  unfold _extract_financial_metrics. intros H.
  assert (Htext : forall text, Ok (_extract_from_text py_float re_search text)
                               = Ok financial_data ->
            exists ai md cs, CreditFacts.figures financial_data ai md cs).
  { intros text Ht. injection Ht as <-. unfold _extract_from_text.
    destruct (re_search "income[:\s]*\$?([0-9,]+)" text) as [g1 |];
      [destruct (py_float (remove_commas g1)) |];
      (destruct (re_search "debt[:\s]*\$?([0-9,]+)" text) as [g2 |];
       [destruct (py_float (remove_commas g2)) |]);
      (destruct (re_search "credit[_\s]*score[:\s]*([0-9]+)" text) as [g3 |];
       [destruct (py_float g3) |]);
      do 3 eexists; repeat split. }
  destruct doc_data; try exact (Hfields _ H).
  destruct (json_loads s); [exact (Hfields _ H) | exact (Htext _ H)].
Qed.

Lemma level_of_is_risk_level (score : Z) : is_risk_level (CreditFacts.level_of score).
Proof.
  unfold is_risk_level, CreditFacts.level_of.
  destruct (50 <=? score)%Z; [right; right; reflexivity |].
  destruct (25 <=? score)%Z; [right; left; reflexivity | left; reflexivity].
Qed.

(** The [agent] entry of the assessment. *)
Lemma assess_credit_risk_agent (format_1f : Q -> string)
      (financial_data : list (string * json)) (report : list (string * json)) :
  CreditRisk._assess_credit_risk format_1f financial_data = Ok (JObj report) ->
  assoc "agent" report = Some (JStr "CreditRiskAgent").
Proof.
  unfold CreditRisk._assess_credit_risk. intros H. bind_inv H.
  repeat match type of H with
         | context [let '(_, _) := ?p in _] => destruct p
         end.
  injection H as <-. reflexivity.
Qed.

Lemma assess_credit_risk_manual_report (format_1f : Q -> string)
      (json_loads : string -> option json) (py_float : string -> option Q)
      (re_search : string -> string -> option string) (doc_data : json) :
  exists report level,
    _assess_credit_risk_manual format_1f json_loads py_float re_search doc_data
    = JObj report /\
    assoc "agent" report = Some (JStr "CreditRiskAgent") /\
    assoc "risk_level" report = Some (JStr level) /\
    is_risk_level level.
Proof.
  unfold _assess_credit_risk_manual.
  destruct (_extract_financial_metrics json_loads py_float re_search doc_data)
    as [financial_data | e] eqn:E; cbn [bind try_except].
  - destruct (extract_financial_metrics_figures _ _ _ _ _ E) as (ai & md & cs & Hf).
    destruct (assess_credit_risk_report format_1f financial_data ai md cs Hf)
      as (report & recs & confidence & Hr & _ & Hl & _).
    rewrite Hr. cbn [try_except]. do 2 eexists. split; [reflexivity |].
    split; [exact (assess_credit_risk_agent _ _ _ Hr) |].
    split; [exact Hl | apply level_of_is_risk_level].
  - do 2 eexists. split; [reflexivity |]. split; [reflexivity |].
    split; [reflexivity |]. right. right. reflexivity.
Qed.



(** X21.  Once the agent is ready, [process_document_data] never raises:
    for every document, of any type and content, and whatever the tools,
    the parser and the random draws do, it returns a report that names
    [CreditRiskAgent] as its agent and whose risk level is [low],
    [medium] or [high]. *)
Theorem process_document_data_always_reports
        (format_1f : Q -> string)
        (py_hash : string -> Z) (py_lower : string -> string)
        (loop_time prediction_time noise jitter : Q)
        (json_loads : string -> option json) (py_float : string -> option Q)
        (re_search : string -> string -> option string)
        (doc_data : json) :
  exists report level,
    process_document_data format_1f py_hash py_lower loop_time prediction_time
      noise jitter json_loads py_float re_search (Ok tt) doc_data
    = Ok (JObj report) /\
    assoc "agent" report = Some (JStr "CreditRiskAgent") /\
    assoc "risk_level" report = Some (JStr level) /\
    is_risk_level level.
Proof.
  unfold process_document_data. cbn [bind].
  destruct (mcp_assessment py_hash py_lower loop_time prediction_time noise
              jitter doc_data) as [r | e] eqn:E; cbn [try_except].
  - destruct (mcp_assessment_shape _ _ _ _ _ _ _ _ E) as (report & -> & Ha & Hl).
    exists report, "medium". split; [reflexivity |]. split; [exact Ha |].
    split; [exact Hl |]. right. left. reflexivity.
  - destruct (assess_credit_risk_manual_report format_1f json_loads py_float
                re_search doc_data) as (report & level & Hr & Ha & Hl & Hlv).
    exists report, level. rewrite Hr. split; [reflexivity |].
    split; [exact Ha |]. split; [exact Hl | exact Hlv].
Qed.

(** ** The compliance agent's text entry point *)

Import ComplianceFlow.

Lemma assoc_dict_set_same (k : string) (v : json) (d : list (string * json)) :
  assoc k (dict_set k v d) = Some v.
Proof.
  induction d as [| [k' v'] rest IH]; cbn [dict_set assoc].
  - rewrite String.eqb_refl. reflexivity.
  - destruct (String.eqb k k') eqn:E; cbn [assoc]; rewrite ?E.
    + rewrite String.eqb_refl. reflexivity.
    + exact IH.
Qed.

Lemma from_first_open_app (prefix rest : string) :
  has_char "{" prefix = false ->
  from_first_open (prefix ++ String "{" rest) = Some (String "{" rest).
Proof.
  induction prefix as [| a p IH]; cbn [has_char append from_first_open]; intros H.
  - reflexivity.
  - apply orb_false_iff in H. destruct H as [Ha Hp]. rewrite Ha. exact (IH Hp).
Qed.

Lemma upto_last_close_none (s : string) :
  has_char "}" s = false -> upto_last_close s = None.
Proof.
  induction s as [| a s IH]; cbn [has_char upto_last_close]; intros H.
  - reflexivity.
  - apply orb_false_iff in H. destruct H as [Ha Hs]. rewrite (IH Hs), Ha.
    reflexivity.
Qed.

Lemma upto_last_close_app (s suffix : string) :
  has_char "}" suffix = false ->
  upto_last_close (s ++ String "}" suffix) = Some (s ++ "}").
Proof.
  intros H. induction s as [| a s IH]; cbn [append upto_last_close].
  - rewrite (upto_last_close_none _ H). reflexivity.
  - rewrite IH. reflexivity.
Qed.

Lemma json_match_span (prefix body suffix : string) :
  has_char "{" prefix = false -> has_char "}" suffix = false ->
  json_match (prefix ++ "{" ++ body ++ "}" ++ suffix) = Some ("{" ++ body ++ "}").
Proof.
  intros Hp Hs. unfold json_match.
  change ("{" ++ body ++ "}" ++ suffix) with (String "{" (body ++ String "}" suffix)).
  rewrite (from_first_open_app _ _ Hp).
  change (String "{" (body ++ String "}" suffix))
    with (String "{" body ++ String "}" suffix).
  rewrite (upto_last_close_app _ _ Hs). reflexivity.
Qed.

(** X22.  Once the crew is built, [_analyze_with_crewai] never raises and
    always returns a report whose agent is [ComplianceAgent].  The report
    is the object between the braces of the model's reply, with its
    [agent] entry set or overwritten, when the reply has such an object;
    in every other case (the crew raised, the reply has no pair of
    braces, the text between them is not JSON, or is JSON of another
    type) the report is a refusal: [approved] is false. *)
Theorem analyze_with_crewai_always_reports
        (json_loads : string -> option json)
        (build_crew : string -> result unit) (kickoff : string -> result string)
        (content : string) :
  build_crew content = Ok tt ->
  exists report,
    _analyze_with_crewai json_loads build_crew kickoff content = Ok (JObj report) /\
    assoc "agent" report = Some (JStr "ComplianceAgent") /\
    ((exists d, reply_object json_loads (kickoff content) d /\
                report = dict_set "agent" (JStr "ComplianceAgent") d) \/
     assoc "approved" report = Some (JBool false)).
Proof.
  intros Hb. unfold _analyze_with_crewai. rewrite Hb. cbn [bind].
  destruct (kickoff content) as [text | e] eqn:Ek; cbn [bind try_except];
    [| eexists; split; [reflexivity |]; split; [reflexivity | right; reflexivity]].
  destruct (json_match text) as [group |] eqn:Em; cbn [try_except];
    [| eexists; split; [reflexivity |]; split; [reflexivity | right; reflexivity]].
  unfold loads. destruct (json_loads group) as [parsed |] eqn:El;
    cbn [bind try_except];
    [| eexists; split; [reflexivity |]; split; [reflexivity | right; reflexivity]].
  destruct parsed; cbn [setitem try_except];
    try (eexists; split; [reflexivity |]; split; [reflexivity | right; reflexivity]).
  eexists. split; [reflexivity |]. split; [apply assoc_dict_set_same |].
  left. exists kv. split; [| reflexivity].
  exists text, group. repeat split; assumption.
Qed.

Lemma analyze_with_crewai_always_reports_witness :
  exists report,
    _analyze_with_crewai
      (fun s => if (s =? "{ok}")%string
                then Some (JObj [("approved", JBool true); ("agent", JStr "gpt")])
                else None)
      (fun _ => Ok tt) (fun _ => Ok "Here is the analysis: {ok} Regards")
      "income statement"
    = Ok (JObj report) /\
    assoc "agent" report = Some (JStr "ComplianceAgent") /\
    ((exists d,
        reply_object
          (fun s => if (s =? "{ok}")%string
                    then Some (JObj [("approved", JBool true); ("agent", JStr "gpt")])
                    else None)
          (Ok "Here is the analysis: {ok} Regards") d /\
        report = dict_set "agent" (JStr "ComplianceAgent") d) \/
     assoc "approved" report = Some (JBool false)).
Proof.
  apply (analyze_with_crewai_always_reports
           (fun s => if (s =? "{ok}")%string
                     then Some (JObj [("approved", JBool true); ("agent", JStr "gpt")])
                     else None)
           (fun _ => Ok tt) (fun _ => Ok "Here is the analysis: {ok} Regards")
           "income statement").
  reflexivity.
Defined.

(** X23.  A reply of the model that wraps one JSON object in prose is
    accepted: when the text before the object has no opening brace, the
    text after it has no closing brace and the object parses, the report
    is that object with [agent] set to [ComplianceAgent], whatever the
    prose is. *)
Theorem analyze_with_crewai_unwraps_object
        (json_loads : string -> option json)
        (build_crew : string -> result unit) (kickoff : string -> result string)
        (content prefix body suffix : string) (d : list (string * json)) :
  build_crew content = Ok tt ->
  kickoff content = Ok (prefix ++ "{" ++ body ++ "}" ++ suffix) ->
  has_char "{" prefix = false ->
  has_char "}" suffix = false ->
  json_loads ("{" ++ body ++ "}") = Some (JObj d) ->
  _analyze_with_crewai json_loads build_crew kickoff content
  = Ok (JObj (dict_set "agent" (JStr "ComplianceAgent") d)).
Proof.
  intros Hb Hk Hp Hs Hl. unfold _analyze_with_crewai.
  rewrite Hb. cbn [bind]. rewrite Hk. cbn [bind].
  rewrite (json_match_span _ _ _ Hp Hs). unfold loads. rewrite Hl.
  reflexivity.
Qed.

Lemma analyze_with_crewai_unwraps_object_witness :
  _analyze_with_crewai
    (fun s => if (s =? "{ok}")%string
              then Some (JObj [("approved", JBool true); ("agent", JStr "gpt")])
              else None)
    (fun _ => Ok tt) (fun _ => Ok "Here is the analysis: {ok} Regards")
    "income statement"
  = Ok (JObj [("approved", JBool true); ("agent", JStr "ComplianceAgent")]).
Proof.
  apply (analyze_with_crewai_unwraps_object _ (fun _ => Ok tt)
           (fun _ => Ok "Here is the analysis: {ok} Regards")
           "income statement" "Here is the analysis: " "ok" " Regards"
           [("approved", JBool true); ("agent", JStr "gpt")]);
    reflexivity.
Defined.

Lemma as_number_raise (v : json) (e : exn) :
  as_number v = Raise e -> exn_kind e = TypeError.
Proof. destruct v; cbn; intros H; try discriminate H; injection H as <-; reflexivity. Qed.

Lemma get_method_raise (v : json) (k : string) (d : json) (e : exn) :
  get_method v k d = Raise e -> exn_kind e = AttributeError.
Proof. destruct v; cbn; intros H; try discriminate H; injection H as <-; reflexivity. Qed.

Ltac raise_inv H :=
  repeat first
    [ lazymatch type of H with
      | bind ?m _ = Raise _ =>
          let E := fresh "E" in
          destruct m eqn:E; cbn [bind] in H;
          [| injection H as <-;
             first [ left; exact (as_number_raise _ _ E)
                   | right; exact (get_method_raise _ _ _ _ E)
                   | idtac ] ]
      | (let '(_, _) := ?p in _) = Raise _ => destruct p
      | Ok _ = Raise _ => discriminate H
      end ].

(** The structured analysis raises nothing but a [TypeError] or an
    [AttributeError]. *)
Lemma analyze_structured_data_raise (format_1f : Q -> string)
      (data : list (string * json)) (e : exn) :
  Compliance._analyze_structured_data format_1f data = Raise e ->
  exn_kind e = TypeError \/ exn_kind e = AttributeError.
Proof.
  unfold Compliance._analyze_structured_data. intros H.
  destruct (Compliance.extract_metrics data) as [m | e0] eqn:Em; cbn [bind] in H.
  - destruct m as [[[[cs ai] md] la] dti]. raise_inv H.
  - injection H as <-. unfold Compliance.extract_metrics in Em.
    destruct (has_key "risk_assessment" (JObj data)
              && has_key "document_data" (JObj data)).
    + raise_inv Em.
    + raise_inv Em.
      all: try match goal with
           | E : (if ?c then _ else _) = Raise _ |- _ =>
               destruct c; [raise_inv E | discriminate E]
           end.
Qed.


Lemma analyze_structured_raise (format_1f : Q -> string) (data : json) (e : exn) :
  analyze_structured format_1f data = Raise e ->
  exn_kind e = TypeError \/ exn_kind e = AttributeError.
Proof.
  destruct data; cbn [analyze_structured contains bind]; intros H;
    try (injection H as <-; first [left; reflexivity | right; reflexivity]).
  exact (analyze_structured_data_raise _ _ _ H).
Qed.

(** X24.  Content that begins with an opening brace (after stripping) and
    parses as JSON is decided by the rules alone: [process] returns what
    the structured analysis returns or raises what it raises, and neither
    builds a crew nor calls the language model. *)
Theorem process_structured_bypasses_llm
        (format_1f : Q -> string) (py_strip : string -> string)
        (json_loads : string -> option json) (ensure_agent : result unit)
        (build_crew : string -> result unit) (kickoff : string -> result string)
        (content : string) (data : json) :
  prefix_of "{" (py_strip content) = true ->
  json_loads content = Some data ->
  process format_1f py_strip json_loads ensure_agent build_crew kickoff content
  = (_ <- ensure_agent ;; analyze_structured format_1f data).
Proof.
  intros Hp Hl. unfold process. destruct ensure_agent as [[] | e]; cbn [bind];
    [| reflexivity].
  rewrite Hp. unfold loads. rewrite Hl. cbn [bind].
  destruct (analyze_structured format_1f data) as [r | e] eqn:E; [reflexivity |].
  destruct (analyze_structured_raise _ _ _ E) as [Hk | Hk]; rewrite Hk; reflexivity.
Qed.

Lemma process_structured_bypasses_llm_witness :
  let json_loads := fun s =>
    if (s =? " {applicant}")%string
    then Some (JObj [ ("credit_score", JInt 700); ("annual_income", JInt 60000);
                      ("monthly_debt", JInt 1000) ])
    else None in
  process (fun _ => "20.0") Sample.ascii_strip json_loads (Ok tt)
    (fun _ => Raise (mkExn Other "no crew"))
    (fun _ => Raise (mkExn Other "no model")) " {applicant}"
  = (_ <- Ok tt ;;
     analyze_structured (fun _ => "20.0")
       (JObj [ ("credit_score", JInt 700); ("annual_income", JInt 60000);
               ("monthly_debt", JInt 1000) ])).
Proof.
  intros json_loads.
  apply (process_structured_bypasses_llm (fun _ => "20.0") Sample.ascii_strip
           json_loads (Ok tt) (fun _ => Raise (mkExn Other "no crew"))
           (fun _ => Raise (mkExn Other "no model")) " {applicant}");
    reflexivity.
Defined.



